(** * Card-balance reconciliation and dashboard aggregates of the trainer
      bookkeeping application.

    A shallow embedding of [transactions/views.py] and
    [transactions/forms.py].  Database tables are finite maps from primary
    keys to rows; model instances are in-memory snapshots of rows, so two
    instances loaded from the same row are distinct values and [save]
    writes the snapshot back over the row, whatever the row holds by then.
    Handlers run in a state monad over the database that also carries the
    exceptions of the object-relational mapper. *)

From Stdlib Require Import ZArith String.
From stdpp Require Import base option numbers strings list gmap fin_maps sorting.

Local Open Scope Z_scope.

(** ** Data model *)

(** Money is a [Decimal] in the source; it is counted here in the smallest
    unit of the currency, so sums and differences are exact as they are for
    [Decimal] values of a fixed scale. *)
Abbreviation Decimal := Z (only parsing).

(** A [datetime.date] is its proleptic Gregorian ordinal ([date.toordinal()]). *)
Abbreviation Date := Z (only parsing).

(** Row of the card table ([cards.models.Card]), with the columns the
    views and [cards/admin.py] name; the primary key is the key of the
    table. *)
Record CardRow := mkCardRow {
  card_user : positive;
  card_balance : Decimal;
  card_is_active : bool
}.

(** Row of the category table. *)
Record CategoryRow := mkCategoryRow {
  category_user : positive;
  category_name : string;
  category_type : string;
  category_is_active : bool
}.

(** Row of the transaction table. *)
Record TransactionRow := mkTransactionRow {
  transaction_user : positive;
  transaction_type : string;
  transaction_amount : Decimal;
  transaction_category : option positive;
  transaction_card : option positive;
  transaction_date : Date;
  transaction_description : string
}.

Record DB := mkDB {
  cards : gmap positive CardRow;
  categories : gmap positive CategoryRow;
  transactions : gmap positive TransactionRow
}.

(** An in-memory [Card] instance: the primary key and a copy of the fields
    as they were when the instance was loaded (or last assigned). *)
Record Card := mkCard {
  card_pk : positive;
  card_fields : CardRow
}.

Definition balance (c : Card) : Decimal := card_balance (card_fields c).

(** [card.balance = b] on an instance: only the in-memory copy changes. *)
Definition set_balance (b : Decimal) (c : Card) : Card :=
  mkCard (card_pk c)
         (mkCardRow (card_user (card_fields c)) b (card_is_active (card_fields c))).

Record Category := mkCategory {
  category_pk : positive;
  category_fields : CategoryRow
}.

(** An in-memory [Transaction] instance.  [pk] is [None] until the first
    save, [user] is [None] on a blank instance, and [card_cache] is the
    related-object cache behind the [card] attribute: once a [Card]
    instance has been assigned to (or loaded through) the attribute, later
    reads return that same instance without consulting the database. *)
Record Transaction := mkTransaction {
  pk : option positive;
  user : option positive;
  type : string;
  amount : Decimal;
  category_id : option positive;
  card_id : option positive;
  date : Date;
  description : string;
  card_cache : option Card
}.

(** ** The handler monad: state over the database, with exceptions

    An exception aborts the handler; what was written before it stays
    written (the views open no database transaction). *)

Inductive exn := Http404 | DoesNotExist | IntegrityError | ValueError.

Definition M (A : Type) : Type := DB → (exn + A) * DB.

Definition ret {A} (a : A) : M A := λ db, (inr a, db).

Definition bind {A B} (m : M A) (k : A → M B) : M B :=
  λ db, match m db with
        | (inl e, db') => (inl e, db')
        | (inr a, db') => k a db'
        end.

Definition raise {A} (e : exn) : M A := λ db, (inl e, db).

Definition read {A} (f : DB → A) : M A := λ db, (inr (f db), db).

Definition write (f : DB → DB) : M unit := λ db, (inr tt, f db).

Notation "x <- m ;; k" := (bind m (λ x, k))
  (at level 100, m at next level, right associativity,
   format "'[v' x  <-  m  ;;  '/' k ']'").
Notation "m ;;; k" := (bind m (λ _, k))
  (at level 100, right associativity).

(** ** Object-relational primitives *)

(** A queryset is lazy: it is the accumulated WHERE clause, evaluated
    against the table when the handler iterates, aggregates or gets.
    Orderings are left out: they depend on the database collation and
    decide only the presentation order. *)
Definition QuerySet (R : Type) : Type := positive → R → bool.

(** [Model.objects] / [Model.objects.all()] *)
Definition objects {R} : QuerySet R := λ _ _, true.

(** [qs.filter(cond)] *)
Definition qfilter {R} (cond : positive → R → bool) (qs : QuerySet R) : QuerySet R :=
  λ k r, qs k r && cond k r.

(** The rows a queryset selects from a table. *)
Definition qs_rows {R} (qs : QuerySet R) (t : gmap positive R) : gmap positive R :=
  filter (λ kr, qs kr.1 kr.2 = true) t.

(** [qs.get(pk=k)], also [qs.filter(id=k).first()]: the row, if the
    queryset selects it. *)
Definition qs_get {R} (qs : QuerySet R) (t : gmap positive R) (k : positive) : option R :=
  match t !! k with
  | Some r => if qs k r then Some r else None
  | None => None
  end.

(** [qs.aggregate(total=Sum(f))['total'] or Decimal('0')]: the aggregate is
    [None] over no rows, which the [or] turns into zero. *)
Definition Sum {R} (f : R → Decimal) (m : gmap positive R) : Decimal :=
  foldr (λ kr acc, f kr.2 + acc) 0 (map_to_list m).

(** Modelled from the spec: [cards/models.py] and [transactions/models.py]
    are not among the sources; the spec describes the entities as plain
    persisted records with no constraint at the model or storage layer, so
    [save] and [delete] are the framework's own.

    [card.save()]: every field of the instance is written over the row. *)
Definition Card_save (c : Card) : M unit :=
  write (λ db, mkDB (<[card_pk c := card_fields c]> (cards db)) (categories db) (transactions db)).

(** Loading a transaction row into a fresh instance; nothing is cached. *)
Definition Transaction_from_db (k : positive) (r : TransactionRow) : Transaction :=
  mkTransaction (Some k) (Some (transaction_user r)) (transaction_type r)
                (transaction_amount r) (transaction_category r) (transaction_card r)
                (transaction_date r) (transaction_description r) None.

(** The [card] attribute of a transaction instance: the cached instance if
    there is one, otherwise a fresh load by [card_id]. *)
Definition Transaction_card (t : Transaction) : M (option Card) :=
  match card_cache t with
  | Some c => ret (Some c)
  | None =>
      match card_id t with
      | None => ret None
      | Some k =>
          row <- read (λ db, cards db !! k) ;;
          match row with
          | Some r => ret (Some (mkCard k r))
          | None => raise DoesNotExist
          end
      end
  end.

(** [transaction.save()]: insert under a fresh key when the instance has no
    primary key yet, update the row otherwise.  The user column is not
    nullable. *)
Definition Transaction_save (t : Transaction) : M Transaction :=
  match user t with
  | None => raise IntegrityError
  | Some u =>
      let r := mkTransactionRow u (type t) (amount t) (category_id t) (card_id t)
                                (date t) (description t) in
      k <- match pk t with
           | Some k => ret k
           | None => read (λ db, fresh (dom (transactions db)))
           end ;;
      write (λ db, mkDB (cards db) (categories db) (<[k := r]> (transactions db))) ;;;
      ret (mkTransaction (Some k) (user t) (type t) (amount t) (category_id t)
                         (card_id t) (date t) (description t) (card_cache t))
  end.

(** [transaction.delete()] *)
Definition Transaction_delete (t : Transaction) : M unit :=
  match pk t with
  | Some k => write (λ db, mkDB (cards db) (categories db) (delete k (transactions db)))
  | None => ret tt
  end.

(** [SingleObjectMixin.get_object]: the row with the requested primary key
    among those of the view's queryset, or [Http404]. *)
Definition get_object (qs : QuerySet TransactionRow) (k : positive) : M Transaction :=
  row <- read (λ db, qs_get qs (transactions db) k) ;;
  match row with
  | Some r => ret (Transaction_from_db k r)
  | None => raise Http404
  end.

(** ** [transactions/forms.py]: [TransactionForm] *)

(** The submitted data, each value as its form field parses it.  [None]
    stands for a key that is absent or empty, or for an amount or date that
    does not parse; a card or category value that is no primary key of the
    table behaves as a key outside every queryset. *)
Record FormData := mkFormData {
  data_type : option string;
  data_amount : option Decimal;
  data_category : option positive;
  data_card : option positive;
  data_date : option Date;
  data_description : string
}.

Record TransactionForm := mkTransactionForm {
  data : FormData;
  instance : Transaction;
  card_queryset : QuerySet CardRow;
  category_queryset : QuerySet CategoryRow
}.

(** [TransactionForm.__init__(user=user, data=data, instance=instance)].
    The styling of widgets and the initial date are presentation only. *)
Definition TransactionForm_init (user : positive) (data : FormData)
    (instance : Transaction) : TransactionForm :=
  let card_qs : QuerySet CardRow :=
    qfilter (λ _ c, bool_decide (card_user c = user)) objects in
  let categories : QuerySet CategoryRow :=
    qfilter (λ _ c, bool_decide (category_user c = user) && category_is_active c) objects in
  let tx_type : option string :=
    match data_type data with
    | Some t => Some t
    | None => match pk instance with
              | Some _ => Some (type instance)
              | None => None
              end
    end in
  let categories :=
    match tx_type with
    | Some t =>
        if bool_decide (t = "income"%string) || bool_decide (t = "expense"%string)
        then qfilter (λ _ c, bool_decide (category_type c = t)) categories
        else categories
    | None => categories
    end in
  mkTransactionForm data instance card_qs categories.

(** What [transactions/models.py], which is not among the sources, adds to
    the validation of a transaction: the choices of [type], validators on
    [amount], whether [category] may stay empty.  Every statement below
    holds whatever this check accepts. *)
Class ModelValidation := { clean_fields : Transaction → bool }.

Section Views.
Context `{ModelValidation}.

(** [ModelChoiceField.clean]: empty is no object; otherwise the object is
    fetched through the field's queryset at this moment, and a key the
    queryset does not select is an invalid choice (outer [None]). *)
Definition clean_choice {R} (qs : QuerySet R) (t : gmap positive R)
    (value : option positive) : option (option (positive * R)) :=
  match value with
  | None => Some None
  | Some k => match qs_get qs t k with
              | Some r => Some (Some (k, r))
              | None => None
              end
  end.

(** [form.full_clean()] against the database as it is at that moment:
    field cleaning, then [construct_instance] onto [form.instance], then
    model validation.  The cleaned [Card] instance is assigned to the
    [card] attribute of [form.instance] and stays cached there.  The result
    is the form with its instance filled in, or [None] when the form has
    errors. *)
Definition full_clean (form : TransactionForm) (db : DB) : option TransactionForm :=
  t ← data_type (data form);
  a ← data_amount (data form);
  category ← clean_choice (category_queryset form) (categories db) (data_category (data form));
  card ← clean_choice (card_queryset form) (cards db) (data_card (data form));
  d ← data_date (data form);
  let obj :=
    mkTransaction (pk (instance form)) (user (instance form)) t a
                  (fst <$> category) (fst <$> card) d
                  (data_description (data form))
                  ((λ kr, mkCard kr.1 kr.2) <$> card) in
  if clean_fields obj
  then Some (mkTransactionForm (data form) obj (card_queryset form) (category_queryset form))
  else None.

(** [form.is_valid()] *)
Definition is_valid (form : TransactionForm) : M (option TransactionForm) :=
  read (full_clean form).

(** ** [transactions/views.py] *)

Inductive Response :=
| HttpResponseRedirect (url : string)
| FormInvalid (template_name : string)
| RedirectToLogin.

Definition success_url : string := "transactions:list".
Definition template_name : string := "transactions/transaction_form.html".

(** [form.instance.user = u] *)
Definition set_instance_user (u : positive) (form : TransactionForm) : TransactionForm :=
  let i := instance form in
  mkTransactionForm (data form)
    (mkTransaction (pk i) (Some u) (type i) (amount i) (category_id i) (card_id i)
                   (date i) (description i) (card_cache i))
    (card_queryset form) (category_queryset form).

(** [ModelFormMixin.form_valid]: [self.object = form.save()], then the
    redirect.  [form.save()] saves [form.instance], which from then on
    carries its primary key. *)
Definition ModelFormMixin_form_valid (form : TransactionForm) : M (Response * TransactionForm) :=
  obj <- Transaction_save (instance form) ;;
  ret (HttpResponseRedirect success_url,
       mkTransactionForm (data form) obj (card_queryset form) (category_queryset form)).

(** [Transaction()], the instance a create form starts from; the form
    fields are overwritten by [construct_instance]. *)
Definition blank : Transaction :=
  mkTransaction None None "" 0 None None 0 "" None.

(** [TransactionCreateView.form_valid] *)
Definition TransactionCreateView_form_valid (request_user : positive)
    (form : TransactionForm) : M Response :=
  let form := set_instance_user request_user form in
  saved <- ModelFormMixin_form_valid form ;;
  let response := saved.1 in
  let form := saved.2 in
  card <- Transaction_card (instance form) ;;
  match card with
  | Some card =>
      let card :=
        if bool_decide (type (instance form) = "income"%string)
        then set_balance (balance card + amount (instance form)) card
        else set_balance (balance card - amount (instance form)) card in
      Card_save card ;;;
      ret response
  | None => ret response
  end.

(** [LoginRequiredMixin.dispatch] followed by [ProcessFormView.post] for
    the create view. *)
Definition TransactionCreateView_post (request_user : option positive)
    (POST : FormData) : M Response :=
  match request_user with
  | None => ret RedirectToLogin
  | Some u =>
      let form := TransactionForm_init u POST blank in
      checked <- is_valid form ;;
      match checked with
      | Some form => TransactionCreateView_form_valid u form
      | None => ret (FormInvalid template_name)
      end
  end.

(** [TransactionUpdateView.get_queryset] *)
Definition TransactionUpdateView_get_queryset (request_user : positive)
    : QuerySet TransactionRow :=
  qfilter (λ _ t, bool_decide (transaction_user t = request_user)) objects.

(** [TransactionUpdateView.form_valid] *)
Definition TransactionUpdateView_form_valid (request_user : positive)
    (k : positive) (form : TransactionForm) : M Response :=
  old_transaction <- get_object (TransactionUpdateView_get_queryset request_user) k ;;
  old_card <- Transaction_card old_transaction ;;
  match old_card with
  | Some old_card =>
      let old_card :=
        if bool_decide (type old_transaction = "income"%string)
        then set_balance (balance old_card - amount old_transaction) old_card
        else set_balance (balance old_card + amount old_transaction) old_card in
      Card_save old_card
  | None => ret tt
  end ;;;
  saved <- ModelFormMixin_form_valid form ;;
  let response := saved.1 in
  let form := saved.2 in
  new_card <- Transaction_card (instance form) ;;
  match new_card with
  | Some new_card =>
      let new_card :=
        if bool_decide (type (instance form) = "income"%string)
        then set_balance (balance new_card + amount (instance form)) new_card
        else set_balance (balance new_card - amount (instance form)) new_card in
      Card_save new_card ;;;
      ret response
  | None => ret response
  end.

(** [LoginRequiredMixin.dispatch] followed by [BaseUpdateView.post]:
    [self.object = self.get_object()], the form is built on that instance
    and validated, and only then [form_valid] runs. *)
Definition TransactionUpdateView_post (request_user : option positive)
    (k : positive) (POST : FormData) : M Response :=
  match request_user with
  | None => ret RedirectToLogin
  | Some u =>
      object <- get_object (TransactionUpdateView_get_queryset u) k ;;
      let form := TransactionForm_init u POST object in
      checked <- is_valid form ;;
      match checked with
      | Some form => TransactionUpdateView_form_valid u k form
      | None => ret (FormInvalid template_name)
      end
  end.

(** [TransactionListView.get_queryset], before the optional filters of the
    filter form, which only narrow it. *)
Definition TransactionListView_get_queryset (request_user : positive)
    : QuerySet TransactionRow :=
  qfilter (λ _ t, bool_decide (transaction_user t = request_user)) objects.

(** [DeletionMixin.delete], which [super().delete] reaches: the object is
    looked up again and deleted. *)
Definition DeletionMixin_delete (qs : QuerySet TransactionRow) (k : positive) : M Response :=
  object <- get_object qs k ;;
  Transaction_delete object ;;;
  ret (HttpResponseRedirect success_url).

(** [TransactionDeleteView.delete].  The class has no [LoginRequiredMixin]
    and no [get_queryset]: the handler runs for any requester, and
    [get_object] searches [Transaction.objects.all()]. *)
Definition TransactionDeleteView_delete (request_user : option positive)
    (k : positive) : M Response :=
  transaction <- get_object objects k ;;
  card <- Transaction_card transaction ;;
  match card with
  | Some card =>
      let card :=
        if bool_decide (type transaction = "income"%string)
        then set_balance (balance card - amount transaction) card
        else set_balance (balance card + amount transaction) card in
      Card_save card
  | None => ret tt
  end ;;;
  DeletionMixin_delete objects k.

(** The release of the framework, which the project does not pin: it
    decides which method of a [DeleteView] a POST reaches. *)
Inductive Django := Before_4_0 | From_4_0.

(** [TransactionDeleteView.post], which the view inherits.  Up to Django
    3.2 it is [DeletionMixin.post], which calls [self.delete].  From Django
    4.0 on it is [BaseDeleteView.post]: the object is fetched, the
    confirmation form, which has no field, is valid, and [form_valid]
    deletes the object and redirects; the [delete] of the view is left to
    requests of the DELETE verb. *)
Definition TransactionDeleteView_post (release : Django)
    (request_user : option positive) (k : positive) : M Response :=
  match release with
  | Before_4_0 => TransactionDeleteView_delete request_user k
  | From_4_0 =>
      object <- get_object objects k ;;
      Transaction_delete object ;;;
      ret (HttpResponseRedirect success_url)
  end.

End Views.

(** ** Dates, as [datetime.date] computes them *)

Module datetime.

Definition is_leap (year : Z) : bool :=
  (year mod 4 =? 0) && (negb (year mod 100 =? 0) || (year mod 400 =? 0)).

Definition days_before_year (year : Z) : Z :=
  let y := year - 1 in y * 365 + y / 4 - y / 100 + y / 400.

Definition DAYS_IN_MONTH : list Z :=
  [-1; 31; 28; 31; 30; 31; 30; 31; 31; 30; 31; 30; 31].

Definition DAYS_BEFORE_MONTH : list Z :=
  [-1; 0; 31; 59; 90; 120; 151; 181; 212; 243; 273; 304; 334].

Definition table (l : list Z) (month : Z) : Z := default 0 (l !! Z.to_nat month).

Definition days_before_month (year month : Z) : Z :=
  table DAYS_BEFORE_MONTH month + (if (2 <? month) && is_leap year then 1 else 0).

Definition ymd2ord (year month day : Z) : Z :=
  days_before_year year + days_before_month year month + day.

Definition DI400Y : Z := 146097.
Definition DI100Y : Z := 36524.
Definition DI4Y : Z := 1461.

Definition ord2ymd (n : Z) : Z * Z * Z :=
  let n := n - 1 in
  let n400 := n / DI400Y in
  let n := n mod DI400Y in
  let year := n400 * 400 + 1 in
  let n100 := n / DI100Y in
  let n := n mod DI100Y in
  let n4 := n / DI4Y in
  let n := n mod DI4Y in
  let n1 := n / 365 in
  let n := n mod 365 in
  let year := year + n100 * 100 + n4 * 4 + n1 in
  if (n1 =? 4) || (n100 =? 4) then (year - 1, 12, 31)
  else
    let leapyear := (n1 =? 3) && (negb (n4 =? 24) || (n100 =? 3)) in
    let month := Z.shiftr (n + 50) 5 in
    let preceding :=
      table DAYS_BEFORE_MONTH month + (if (2 <? month) && leapyear then 1 else 0) in
    if n <? preceding
    then
      let month := month - 1 in
      let preceding :=
        preceding - (table DAYS_IN_MONTH month
                     + (if (month =? 2) && leapyear then 1 else 0)) in
      (year, month, n - preceding + 1)
    else (year, month, n - preceding + 1).

(** [d.weekday()], Monday is 0 *)
Definition weekday (d : Date) : Z := (d + 6) mod 7.

(** [d.replace(day=1)] *)
Definition first_of_month (d : Date) : Date :=
  let '(y, m, _) := ord2ymd d in ymd2ord y m 1.

(** [d.replace(month=1, day=1)] *)
Definition first_of_year (d : Date) : Date :=
  let '(y, _, _) := ord2ymd d in ymd2ord y 1 1.

End datetime.

(** ** [DashboardView] *)

(** Python floats enter in one place only, the average of rule 4.  Their
    arithmetic is kept abstract: the conversion from [Decimal], the sum of
    a list, the division by the length and the comparison with 3000. *)
Class PyFloat := {
  float : Type;
  float_of_Decimal : Decimal → float;
  float_sum : list float → float;
  float_div_len : float → nat → float;
  float_gt_3000 : float → bool
}.

(** A Python [str] is the sequence of its code points. *)
Abbreviation str := (list N) (only parsing).

(** What [str.isdigit] and [int] take from the interpreter.  For a code
    point: its value when it is a decimal digit (Unicode
    [Numeric_Type=Decimal]: the digits 0 to 9 of any script), and whether
    it is a digit of another kind ([Numeric_Type=Digit]: superscripts,
    circled digits and the like).  For the interpreter: the number of
    digits of the longest numeral [int] converts
    ([sys.get_int_max_str_digits()], 0 when there is no limit). *)
Class PyStr := {
  decimal : N → option N;
  other_digit : N → bool;
  int_max_str_digits : nat
}.

Section Dashboard.
Context `{PyFloat} `{PyStr}.

(** The texts of the recommendations, each with the values its template
    interpolates; rendering a number to text ([float(d):.0f]) belongs to
    the template. *)
Inductive Recommendation :=
| Overspending (difference : Decimal)
| TopCategory (name : option string) (total : Decimal)
| FastGrowth
| HighAverage (avg : float)
| SingleCategory
| Balanced.

(** [category__name] of a row: the name across the join, NULL without a
    category. *)
Definition category__name (db : DB) (t : TransactionRow) : option string :=
  c ← transaction_category t; category_name <$> categories db !! c.

(** [.values(key).annotate(total=Sum("amount"))]: one group per distinct
    key, with the sum of the amounts of its rows. *)
Definition annotate_total {K} `{EqDecision K} (key : TransactionRow → K)
    (rows : list TransactionRow) : list (K * Decimal) :=
  (λ k, (k, foldr (λ t acc, transaction_amount t + acc) 0
                  (filter (λ t, key t = k) rows)))
  <$> remove_dups (key <$> rows).

(** [.order_by("-total").first()]: a group of greatest total, [None] when
    there is no group.  Among equal totals the database decides; here the
    earliest in the list wins. *)
Definition first_by_total {K} (groups : list (K * Decimal)) : option (K * Decimal) :=
  foldr (λ g best, match best with
                   | Some b => if g.2 <? b.2 then Some b else Some g
                   | None => Some g
                   end) None groups.

Definition is_expense : positive → TransactionRow → bool :=
  λ _ t, bool_decide (transaction_type t = "expense"%string).

Definition is_income : positive → TransactionRow → bool :=
  λ _ t, bool_decide (transaction_type t = "income"%string).

(** [DashboardView.generate_ai_recommendations]; [now] is the date read from
    the clock inside. *)
Definition generate_ai_recommendations (db : DB) (now : Date) (user : positive)
    (transactions_qs : QuerySet TransactionRow) (income expense : Decimal)
    : list Recommendation :=
  let recommendations : list Recommendation := [] in
  let expenses : list TransactionRow :=
    (map_to_list (qs_rows (qfilter is_expense transactions_qs) (transactions db))).*2 in
  (* 1 *)
  let recommendations :=
    if income <? expense
    then recommendations ++ [Overspending (expense - income)]
    else recommendations in
  (* 2 *)
  let top_cat := first_by_total (annotate_total (category__name db) expenses) in
  let recommendations :=
    match top_cat with
    | Some top_cat => recommendations ++ [TopCategory top_cat.1 top_cat.2]
    | None => recommendations
    end in
  (* 3 *)
  let week_ago := now - 7 in
  let week_expense :=
    Sum transaction_amount
        (qs_rows (qfilter (λ _ t, bool_decide (transaction_type t = "expense"%string)
                                  && (week_ago <=? transaction_date t))
                          transactions_qs)
                 (transactions db)) in
  let recommendations :=
    (* week_expense > expense * Decimal("0.5"), with 0.5 = 5/10 *)
    if (0 <? week_expense) && (expense * 5 <? week_expense * 10)
    then recommendations ++ [FastGrowth]
    else recommendations in
  (* 4 *)
  let expenses_list := (λ t, float_of_Decimal (transaction_amount t)) <$> expenses in
  let recommendations :=
    match expenses_list with
    | [] => recommendations
    | _ =>
        let avg := float_div_len (float_sum expenses_list) (length expenses_list) in
        if float_gt_3000 avg
        then recommendations ++ [HighAverage avg]
        else recommendations
    end in
  (* 5 *)
  let categories_count := length (remove_dups (transaction_category <$> expenses)) in
  let recommendations :=
    if bool_decide (categories_count = 1%nat)
    then recommendations ++ [SingleCategory]
    else recommendations in
  (* 6 *)
  let recommendations :=
    match recommendations with
    | [] => recommendations ++ [Balanced]
    | _ => recommendations
    end in
  recommendations.

(** [s.isdigit()]: [s] is not empty and each of its characters is a
    digit, decimal or not. *)
Definition isdigit (s : str) : bool :=
  negb (bool_decide (s = []))
  && forallb (λ c, bool_decide (is_Some (decimal c)) || other_digit c) s.

(** [int(s)], which the lookup [id=card_id] applies to its argument, for
    an [s] that [isdigit] accepts (it holds no sign, blank or underscore);
    [None] stands for [ValueError], raised when [s] is longer than the
    limit of the interpreter or holds a digit that is not a decimal
    digit. *)
Definition int (s : str) : option N :=
  if bool_decide (int_max_str_digits ≠ 0%nat)
     && bool_decide (int_max_str_digits < length s)%nat
  then None
  else foldl (λ acc c, a ← acc; d ← decimal c; Some (a * 10 + d)%N) (Some 0%N) s.

(** What the template context holds of the figures studied here; the period
    title, the last ten transactions and the chart series are left out. *)
Record Context := mkContext {
  ctx_period : string;
  ctx_start_date : Date;
  ctx_selected_card : option Card;
  ctx_income : Decimal;
  ctx_expense : Decimal;
  ctx_balance : Decimal;
  ctx_ai_recommendations : list Recommendation
}.

(** The base queryset of the dashboard: the user's transactions from
    [start_date] to [today], of the selected card when there is one. *)
Definition dashboard_transactions (user : positive) (start_date today : Date)
    (selected_card : option Card) : QuerySet TransactionRow :=
  let transactions_qs :=
    qfilter (λ _ t, bool_decide (transaction_user t = user)
                    && (start_date <=? transaction_date t)
                    && (transaction_date t <=? today)) objects in
  match selected_card with
  | Some c => qfilter (λ _ t, bool_decide (transaction_card t = Some (card_pk c))) transactions_qs
  | None => transactions_qs
  end.

(** [DashboardView.get_context_data] for the logged-in [user];
    [GET_period] and [GET_card] are the query parameters, [today] the date
    read from the clock at the start and [now] the one read inside
    [generate_ai_recommendations].  The lookup [cards.filter(id=card_id)]
    converts [card_id] with [int] and raises [ValueError] when that
    fails; no row has the primary key 0. *)
Definition DashboardView_get_context_data (db : DB) (today now : Date)
    (user : positive) (GET_period : option string) (GET_card : option str)
    : exn + Context :=
  let period := default "month"%string GET_period in
  let start_date :=
    if bool_decide (period = "week"%string) then today - datetime.weekday today
    else if bool_decide (period = "year"%string) then datetime.first_of_year today
    else datetime.first_of_month today in
  let cards_qs : QuerySet CardRow :=
    qfilter (λ _ c, bool_decide (card_user c = user)) objects in
  let selected_card : exn + option Card :=
    match GET_card with
    | Some card_id =>
        if negb (bool_decide (card_id = [])) && isdigit card_id
        then
          match int card_id with
          | Some N0 => inr None
          | Some (Npos k) => inr (mkCard k <$> qs_get cards_qs (cards db) k)
          | None => inl ValueError
          end
        else inr None
    | None => inr None
    end in
  match selected_card with
  | inl e => inl e
  | inr selected_card =>
      let transactions_qs := dashboard_transactions user start_date today selected_card in
      let income :=
        Sum transaction_amount (qs_rows (qfilter is_income transactions_qs) (transactions db)) in
      let expense :=
        Sum transaction_amount
            (qs_rows (qfilter is_expense transactions_qs) (transactions db)) in
      let balance :=
        match selected_card with
        | Some c => balance c
        | None => Sum card_balance (qs_rows cards_qs (cards db))
        end in
      inr (mkContext period start_date selected_card income expense balance
             (generate_ai_recommendations db now user transactions_qs income expense))
  end.

End Dashboard.

(** ** [TransactionFilterForm] and [TransactionListView] *)

(** A value submitted for an optional field: absent or empty, not
    parsable, or parsed. *)
Inductive Submitted (A : Type) :=
| Empty
| Malformed
| Parsed (a : A).
Arguments Empty {A}.
Arguments Malformed {A}.
Arguments Parsed {A} a.

(** The query string of the list view, as the filter form reads it.  A
    category value that is no primary key of the table behaves as a key
    outside every queryset. *)
Record FilterData := mkFilterData {
  filter_type : option string;
  filter_category : option positive;
  filter_date_from : Submitted Date;
  filter_date_to : Submitted Date
}.

(** The keys of [Transaction.TYPE_CHOICES], which [transactions/models.py]
    declares; the statements hold whatever the list is. *)
Class TransactionChoices := { TYPE_CHOICES : list string }.

(** [Category.objects.none()] *)
Definition none {R} : QuerySet R := λ _ _, false.

Record TransactionFilterForm := mkTransactionFilterForm {
  filter_data : FilterData;
  filter_category_queryset : QuerySet CategoryRow
}.

(** [TransactionFilterForm.__init__(data, user=user)] *)
Definition TransactionFilterForm_init (data : FilterData) (user : option positive)
    : TransactionFilterForm :=
  let category_qs : QuerySet CategoryRow := none in
  let category_qs :=
    match user with
    | Some u =>
        qfilter (λ _ c, bool_decide (category_user c = u) && category_is_active c) objects
    | None => category_qs
    end in
  mkTransactionFilterForm data category_qs.

Record FilterCleaned := mkFilterCleaned {
  cleaned_type : string;
  cleaned_category : option positive;
  cleaned_date_from : option Date;
  cleaned_date_to : option Date
}.

(** [DateField.clean] of an optional date. *)
Definition clean_date (v : Submitted Date) : option (option Date) :=
  match v with
  | Empty => Some None
  | Malformed => None
  | Parsed d => Some (Some d)
  end.

Section ListView.
Context `{TransactionChoices}.

(** [form.is_valid()] and [form.cleaned_data] of the filter form: no field
    is required; the type must be empty or one of the choices, the
    category one the queryset selects, the dates parsable. *)
Definition TransactionFilterForm_clean (form : TransactionFilterForm) (db : DB)
    : option FilterCleaned :=
  ty ← (let v := default ""%string (filter_type (filter_data form)) in
        if bool_decide (v = ""%string) || bool_decide (v ∈ TYPE_CHOICES)
        then Some v else None);
  category ← clean_choice (filter_category_queryset form) (categories db)
                          (filter_category (filter_data form));
  date_from ← clean_date (filter_date_from (filter_data form));
  date_to ← clean_date (filter_date_to (filter_data form));
  Some (mkFilterCleaned ty (fst <$> category) date_from date_to).

(** [TransactionListView.get_queryset] with the filters of the query
    string.  The filter form is validated against the database as it is;
    when it has an error, no filter at all is applied. *)
Definition TransactionListView_get_queryset_filtered (request_user : positive)
    (GET : FilterData) (db : DB) : QuerySet TransactionRow :=
  let queryset := TransactionListView_get_queryset request_user in
  let form := TransactionFilterForm_init GET (Some request_user) in
  match TransactionFilterForm_clean form db with
  | Some cleaned_data =>
      let queryset :=
        if bool_decide (cleaned_type cleaned_data = ""%string) then queryset
        else qfilter (λ _ t, bool_decide (transaction_type t = cleaned_type cleaned_data))
                     queryset in
      let queryset :=
        match cleaned_category cleaned_data with
        | Some c => qfilter (λ _ t, bool_decide (transaction_category t = Some c)) queryset
        | None => queryset
        end in
      let queryset :=
        match cleaned_date_from cleaned_data with
        | Some d => qfilter (λ _ t, d <=? transaction_date t) queryset
        | None => queryset
        end in
      let queryset :=
        match cleaned_date_to cleaned_data with
        | Some d => qfilter (λ _ t, transaction_date t <=? d) queryset
        | None => queryset
        end in
      queryset
  | None => queryset
  end.

Record ListContext := mkListContext {
  total_income : Decimal;
  total_expense : Decimal;
  list_balance : Decimal
}.

(** [TransactionListView.get_context_data]: the totals over the filtered
    queryset (not over the page shown). *)
Definition TransactionListView_get_context_data (request_user : positive)
    (GET : FilterData) (db : DB) : ListContext :=
  let queryset := TransactionListView_get_queryset_filtered request_user GET db in
  let income :=
    Sum transaction_amount (qs_rows (qfilter is_income queryset) (transactions db)) in
  let expense :=
    Sum transaction_amount (qs_rows (qfilter is_expense queryset) (transactions db)) in
  mkListContext income expense (income - expense).

End ListView.

(** ** [BudgetForm] *)

(** [BudgetForm.__init__(user=user)]: the queryset of the category field.
    Without a user the field keeps the queryset the model form gives it,
    every category. *)
Definition BudgetForm_init (user : option positive) : QuerySet CategoryRow :=
  match user with
  | Some u =>
      qfilter (λ _ c, bool_decide (category_user c = u)
                      && bool_decide (category_type c = "expense"%string)
                      && category_is_active c) objects
  | None => objects
  end.

(** ** The category views *)

(** [CategoryListView.get_queryset], and the same in [CategoryUpdateView]
    and [CategoryDeleteView] *)
Definition CategoryListView_get_queryset (request_user : positive) : QuerySet CategoryRow :=
  qfilter (λ _ c, bool_decide (category_user c = request_user)) objects.

Definition CategoryUpdateView_get_queryset := CategoryListView_get_queryset.
Definition CategoryDeleteView_get_queryset := CategoryListView_get_queryset.

(** What deleting a category does to the rows that refer to it, which is
    the [on_delete] that [transactions/models.py] declares for them. *)
Class CategoryOnDelete := { Category_collect : positive → M unit }.

(** [CategoryDeleteView] answering a confirmed deletion by a logged-in
    user: [get_object] over the user's categories, then
    [self.object.delete()].  The class has no [LoginRequiredMixin]; a
    request without a user is not modelled. *)
Definition CategoryDeleteView_delete `{CategoryOnDelete} (request_user k : positive)
    : M Response :=
  row <- read (λ db, qs_get (CategoryDeleteView_get_queryset request_user)
                            (categories db) k) ;;
  match row with
  | Some _ =>
      Category_collect k ;;;
      write (λ db, mkDB (cards db) (delete k (categories db)) (transactions db)) ;;;
      ret (HttpResponseRedirect "transactions:category_list")
  | None => raise Http404
  end.

(** ** The last transactions of the dashboard *)

(** [transactions.order_by('-date')[:10]] over the dashboard's base
    queryset.  Among equal dates the database decides the order; here the
    order of the table is kept. *)
Definition newer_first (a b : positive * TransactionRow) : Prop :=
  transaction_date b.2 ≤ transaction_date a.2.

Global Instance newer_first_dec a b : Decision (newer_first a b).
Proof. unfold newer_first. apply _. Defined.

Definition recent_transactions (db : DB) (transactions_qs : QuerySet TransactionRow)
    : list (positive * TransactionRow) :=
  take 10 (merge_sort newer_first (map_to_list (qs_rows transactions_qs (transactions db)))).

(** * Notions used in the statements *)

(** The row a card has once the effect of transaction row [t] is taken
    back from [row]. *)
Definition reversed (t : TransactionRow) (row : CardRow) : CardRow :=
  mkCardRow (card_user row)
    (if bool_decide (transaction_type t = "income"%string)
     then card_balance row - transaction_amount t
     else card_balance row + transaction_amount t)
    (card_is_active row).

(** The row a card has once the effect of a transaction of type [ty] and
    amount [a] is applied to [row]. *)
Definition applied (ty : string) (a : Decimal) (row : CardRow) : CardRow :=
  mkCardRow (card_user row)
    (if bool_decide (ty = "income"%string)
     then card_balance row + a
     else card_balance row - a)
    (card_is_active row).

(** The card table after the first half of [form_valid]: the effect of the
    stored transaction row [old] taken back from its card. *)
Definition cards_rolled_back (old : TransactionRow) (db : DB) : gmap positive CardRow :=
  match transaction_card old with
  | Some oc =>
      match cards db !! oc with
      | Some orow => <[oc := reversed old orow]> (cards db)
      | None => cards db
      end
  | None => cards db
  end.

(** The row [transaction.save()] writes for an instance of user [u]. *)
Definition row_of (u : positive) (i : Transaction) : TransactionRow :=
  mkTransactionRow u (type i) (amount i) (category_id i) (card_id i) (date i) (description i).

(** The card a stored transaction row names, if it names one, exists. *)
Definition old_card_exists (old : TransactionRow) (db : DB) : bool :=
  match transaction_card old with
  | Some oc => bool_decide (is_Some (cards db !! oc))
  | None => true
  end.

(** A transaction row refers only to a card and a category of its own
    user, the category an active one. *)
Definition owned_refs (db : DB) (t : TransactionRow) : Prop :=
  (∀ c, transaction_card t = Some c →
        ∃ r, cards db !! c = Some r ∧ card_user r = transaction_user t)
  ∧ (∀ g, transaction_category t = Some g →
          ∃ r, categories db !! g = Some r
               ∧ category_user r = transaction_user t
               ∧ category_is_active r = true).

(** What of a card no transaction view may change: owner and activity. *)
Definition card_identity (r : CardRow) : positive * bool :=
  (card_user r, card_is_active r).

(** [db'] has the cards of [db], with the same owners and activity, and
    the categories of [db]: at most balances and transaction rows differ. *)
Definition only_balances_differ (db db' : DB) : Prop :=
  categories db' = categories db
  ∧ ∀ c, card_identity <$> cards db' !! c = card_identity <$> cards db !! c.

(** Every stored transaction refers to a card and a category of its own
    user. *)
Definition well_formed (db : DB) : Prop :=
  ∀ k t, transactions db !! k = Some t → owned_refs db t.

(** The category of a transaction row, when it has one, is of the row's
    type. *)
Definition category_matches_type (db : DB) (t : TransactionRow) : Prop :=
  ∀ g, transaction_category t = Some g →
       ∃ r, categories db !! g = Some r ∧ category_type r = transaction_type t.

(** Two databases hold the same categories, the same cards of user [u]
    and the same transactions of user [u]. *)
Definition same_for_user (u : positive) (db db' : DB) : Prop :=
  categories db' = categories db
  ∧ qs_rows (λ _ c, bool_decide (card_user c = u)) (cards db')
    = qs_rows (λ _ c, bool_decide (card_user c = u)) (cards db)
  ∧ qs_rows (λ _ t, bool_decide (transaction_user t = u)) (transactions db')
    = qs_rows (λ _ t, bool_decide (transaction_user t = u)) (transactions db).

(** The month and the day of the month of the day numbered [n] (from 0) in
    a year, as the tail of [datetime.ord2ymd] computes them. *)
Definition month_day (leapyear : bool) (n : Z) : Z * Z :=
  let month := Z.shiftr (n + 50) 5 in
  let preceding :=
    datetime.table datetime.DAYS_BEFORE_MONTH month + (if (2 <? month) && leapyear then 1 else 0) in
  if n <? preceding
  then
    let month := month - 1 in
    let preceding :=
      preceding - (datetime.table datetime.DAYS_IN_MONTH month
                   + (if (month =? 2) && leapyear then 1 else 0)) in
    (month, n - preceding + 1)
  else (month, n - preceding + 1).

Definition month_day_ok (leapyear : bool) (n : Z) : bool :=
  let '(m, d) := month_day leapyear n in
  (1 <=? d) && (d <=? 31)
  && (datetime.table datetime.DAYS_BEFORE_MONTH m
      + (if (2 <? m) && leapyear then 1 else 0) + d =? n + 1).

(** The year reached after [a] centuries, [b] four-year spans and [c]
    years of a 400-year cycle. *)
Definition span_ok (a b c : Z) : bool :=
  let days := 36524 * a + 1461 * b + 365 * c in
  if (c =? 4) || (a =? 4)
  then
    if ((a =? 4) && (b =? 0) && (c =? 0)) || ((a <=? 3) && (b <=? 23) && (c =? 4))
    then (datetime.ymd2ord (100 * a + 4 * b + c) 12 1 =? days - 29)
         && (datetime.ymd2ord (100 * a + 4 * b + c) 1 1 =? days - 364)
    else true
  else
    (datetime.days_before_year (1 + 100 * a + 4 * b + c) =? days)
    && bool_decide (datetime.is_leap (1 + 100 * a + 4 * b + c)
                    = (c =? 3) && (negb (b =? 24) || (a =? 3))).

(** Whether the year that follows [a] centuries, [b] four-year spans and
    [c] years of a 400-year cycle is a leap year, and the number of days
    of a year. *)
Definition leap_span (a b c : Z) : bool := (c =? 3) && (negb (b =? 24) || (a =? 3)).

Definition year_length (leapyear : bool) : Z := if leapyear then 366 else 365.

(** The number of the day (from 0) in the year on which month [m] starts,
    and the number of days of the month. *)
Definition month_start (leapyear : bool) (m : Z) : Z :=
  datetime.table datetime.DAYS_BEFORE_MONTH m + (if (2 <? m) && leapyear then 1 else 0).

Definition month_length (leapyear : bool) (m : Z) : Z :=
  datetime.table datetime.DAYS_IN_MONTH m + (if (m =? 2) && leapyear then 1 else 0).

Definition month_day_fits (leapyear : bool) (n : Z) : bool :=
  let '(m, d) := month_day leapyear n in
  (1 <=? m) && (m <=? 12) && (1 <=? d) && (d <=? month_length leapyear m)
  && (0 <=? month_start leapyear m) && (month_start leapyear m + d =? n + 1).

Definition months_apart (leapyear : bool) (m m' : Z) : bool :=
  (m =? m')
  || (month_start leapyear m + month_length leapyear m <=? month_start leapyear m')
  || (month_start leapyear m' + month_length leapyear m' <=? month_start leapyear m).

(** [d.year] and [d.month] *)
Definition date_year (d : Date) : Z := (datetime.ord2ymd d).1.1.
Definition date_month (d : Date) : Z := (datetime.ord2ymd d).1.2.

(** The days of a period, in terms of the calendar.  No day after [today]
    is in a period.  The week holds the days of the week of [today],
    Monday first: those less than 7 days back whose day of the week is not
    after that of [today].  The year holds the days of the year of
    [today].  Any other period counts as the month and holds the days of
    the month of [today]. *)
Definition in_period (period : string) (today d : Date) : Prop :=
  d ≤ today
  ∧ if bool_decide (period = "week"%string)
    then today - d < 7 ∧ datetime.weekday d ≤ datetime.weekday today
    else if bool_decide (period = "year"%string)
         then date_year d = date_year today
         else date_year d = date_year today ∧ date_month d = date_month today.

(** Sum of a list of amounts; the order of the rows does not matter. *)
Definition sumZ (l : list Z) : Z := foldr Z.add 0 l.

(** The transactions a dashboard figure counts: those of user [u], of type
    [ty], dated from [start] to [today], and on card [sel] when a card is
    selected. *)
Definition counted (u : positive) (ty : string) (start today : Date)
    (sel : option positive) (t : TransactionRow) : Prop :=
  transaction_user t = u
  ∧ transaction_type t = ty
  ∧ start ≤ transaction_date t ≤ today
  ∧ match sel with
    | Some c => transaction_card t = Some c
    | None => True
    end.

(** The transactions an income or expense figure of the dashboard is
    about: those of user [u], of type [ty], dated within the period, and
    on the chosen card when a card is chosen. *)
Definition in_figure (u : positive) (ty period : string) (today : Date)
    (chosen : option positive) (t : TransactionRow) : Prop :=
  transaction_user t = u
  ∧ transaction_type t = ty
  ∧ in_period period today (transaction_date t)
  ∧ match chosen with
    | Some c => transaction_card t = Some c
    | None => True
    end.

Section CardParameter.
Context `{PyStr}.

(** The card a user chooses with the [card] parameter: the card of the
    user whose primary key the parameter writes in digits, with the row
    the card table holds for it. *)
Definition chosen_card (db : DB) (u : positive) (GET_card : option str) : option Card :=
  card_id ← GET_card;
  n ← (if isdigit card_id then int card_id else None);
  match n with
  | N0 => None
  | Npos k =>
      r ← cards db !! k;
      if bool_decide (card_user r = u) then Some (mkCard k r) else None
  end.

(** The [card] parameters that are made of digits and that [int] does not
    convert. *)
Definition card_parameter_fails (GET_card : option str) : bool :=
  match GET_card with
  | Some card_id => isdigit card_id && bool_decide (int card_id = None)
  | None => false
  end.

End CardParameter.

(** The context the dashboard builds once the card is settled. *)
Definition dashboard_context `{PyFloat} (db : DB) (today now : Date) (user : positive)
    (GET_period : option string) (selected_card : option Card) : Context :=
  let period := default "month"%string GET_period in
  let start_date :=
    if bool_decide (period = "week"%string) then today - datetime.weekday today
    else if bool_decide (period = "year"%string) then datetime.first_of_year today
    else datetime.first_of_month today in
  let cards_qs : QuerySet CardRow :=
    qfilter (λ _ c, bool_decide (card_user c = user)) objects in
  let transactions_qs := dashboard_transactions user start_date today selected_card in
  let income :=
    Sum transaction_amount (qs_rows (qfilter is_income transactions_qs) (transactions db)) in
  let expense :=
    Sum transaction_amount (qs_rows (qfilter is_expense transactions_qs) (transactions db)) in
  let balance :=
    match selected_card with
    | Some c => balance c
    | None => Sum card_balance (qs_rows cards_qs (cards db))
    end in
  mkContext period start_date selected_card income expense balance
            (generate_ai_recommendations db now user transactions_qs income expense).

(** The sum of the amounts of the rows whose category name is [n]. *)
Definition name_total (db : DB) (n : option string) (rows : list TransactionRow) : Decimal :=
  sumZ (transaction_amount <$> filter (λ t, category__name db t = n) rows).

Section Rules.
Context `{PyFloat}.

(** The expense rows of a queryset, as [generate_ai_recommendations]
    reads them. *)
Definition expense_rows (db : DB) (qs : QuerySet TransactionRow) : list TransactionRow :=
  (map_to_list (qs_rows (qfilter is_expense qs) (transactions db))).*2.

(** The conditions under which each of the five rules appends its text. *)
Definition overspending_fires (income expense : Decimal) : bool := income <? expense.

Definition top_category_fires (db : DB) (qs : QuerySet TransactionRow) : bool :=
  bool_decide (is_Some (first_by_total (annotate_total (category__name db) (expense_rows db qs)))).

Definition fast_growth_fires (db : DB) (now : Date) (qs : QuerySet TransactionRow)
    (expense : Decimal) : bool :=
  let week_expense :=
    Sum transaction_amount
        (qs_rows (qfilter (λ _ t, bool_decide (transaction_type t = "expense"%string)
                                  && (now - 7 <=? transaction_date t)) qs)
                 (transactions db)) in
  (0 <? week_expense) && (expense * 5 <? week_expense * 10).

Definition high_average_fires (db : DB) (qs : QuerySet TransactionRow) : bool :=
  match (λ t, float_of_Decimal (transaction_amount t)) <$> expense_rows db qs with
  | [] => false
  | l => float_gt_3000 (float_div_len (float_sum l) (length l))
  end.

Definition single_category_fires (db : DB) (qs : QuerySet TransactionRow) : bool :=
  bool_decide (length (remove_dups (transaction_category <$> expense_rows db qs)) = 1%nat).

(** The texts of the rules that fire, in the order of the rules. *)
Definition rule_texts (db : DB) (now : Date) (qs : QuerySet TransactionRow)
    (income expense : Decimal) : list Recommendation :=
  (if overspending_fires income expense then [Overspending (expense - income)] else [])
  ++ match first_by_total (annotate_total (category__name db) (expense_rows db qs)) with
     | Some top_cat => [TopCategory top_cat.1 top_cat.2]
     | None => []
     end
  ++ (if fast_growth_fires db now qs expense then [FastGrowth] else [])
  ++ (if high_average_fires db qs
      then let l := (λ t, float_of_Decimal (transaction_amount t)) <$> expense_rows db qs in
           [HighAverage (float_div_len (float_sum l) (length l))]
      else [])
  ++ (if single_category_fires db qs then [SingleCategory] else []).

End Rules.

(** ** A small ledger for the examples *)

(** A model validation for the examples: the two types the views tell
    apart, and a positive amount. *)
Definition sample_validation : ModelValidation :=
  {| clean_fields := λ t,
       (bool_decide (type t = "income"%string) || bool_decide (type t = "expense"%string))
       && (0 <? amount t) |}.

(** Arithmetic for the examples that keeps the average as the exact
    fraction [sum / count], amounts being counted in hundredths. *)
Definition sample_arithmetic : PyFloat :=
  {| float := Z * nat;
     float_of_Decimal := λ z, (z, 1%nat);
     float_sum := λ l, (foldr (λ x acc, x.1 + acc) 0 l, 1%nat);
     float_div_len := λ s n, (s.1, n);
     float_gt_3000 := λ a, 300000 * Z.of_nat a.2 <? a.1 |}.

(** Users 1 and 2.  User 1 holds cards 1 and 2, user 2 holds card 3.
    Dates are ordinals: 738886 is Monday 2024-01-01. *)
Definition ledger : DB :=
  mkDB
    {[ 1%positive := mkCardRow 1 100 true;
       2%positive := mkCardRow 1 50 true;
       3%positive := mkCardRow 2 7 true ]}
    {[ 1%positive := mkCategoryRow 1 "salary" "income" true;
       2%positive := mkCategoryRow 1 "food" "expense" true;
       3%positive := mkCategoryRow 2 "rent" "expense" true ]}
    {[ 1%positive := mkTransactionRow 1 "income" 30 (Some 1%positive) (Some 1%positive) 738886 "";
       2%positive := mkTransactionRow 1 "expense" 40 (Some 2%positive) (Some 2%positive) 738887 "";
       3%positive := mkTransactionRow 2 "expense" 5 (Some 3%positive) (Some 3%positive) 738887 "" ]}.

(** Income of 50 on card 1, in category 1. *)
Definition income_50_on_card_1 : FormData :=
  mkFormData (Some "income"%string) (Some 50) (Some 1%positive) (Some 1%positive)
             (Some 738888) "".

(** Expense of 20 in cash, in category 2. *)
Definition expense_20_in_cash : FormData :=
  mkFormData (Some "expense"%string) (Some 20) (Some 2%positive) None (Some 738888) "".

(** An expense with no amount. *)
Definition expense_without_amount : FormData :=
  mkFormData (Some "expense"%string) None (Some 2%positive) (Some 2%positive)
             (Some 738888) "".

(** The two types as the choices of the examples. *)
(** The digits of the examples: the ASCII digits and the Arabic-Indic
    digits U+0660 to U+0669 are decimal digits, the superscripts U+00B2,
    U+00B3 and U+00B9 are digits of another kind, and [int] converts up to
    4300 digits, as CPython does by default from 3.11 on. *)
Definition sample_digits : PyStr :=
  {| decimal c :=
       if (48 <=? c)%N && (c <=? 57)%N then Some (c - 48)%N
       else if (1632 <=? c)%N && (c <=? 1641)%N then Some (c - 1632)%N
       else None;
     other_digit c := bool_decide (c ∈ [178%N; 179%N; 185%N]);
     int_max_str_digits := 4300 |}.

Definition sample_choices : TransactionChoices :=
  {| TYPE_CHOICES := ["income"%string; "expense"%string] |}.

(** Deleting a category leaves the other tables alone in the examples. *)
Definition sample_on_delete : CategoryOnDelete :=
  {| Category_collect := λ _, ret tt |}.

(** Income of 50 on card 2, in category 1. *)
Definition income_50_on_card_2 : FormData :=
  mkFormData (Some "income"%string) (Some 50) (Some 1%positive) (Some 2%positive)
             (Some 738888) "".

(** The list narrowed to expenses from 2024-01-01 on. *)
Definition expenses_of_2024 : FilterData :=
  mkFilterData (Some "expense"%string) None (Parsed 738886) Empty.

(** The list narrowed to expenses, and to category 3, which is user 2's. *)
Definition expenses_in_category_3 : FilterData :=
  mkFilterData (Some "expense"%string) (Some 3%positive) Empty Empty.

(** * Properties *)

(** ** Running handlers *)

Ltac run := unfold bind, ret, read, write, raise; cbn.

Lemma qs_get_objects {R} (t : gmap positive R) (k : positive) :
  qs_get objects t k = t !! k.
Proof. unfold qs_get, objects. by destruct (t !! k). Qed.

Lemma qs_get_Some {R} (qs : QuerySet R) (t : gmap positive R) k r :
  qs_get qs t k = Some r ↔ t !! k = Some r ∧ qs k r = true.
Proof.
  unfold qs_get. destruct (t !! k) as [r'|].
  - destruct (qs k r') eqn:E; split.
    + by intros [= ->].
    + by intros [[= ->] _].
    + done.
    + intros [[= ->] E']. congruence.
  - split; [done|]. by intros [? _].
Qed.

Lemma get_object_found qs k r db :
  qs_get qs (transactions db) k = Some r →
  get_object qs k db = (inr (Transaction_from_db k r), db).
Proof. intros E. unfold get_object. run. by rewrite E. Qed.

Lemma get_object_missing qs k db :
  qs_get qs (transactions db) k = None →
  get_object qs k db = (inl Http404, db).
Proof. intros E. unfold get_object. run. by rewrite E. Qed.

(** ** Deleting *)

Lemma delete_run ru k t db :
  transactions db !! k = Some t →
  TransactionDeleteView_delete ru k db =
  match transaction_card t with
  | None => (inr (HttpResponseRedirect success_url),
             mkDB (cards db) (categories db) (delete k (transactions db)))
  | Some c =>
      match cards db !! c with
      | Some row =>
          (inr (HttpResponseRedirect success_url),
           mkDB (<[c := reversed t row]> (cards db)) (categories db)
                (delete k (transactions db)))
      | None => (inl DoesNotExist, db)
      end
  end.
Proof.
  intros Ht. unfold TransactionDeleteView_delete.
  unfold bind at 1. rewrite (get_object_found objects k t) by (by rewrite qs_get_objects).
  unfold Transaction_card; cbn.
  destruct (transaction_card t) as [c|] eqn:Hc.
  - run. destruct (cards db !! c) as [row|] eqn:Hrow; [|done].
    unfold DeletionMixin_delete, get_object, Card_save. run.
    rewrite qs_get_objects. cbn. rewrite Ht. cbn. unfold Transaction_delete. run.
    unfold reversed, balance. by case_bool_decide.
  - run. unfold DeletionMixin_delete, get_object. run.
    by rewrite qs_get_objects, Ht.
Qed.

(** The [delete] handler of the view, run on transaction [k] recorded
    against card [c], answers with the redirect and leaves a database in
    which the transaction is gone, the balance of [c] has the amount
    subtracted if the transaction was an income and added back if it was an
    expense, and every other card is as it was. *)
Lemma delete_handler_reverses_effect_on_card (ru : option positive) (k c : positive)
    (t : TransactionRow) (row : CardRow) (db : DB) :
  transactions db !! k = Some t →
  transaction_card t = Some c →
  cards db !! c = Some row →
  ∃ db' row',
    TransactionDeleteView_delete ru k db = (inr (HttpResponseRedirect success_url), db')
    ∧ transactions db' = delete k (transactions db)
    ∧ cards db' !! c = Some row'
    ∧ card_user row' = card_user row
    ∧ (transaction_type t = "income"%string →
       card_balance row' = card_balance row - transaction_amount t)
    ∧ (transaction_type t = "expense"%string →
       card_balance row' = card_balance row + transaction_amount t)
    ∧ (∀ c', c' ≠ c → cards db' !! c' = cards db !! c').
Proof.
  intros Ht Hc Hrow. rewrite (delete_run ru k t db Ht), Hc, Hrow.
  eexists _, (reversed t row). split; [reflexivity|]. cbn.
  split; [done|]. split; [apply lookup_insert_eq|]. split; [done|].
  split; [|split].
  - intros E. by rewrite bool_decide_eq_true_2.
  - intros E. rewrite bool_decide_eq_false_2; [done|]. by rewrite E.
  - intros c' Hne. by rewrite lookup_insert_ne.
Qed.

(** A POST that the framework handles from release 4.0 on deletes the row
    and writes no card. *)
Lemma delete_post_run ru k t db :
  transactions db !! k = Some t →
  TransactionDeleteView_post From_4_0 ru k db
  = (inr (HttpResponseRedirect success_url),
     mkDB (cards db) (categories db) (delete k (transactions db))).
Proof.
  intros Ht. unfold TransactionDeleteView_post, get_object, Transaction_delete. run.
  by rewrite qs_get_objects, Ht.
Qed.

Lemma delete_post_missing release ru k db :
  transactions db !! k = None →
  TransactionDeleteView_post release ru k db = (inl Http404, db).
Proof.
  intros Ht. destruct release; unfold TransactionDeleteView_post.
  - unfold TransactionDeleteView_delete, get_object. run.
    by rewrite qs_get_objects, Ht.
  - unfold get_object. run. by rewrite qs_get_objects, Ht.
Qed.

(** ** Validation *)

Section Forms.
Context `{ModelValidation}.

Lemma is_valid_run form db : is_valid form db = (inr (full_clean form db), db).
Proof. reflexivity. Qed.

(** What a form that passed validation holds. *)
Lemma full_clean_Some form db form' :
  full_clean form db = Some form' →
  ∃ t a category card d,
    data_type (data form) = Some t
    ∧ data_amount (data form) = Some a
    ∧ clean_choice (category_queryset form) (categories db) (data_category (data form))
      = Some category
    ∧ clean_choice (card_queryset form) (cards db) (data_card (data form)) = Some card
    ∧ data_date (data form) = Some d
    ∧ form' = mkTransactionForm (data form)
                (mkTransaction (pk (instance form)) (user (instance form)) t a
                   (fst <$> category) (fst <$> card) d (data_description (data form))
                   ((λ kr, mkCard kr.1 kr.2) <$> card))
                (card_queryset form) (category_queryset form).
Proof.
  unfold full_clean. intros E.
  destruct (data_type (data form)) as [t|]; [|done].
  destruct (data_amount (data form)) as [a|]; [|done]. cbn in E.
  destruct (clean_choice (category_queryset form) _ _) as [category|]; [|done].
  destruct (clean_choice (card_queryset form) _ _) as [card|]; [|done]. cbn in E.
  destruct (data_date (data form)) as [d|]; [|done]. cbn in E.
  destruct (clean_fields _); [|done].
  injection E as <-. by eexists t, a, category, card, d.
Qed.

Lemma clean_choice_Some {R} (qs : QuerySet R) (t : gmap positive R) k x :
  clean_choice qs t (Some k) = Some x →
  ∃ r, x = Some (k, r) ∧ t !! k = Some r ∧ qs k r = true.
Proof.
  unfold clean_choice. destruct (qs_get qs t k) as [r|] eqn:E; [|done].
  intros [= <-]. apply qs_get_Some in E as [E1 E2]. by exists r.
Qed.

Lemma clean_choice_None {R} (qs : QuerySet R) (t : gmap positive R) x :
  clean_choice qs t None = Some x → x = None.
Proof. by intros [= <-]. Qed.

(** ** Creating *)

Lemma create_post_run u POST db :
  TransactionCreateView_post (Some u) POST db =
  match full_clean (TransactionForm_init u POST blank) db with
  | Some form => TransactionCreateView_form_valid u form db
  | None => (inr (FormInvalid template_name), db)
  end.
Proof.
  unfold TransactionCreateView_post. unfold bind at 1. rewrite is_valid_run.
  by destruct (full_clean _ db).
Qed.

(** [form_valid] on a form whose instance is new and carries the cleaned
    card (or none) in its cache. *)
Lemma create_form_valid_run u form db :
  pk (instance form) = None →
  card_id (instance form) = card_pk <$> card_cache (instance form) →
  let i := instance form in
  let k := fresh (dom (transactions db)) in
  let r := mkTransactionRow u (type i) (amount i) (category_id i) (card_id i)
                            (date i) (description i) in
  TransactionCreateView_form_valid u form db =
  (inr (HttpResponseRedirect success_url),
   mkDB (match card_cache i with
         | Some card => <[card_pk card := applied (type i) (amount i) (card_fields card)]> (cards db)
         | None => cards db
         end)
        (categories db)
        (<[k := r]> (transactions db))).
Proof.
  intros Hpk Hid. cbn zeta.
  unfold TransactionCreateView_form_valid, ModelFormMixin_form_valid, set_instance_user,
    Transaction_save, Transaction_card. cbn. rewrite Hpk. run.
  destruct (card_cache (instance form)) as [card|] eqn:Hcache.
  - unfold Card_save. run. unfold applied, balance.
    by case_bool_decide.
  - rewrite Hid. cbn. done.
Qed.

End Forms.

Section Creating.
Context `{ModelValidation}.

(** C2.  When the create view answers a request that names card [c] with
    the redirect, a transaction on [c] has been inserted under a new key
    with the submitted type and amount, and the balance of [c] is the
    former balance plus the amount for an income, minus the amount for an
    expense. *)
Theorem create_changes_card_balance_by_amount (u c : positive) (POST : FormData)
    (db db' : DB) (url : string) :
  TransactionCreateView_post (Some u) POST db = (inr (HttpResponseRedirect url), db') →
  data_card POST = Some c →
  ∃ k t row row',
    transactions db !! k = None
    ∧ transactions db' = <[k := t]> (transactions db)
    ∧ transaction_card t = Some c
    ∧ data_type POST = Some (transaction_type t)
    ∧ data_amount POST = Some (transaction_amount t)
    ∧ cards db !! c = Some row
    ∧ cards db' !! c = Some row'
    ∧ (transaction_type t = "income"%string →
       card_balance row' = card_balance row + transaction_amount t)
    ∧ (transaction_type t = "expense"%string →
       card_balance row' = card_balance row - transaction_amount t).
Proof.
  intros Hpost Hcard. rewrite create_post_run in Hpost.
  destruct (full_clean _ db) as [form|] eqn:Hclean; [|done].
  apply full_clean_Some in Hclean
    as (t & a & category & card & d & Ht & Ha & _ & Hc & Hd & ->).
  cbn in Ht, Ha, Hc, Hd. rewrite Hcard in Hc.
  apply clean_choice_Some in Hc as (row & -> & Hrow & _).
  rewrite create_form_valid_run in Hpost by done. cbn in Hpost.
  injection Hpost as _ <-. cbn.
  eexists (fresh (dom (transactions db))), _, row, (applied t a row).
  split; [apply not_elem_of_dom, is_fresh|]. split; [reflexivity|]. cbn.
  repeat split; try done.
  - apply lookup_insert_eq.
  - intros ->. done.
  - intros ->. done.
Qed.

(** C9.  When the submitted data validates and names no card, the create
    view answers with the redirect, inserts the transaction (with no card)
    under a new key, and leaves the card table as it was. *)
Theorem create_without_card_keeps_balances (u : positive) (POST : FormData)
    (db : DB) (form : TransactionForm) :
  full_clean (TransactionForm_init u POST blank) db = Some form →
  data_card POST = None →
  ∃ k t db',
    TransactionCreateView_post (Some u) POST db
      = (inr (HttpResponseRedirect success_url), db')
    ∧ cards db' = cards db
    ∧ transactions db !! k = None
    ∧ transactions db' = <[k := t]> (transactions db)
    ∧ transaction_user t = u
    ∧ transaction_card t = None
    ∧ data_type POST = Some (transaction_type t)
    ∧ data_amount POST = Some (transaction_amount t).
Proof.
  intros Hclean Hcard. rewrite create_post_run, Hclean.
  apply full_clean_Some in Hclean
    as (t & a & category & card & d & Ht & Ha & _ & Hc & Hd & ->).
  cbn in Ht, Ha, Hc, Hd. rewrite Hcard in Hc. apply clean_choice_None in Hc as ->.
  rewrite create_form_valid_run by done. cbn.
  eexists (fresh (dom (transactions db))), _, _. split; [reflexivity|]. cbn.
  split; [done|]. split; [apply not_elem_of_dom, is_fresh|]. done.
Qed.

(** C7.  When the submitted data does not validate, the create view
    re-renders the form, raises nothing, and hands back the database it
    was given: no transaction row is added and no card row is touched. *)
Theorem create_invalid_changes_nothing (u : positive) (POST : FormData) (db : DB) :
  full_clean (TransactionForm_init u POST blank) db = None →
  TransactionCreateView_post (Some u) POST db = (inr (FormInvalid template_name), db).
Proof. intros Hclean. by rewrite create_post_run, Hclean. Qed.

End Creating.

(** ** Updating *)

Section Updating.
Context `{ModelValidation}.

Lemma update_queryset_get u (t : gmap positive TransactionRow) k r :
  qs_get (TransactionUpdateView_get_queryset u) t k = Some r
  ↔ t !! k = Some r ∧ transaction_user r = u.
Proof.
  rewrite qs_get_Some. unfold TransactionUpdateView_get_queryset, qfilter, objects. cbn.
  by rewrite bool_decide_eq_true.
Qed.

(** The whole update request, for the owner of transaction [k], valid data
    and a stored transaction whose card (if any) exists.  The new effect is
    computed on the [Card] instance that validation fetched, and that
    instance is written over whatever the roll-back left in the table. *)
Lemma update_post_run u k old POST db form :
  transactions db !! k = Some old →
  transaction_user old = u →
  full_clean (TransactionForm_init u POST (Transaction_from_db k old)) db = Some form →
  (∀ oc, transaction_card old = Some oc → is_Some (cards db !! oc)) →
  let i := instance form in
  TransactionUpdateView_post (Some u) k POST db =
  (inr (HttpResponseRedirect success_url),
   mkDB (match card_cache i with
         | Some card =>
             <[card_pk card := applied (type i) (amount i) (card_fields card)]>
               (cards_rolled_back old db)
         | None => cards_rolled_back old db
         end)
        (categories db)
        (<[k := mkTransactionRow u (type i) (amount i) (category_id i) (card_id i)
                                 (date i) (description i)]> (transactions db))).
Proof.
  intros Hold Hu Hclean Hfk. cbn zeta.
  assert (Hget : qs_get (TransactionUpdateView_get_queryset u) (transactions db) k = Some old)
    by (by apply update_queryset_get).
  unfold TransactionUpdateView_post. unfold bind at 1.
  rewrite (get_object_found _ k old db Hget). unfold bind at 1.
  rewrite is_valid_run, Hclean.
  apply full_clean_Some in Hclean
    as (t & a & category & card & d & Ht & Ha & _ & Hc & Hd & ->).
  unfold TransactionUpdateView_form_valid. unfold bind at 1.
  rewrite (get_object_found _ k old db Hget).
  unfold cards_rolled_back, Transaction_card at 1. cbn.
  destruct (transaction_card old) as [oc|] eqn:Hoc.
  - destruct (Hfk oc eq_refl) as [orow Horow]. run. rewrite Horow. cbn.
    unfold Transaction_save, Transaction_card. cbn. rewrite Hu. run.
    destruct card as [[nc nrow]|]; cbn.
    + unfold Card_save. run. unfold applied, reversed, balance. cbn.
      by repeat case_bool_decide.
    + unfold reversed, balance. cbn. by case_bool_decide.
  - run. unfold Transaction_save, Transaction_card. cbn. rewrite Hu. run.
    destruct card as [[nc nrow]|]; cbn.
    + unfold Card_save. run. unfold applied, balance. cbn. by case_bool_decide.
    + done.
Qed.

(** Updating a transaction without moving it to another card: the card
    ends with its balance from before the request plus the new effect
    alone.  The roll-back of the old effect is overwritten. *)
Lemma update_same_card_balance u k c old row POST db form :
  transactions db !! k = Some old →
  transaction_user old = u →
  transaction_card old = Some c →
  cards db !! c = Some row →
  data_card POST = Some c →
  full_clean (TransactionForm_init u POST (Transaction_from_db k old)) db = Some form →
  ∃ db',
    TransactionUpdateView_post (Some u) k POST db
      = (inr (HttpResponseRedirect success_url), db')
    ∧ cards db' !! c
      = Some (applied (type (instance form)) (amount (instance form)) row).
Proof.
  intros Hold Hu Hoc Hrow Hcard Hclean.
  rewrite (update_post_run u k old POST db form Hold Hu Hclean)
    by (intros oc; rewrite Hoc; intros [= <-]; by rewrite Hrow).
  apply full_clean_Some in Hclean
    as (t & a & category & card & d & Ht & Ha & _ & Hc & Hd & ->).
  cbn in Hc. rewrite Hcard in Hc.
  apply clean_choice_Some in Hc as (row' & -> & Hrow' & _).
  assert (row' = row) as -> by congruence.
  eexists. split; [reflexivity|]. cbn. apply lookup_insert_eq.
Qed.

(** Moving a transaction from card [oc] to another card [nc]: the old
    effect is taken back from [oc] and the new one applied to [nc]. *)
Lemma update_other_card_balances u k oc nc old orow nrow POST db form :
  transactions db !! k = Some old →
  transaction_user old = u →
  transaction_card old = Some oc →
  cards db !! oc = Some orow →
  data_card POST = Some nc →
  cards db !! nc = Some nrow →
  oc ≠ nc →
  full_clean (TransactionForm_init u POST (Transaction_from_db k old)) db = Some form →
  ∃ db',
    TransactionUpdateView_post (Some u) k POST db
      = (inr (HttpResponseRedirect success_url), db')
    ∧ cards db' !! oc = Some (reversed old orow)
    ∧ cards db' !! nc
      = Some (applied (type (instance form)) (amount (instance form)) nrow).
Proof.
  intros Hold Hu Hoc Horow Hcard Hnrow Hne Hclean.
  rewrite (update_post_run u k old POST db form Hold Hu Hclean)
    by (intros oc'; rewrite Hoc; intros [= <-]; by rewrite Horow).
  apply full_clean_Some in Hclean
    as (t & a & category & card & d & Ht & Ha & _ & Hc & Hd & ->).
  cbn in Hc. rewrite Hcard in Hc.
  apply clean_choice_Some in Hc as (row' & -> & Hrow' & _).
  assert (row' = nrow) as -> by congruence.
  eexists. split; [reflexivity|]. cbn. unfold cards_rolled_back. rewrite Hoc, Horow.
  split.
  - rewrite lookup_insert_ne by done. apply lookup_insert_eq.
  - apply lookup_insert_eq.
Qed.

End Updating.

(** ** Who may reach which transaction *)

Section Access.
Context `{ModelValidation}.

Lemma list_queryset_get u (t : gmap positive TransactionRow) k r :
  qs_get (TransactionListView_get_queryset u) t k = Some r
  ↔ t !! k = Some r ∧ transaction_user r = u.
Proof. apply update_queryset_get. Qed.

Lemma qs_get_foreign (qs : QuerySet TransactionRow) (t : gmap positive TransactionRow) k r :
  t !! k = Some r → qs k r = false → qs_get qs t k = None.
Proof. intros E F. unfold qs_get. by rewrite E, F. Qed.

(** C5.  Let [k] be a stored transaction whose owner is not [u].  The
    delete handler, for any requester at all (anonymous, [u], anyone),
    finds it in the unfiltered table, takes its effect back from the
    owner's card and removes it.  The update and list views of [u] do not
    select it: the update answers 404 and changes nothing, and an
    anonymous update request is sent to the login page. *)
Theorem delete_reaches_foreign_transactions (requester : option positive)
    (u k : positive) (t : TransactionRow) (POST : FormData) (db : DB) :
  transactions db !! k = Some t →
  transaction_user t ≠ u →
  (∀ c, transaction_card t = Some c → is_Some (cards db !! c)) →
  (∃ db',
      TransactionDeleteView_delete requester k db
        = (inr (HttpResponseRedirect success_url), db')
      ∧ transactions db' !! k = None
      ∧ ∀ c row, transaction_card t = Some c → cards db !! c = Some row →
                 cards db' !! c = Some (reversed t row))
  ∧ qs_get (TransactionUpdateView_get_queryset u) (transactions db) k = None
  ∧ qs_get (TransactionListView_get_queryset u) (transactions db) k = None
  ∧ TransactionUpdateView_post (Some u) k POST db = (inl Http404, db)
  ∧ TransactionUpdateView_post None k POST db = (inr RedirectToLogin, db)
  ∧ (∀ k' r, qs_get (TransactionUpdateView_get_queryset u) (transactions db) k' = Some r →
             transaction_user r = u)
  ∧ (∀ k' r, qs_get (TransactionListView_get_queryset u) (transactions db) k' = Some r →
             transaction_user r = u).
Proof.
  intros Ht Hu Hfk.
  assert (Hnone : qs_get (TransactionUpdateView_get_queryset u) (transactions db) k = None).
  { apply (qs_get_foreign _ _ k t Ht).
    unfold TransactionUpdateView_get_queryset, qfilter, objects. cbn.
    by apply bool_decide_eq_false. }
  split; [|split; [done|split; [done|split; [|split; [done|split]]]]].
  - rewrite (delete_run requester k t db Ht).
    destruct (transaction_card t) as [c|] eqn:Hc.
    + destruct (Hfk c eq_refl) as [row Hrow]. rewrite Hrow.
      eexists. split; [reflexivity|]. cbn. split; [apply lookup_delete_eq|].
      intros c' row' [= <-] Hrow'. rewrite lookup_insert_eq. congruence.
    + eexists. split; [reflexivity|]. cbn. split; [apply lookup_delete_eq|]. done.
  - unfold TransactionUpdateView_post. unfold bind at 1.
    by rewrite (get_object_missing _ k db Hnone).
  - intros k' r Hr. by apply update_queryset_get in Hr as [_ ?].
  - intros k' r Hr. by apply list_queryset_get in Hr as [_ ?].
Qed.

End Access.

(** ** Ownership of the card and the category of a saved transaction *)

Section Ownership.
Context `{ModelValidation}.

Lemma form_card_queryset u POST inst k r :
  card_queryset (TransactionForm_init u POST inst) k r = true → card_user r = u.
Proof.
  unfold TransactionForm_init, qfilter, objects. cbn. by rewrite bool_decide_eq_true.
Qed.

Lemma form_category_queryset u POST inst k r :
  category_queryset (TransactionForm_init u POST inst) k r = true →
  category_user r = u ∧ category_is_active r = true.
Proof.
  unfold TransactionForm_init, qfilter, objects. cbn.
  destruct (match data_type POST with
            | Some t => Some t
            | None => match pk inst with Some _ => Some (type inst) | None => None end
            end) as [t|]; [destruct (_ || _)|]; cbn;
    rewrite ?andb_true_iff, ?bool_decide_eq_true; tauto.
Qed.

(** The instance of a validated form carries a card and a category out of
    the form's querysets. *)
Lemma full_clean_refs u POST inst db form :
  full_clean (TransactionForm_init u POST inst) db = Some form →
  (∀ c, card_id (instance form) = Some c →
        ∃ r, cards db !! c = Some r ∧ card_user r = u
             ∧ card_cache (instance form) = Some (mkCard c r))
  ∧ (∀ g, category_id (instance form) = Some g →
          ∃ r, categories db !! g = Some r ∧ category_user r = u
               ∧ category_is_active r = true)
  ∧ pk (instance form) = pk inst
  ∧ user (instance form) = user inst
  ∧ card_id (instance form) = card_pk <$> card_cache (instance form).
Proof.
  intros Hclean. apply full_clean_Some in Hclean
    as (t & a & category & card & d & Ht & Ha & Hg & Hc & Hd & ->).
  cbn in *. repeat split.
  - intros c Hcid. destruct (data_card POST) as [c'|].
    + apply clean_choice_Some in Hc as (r & -> & Hr & Hq). cbn in Hcid.
      injection Hcid as ->. exists r. split; [done|]. split; [|done].
      by apply (form_card_queryset u POST inst c r).
    + apply clean_choice_None in Hc as ->. done.
  - intros g Hgid. destruct (data_category POST) as [g'|].
    + apply clean_choice_Some in Hg as (r & -> & Hr & Hq). cbn in Hgid.
      injection Hgid as ->. exists r. split; [done|].
      by apply (form_category_queryset u POST inst g r).
    + apply clean_choice_None in Hg as ->. done.
  - by destruct card as [[? ?]|].
Qed.

End Ownership.

Section OwnershipViews.
Context `{ModelValidation}.

Lemma update_post_dangling u k oc old POST db form :
  transactions db !! k = Some old →
  transaction_user old = u →
  full_clean (TransactionForm_init u POST (Transaction_from_db k old)) db = Some form →
  transaction_card old = Some oc →
  cards db !! oc = None →
  TransactionUpdateView_post (Some u) k POST db = (inl DoesNotExist, db).
Proof.
  intros Hold Hu Hclean Hoc Hrow.
  assert (Hget : qs_get (TransactionUpdateView_get_queryset u) (transactions db) k = Some old)
    by (by apply update_queryset_get).
  unfold TransactionUpdateView_post. unfold bind at 1.
  rewrite (get_object_found _ k old db Hget). unfold bind at 1.
  rewrite is_valid_run, Hclean.
  unfold TransactionUpdateView_form_valid. unfold bind at 1.
  rewrite (get_object_found _ k old db Hget).
  unfold Transaction_card at 1. cbn. rewrite Hoc. run. by rewrite Hrow.
Qed.

Lemma create_saves_owned u POST db db' url :
  TransactionCreateView_post (Some u) POST db = (inr (HttpResponseRedirect url), db') →
  ∃ k t, transactions db !! k = None
         ∧ transactions db' = <[k := t]> (transactions db)
         ∧ transaction_user t = u
         ∧ owned_refs db t.
Proof.
  intros Hpost. rewrite create_post_run in Hpost.
  destruct (full_clean _ db) as [form|] eqn:Hclean; [|done].
  destruct (full_clean_refs _ _ _ _ _ Hclean) as (Hc & Hg & Hpk & _ & Hid).
  rewrite create_form_valid_run in Hpost by done.
  injection Hpost as _ <-. cbn.
  eexists _, _. split; [apply not_elem_of_dom, is_fresh|]. split; [reflexivity|].
  split; [done|]. split; cbn.
  - intros c Hcid. destruct (Hc c Hcid) as (r & ? & ? & _). by exists r.
  - intros g Hgid. destruct (Hg g Hgid) as (r & ? & ? & ?). by exists r.
Qed.

Lemma update_saves_owned u k POST db db' url :
  TransactionUpdateView_post (Some u) k POST db = (inr (HttpResponseRedirect url), db') →
  ∃ old t, transactions db !! k = Some old
           ∧ transaction_user old = u
           ∧ transactions db' = <[k := t]> (transactions db)
           ∧ transaction_user t = u
           ∧ owned_refs db t.
Proof.
  intros Hpost.
  destruct (qs_get (TransactionUpdateView_get_queryset u) (transactions db) k)
    as [old|] eqn:Hget.
  2:{ unfold TransactionUpdateView_post in Hpost. unfold bind at 1 in Hpost.
      by rewrite (get_object_missing _ k db Hget) in Hpost. }
  pose proof Hget as Hget'. apply update_queryset_get in Hget' as [Hold Hu].
  destruct (full_clean (TransactionForm_init u POST (Transaction_from_db k old)) db)
    as [form|] eqn:Hclean.
  2:{ unfold TransactionUpdateView_post in Hpost. unfold bind at 1 in Hpost.
      rewrite (get_object_found _ k old db Hget) in Hpost. unfold bind at 1 in Hpost.
      by rewrite is_valid_run, Hclean in Hpost. }
  assert (Hfk : ∀ oc, transaction_card old = Some oc → is_Some (cards db !! oc)).
  { intros oc Hoc. destruct (cards db !! oc) eqn:Hrow; [done|].
    by rewrite (update_post_dangling u k oc old POST db form) in Hpost. }
  rewrite (update_post_run u k old POST db form Hold Hu Hclean Hfk) in Hpost.
  destruct (full_clean_refs _ _ _ _ _ Hclean) as (Hc & Hg & _ & _ & _).
  injection Hpost as _ <-. cbn.
  eexists old, _. split; [done|]. split; [done|]. split; [reflexivity|].
  split; [done|]. split; cbn.
  - intros c Hcid. destruct (Hc c Hcid) as (r & ? & ? & _). by exists r.
  - intros g Hgid. destruct (Hg g Hgid) as (r & ? & ? & ?). by exists r.
Qed.

(** C4.  The form built for user [u] offers, whatever the database holds,
    only cards of [u] and only active categories of [u]; and a transaction
    that the create view or the update view of [u] saves through it is a
    transaction of [u] whose card (when it has one) is a card of [u] and
    whose category (when it has one) is an active category of [u]. *)
Theorem form_keeps_card_and_category_with_owner (u : positive) (POST : FormData)
    (inst : Transaction) (db : DB) :
  let form := TransactionForm_init u POST inst in
  (∀ k r, qs_rows (card_queryset form) (cards db) !! k = Some r → card_user r = u)
  ∧ (∀ k r, qs_rows (category_queryset form) (categories db) !! k = Some r →
            category_user r = u ∧ category_is_active r = true)
  ∧ (∀ db' url,
       TransactionCreateView_post (Some u) POST db = (inr (HttpResponseRedirect url), db') →
       ∃ k t, transactions db !! k = None
              ∧ transactions db' = <[k := t]> (transactions db)
              ∧ transaction_user t = u ∧ owned_refs db t)
  ∧ (∀ k db' url,
       TransactionUpdateView_post (Some u) k POST db = (inr (HttpResponseRedirect url), db') →
       ∃ t, transactions db' = <[k := t]> (transactions db)
            ∧ transaction_user t = u ∧ owned_refs db t).
Proof.
  cbn zeta. split; [|split; [|split]].
  - intros k r Hr. apply map_lookup_filter_Some in Hr as [_ Hq].
    by apply (form_card_queryset u POST inst k r).
  - intros k r Hr. apply map_lookup_filter_Some in Hr as [_ Hq].
    by apply (form_category_queryset u POST inst k r).
  - intros db' url Hpost. by apply (create_saves_owned u POST db db' url).
  - intros k db' url Hpost.
    destruct (update_saves_owned u k POST db db' url Hpost) as (old & t & _ & _ & ? & ? & ?).
    by exists t.
Qed.

End OwnershipViews.

(** ** The calendar *)

(** The calendar repeats every 400 years, that is every 146097 days. *)
Lemma ymd2ord_shift y m d q :
  datetime.ymd2ord (y + 400 * q) m d = datetime.ymd2ord y m d + datetime.DI400Y * q.
Proof.
  unfold datetime.ymd2ord, datetime.days_before_year, datetime.days_before_month,
    datetime.is_leap, datetime.DI400Y. cbv zeta.
  replace ((y + 400 * q) mod 4) with (y mod 4) by (Z.to_euclidean_division_equations; lia).
  replace ((y + 400 * q) mod 100) with (y mod 100)
    by (Z.to_euclidean_division_equations; lia).
  replace ((y + 400 * q) mod 400) with (y mod 400)
    by (Z.to_euclidean_division_equations; lia).
  Z.to_euclidean_division_equations; lia.
Qed.

Lemma ord2ymd_shift n :
  datetime.ord2ymd n
  = let '(y, m, d) := datetime.ord2ymd (1 + (n - 1) mod datetime.DI400Y) in
    (y + 400 * ((n - 1) / datetime.DI400Y), m, d).
Proof.
  assert (Hr : 0 ≤ (n - 1) mod datetime.DI400Y < datetime.DI400Y)
    by (by apply Z.mod_pos_bound).
  unfold datetime.ord2ymd. cbv zeta.
  replace (1 + (n - 1) mod datetime.DI400Y - 1) with ((n - 1) mod datetime.DI400Y) by lia.
  rewrite (Z.div_small _ _ Hr), (Z.mod_small _ _ Hr).
  set (q := (n - 1) / datetime.DI400Y). set (r := (n - 1) mod datetime.DI400Y).
  destruct (_ || _); [f_equal; [f_equal|..]; lia|].
  destruct (_ <? _); f_equal; f_equal; lia.
Qed.

Lemma first_days_shift n :
  datetime.first_of_month n
  = datetime.first_of_month (1 + (n - 1) mod datetime.DI400Y)
    + datetime.DI400Y * ((n - 1) / datetime.DI400Y)
  ∧ datetime.first_of_year n
    = datetime.first_of_year (1 + (n - 1) mod datetime.DI400Y)
      + datetime.DI400Y * ((n - 1) / datetime.DI400Y).
Proof.
  unfold datetime.first_of_month, datetime.first_of_year. rewrite (ord2ymd_shift n).
  destruct (datetime.ord2ymd (1 + (n - 1) mod datetime.DI400Y)) as [[y m] d].
  by rewrite !ymd2ord_shift.
Qed.

Lemma month_days_ok leapyear n :
  0 ≤ n < 365 → month_day_ok leapyear n = true.
Proof.
  intros Hn.
  assert (Hall : forallb (λ l, forallb (month_day_ok l) (seqZ 0 365)) [false; true] = true)
    by (by vm_compute).
  cbn [forallb] in Hall. apply andb_true_iff in Hall as [Hf [Ht _]%andb_true_iff].
  assert (Hin : In n (seqZ 0 365)) by (apply list_elem_of_In, elem_of_seqZ; lia).
  destruct leapyear; [exact (proj1 (forallb_forall _ _) Ht n Hin)
                     |exact (proj1 (forallb_forall _ _) Hf n Hin)].
Qed.

Lemma spans_ok a b c :
  0 ≤ a ≤ 4 → 0 ≤ b ≤ 24 → 0 ≤ c ≤ 4 → span_ok a b c = true.
Proof.
  intros Ha Hb Hc.
  assert (Hall : forallb (λ a, forallb (λ b, forallb (span_ok a b) (seqZ 0 5)) (seqZ 0 25))
                         (seqZ 0 5) = true) by (by vm_compute).
  assert (Hina : In a (seqZ 0 5)) by (apply list_elem_of_In, elem_of_seqZ; lia).
  assert (Hinb : In b (seqZ 0 25)) by (apply list_elem_of_In, elem_of_seqZ; lia).
  assert (Hinc : In c (seqZ 0 5)) by (apply list_elem_of_In, elem_of_seqZ; lia).
  pose proof (proj1 (forallb_forall _ _) Hall a Hina) as Hb'. cbv beta in Hb'.
  pose proof (proj1 (forallb_forall _ _) Hb' b Hinb) as Hc'. cbv beta in Hc'.
  exact (proj1 (forallb_forall _ _) Hc' c Hinc).
Qed.

Lemma first_days_cycle r :
  0 ≤ r < datetime.DI400Y →
  datetime.first_of_month (1 + r) ≤ 1 + r ≤ datetime.first_of_month (1 + r) + 30
  ∧ datetime.first_of_year (1 + r) ≤ 1 + r ≤ datetime.first_of_year (1 + r) + 365.
Proof.
  intros Hr.
  unfold datetime.first_of_month, datetime.first_of_year, datetime.ord2ymd. cbv zeta.
  replace (1 + r - 1) with r by lia.
  rewrite (Z.div_small _ _ Hr), (Z.mod_small _ _ Hr).
  set (a := r / datetime.DI100Y). set (r100 := r mod datetime.DI100Y).
  set (b := r100 / datetime.DI4Y). set (r4 := r100 mod datetime.DI4Y).
  set (c := r4 / 365). set (r1 := r4 mod 365).
  assert (Hdiv : r = 36524 * a + 1461 * b + 365 * c + r1
                 ∧ 0 ≤ a ≤ 4 ∧ 0 ≤ b ≤ 24 ∧ 0 ≤ c ≤ 4 ∧ 0 ≤ r1 < 365
                 ∧ (a = 4 → b = 0 ∧ c = 0 ∧ r1 = 0)
                 ∧ (c = 4 → b ≤ 23 ∧ r1 = 0)).
  { subst a r100 b r4 c r1. unfold datetime.DI100Y, datetime.DI4Y, datetime.DI400Y in *.
    Z.to_euclidean_division_equations. lia. }
  destruct Hdiv as (Hrd & Ha & Hb & Hc & Hr1 & Ha4 & Hc4).
  clearbody a b c r1. clear r100 r4.
  pose proof (spans_ok a b c Ha Hb Hc) as Hspan. unfold span_ok in Hspan.
  cbv zeta in Hspan.
  replace (0 * 400 + 1 + a * 100 + b * 4 + c) with (1 + 100 * a + 4 * b + c) by lia.
  destruct ((c =? 4) || (a =? 4)) eqn:Hspecial.
  - replace (1 + 100 * a + 4 * b + c - 1) with (100 * a + 4 * b + c) by lia.
    assert (Hcases : (a = 4 ∧ b = 0 ∧ c = 0) ∨ (a ≤ 3 ∧ b ≤ 23 ∧ c = 4)).
    { apply orb_true_iff in Hspecial. rewrite !Z.eqb_eq in Hspecial. lia. }
    assert (Hvalid : ((a =? 4) && (b =? 0) && (c =? 0))
                     || ((a <=? 3) && (b <=? 23) && (c =? 4)) = true).
    { rewrite orb_true_iff, !andb_true_iff, !Z.eqb_eq, !Z.leb_le. lia. }
    rewrite Hvalid in Hspan. apply andb_true_iff in Hspan as [Hdec%Z.eqb_eq Hjan%Z.eqb_eq].
    lia.
  - apply andb_true_iff in Hspan as [Hdby%Z.eqb_eq Hleap%bool_decide_eq_true].
    pose proof (month_days_ok ((c =? 3) && (negb (b =? 24) || (a =? 3))) r1 Hr1) as Hmd.
    unfold month_day_ok in Hmd.
    unfold month_day in Hmd. cbv zeta in Hmd.
    assert (Hjan : ∀ y, datetime.days_before_month y 1 = 0) by reflexivity.
    destruct (r1 <? _) eqn:Hlt;
      apply andb_true_iff in Hmd
        as [[Hd1%Z.leb_le Hd31%Z.leb_le]%andb_true_iff Hsum%Z.eqb_eq];
      unfold datetime.ymd2ord; rewrite Hjan, Hdby;
      unfold datetime.days_before_month; rewrite Hleap; lia.
Qed.

Lemma first_days_bounds n :
  datetime.first_of_month n ≤ n ≤ datetime.first_of_month n + 30
  ∧ datetime.first_of_year n ≤ n ≤ datetime.first_of_year n + 365.
Proof.
  destruct (first_days_shift n) as [-> ->].
  assert (Hr : 0 ≤ (n - 1) mod datetime.DI400Y < datetime.DI400Y)
    by (by apply Z.mod_pos_bound).
  pose proof (first_days_cycle _ Hr) as Hok.
  pose proof (Z.div_mod (n - 1) datetime.DI400Y) as Hn. unfold datetime.DI400Y in *. lia.
Qed.

(** The date of day [r1] (from 0) of the year that follows [q] cycles of
    400 years, [a] centuries, [b] four-year spans and [c] years. *)
Lemma ord2ymd_parts q a b c r1 :
  0 ≤ a ≤ 3 → 0 ≤ b ≤ 24 → 0 ≤ c ≤ 3 → 0 ≤ r1 < year_length (leap_span a b c) →
  datetime.ord2ymd (1 + 146097 * q + 36524 * a + 1461 * b + 365 * c + r1)
  = (400 * q + 100 * a + 4 * b + c + 1,
     (month_day (leap_span a b c) r1).1, (month_day (leap_span a b c) r1).2).
Proof.
  intros Ha Hb Hc Hr1.
  assert (Hleap : r1 < 365 ∨ (r1 = 365 ∧ c = 3 ∧ (b ≤ 23 ∨ a = 3))).
  { unfold year_length, leap_span in Hr1.
    destruct (Z.eqb_spec c 3), (Z.eqb_spec b 24), (Z.eqb_spec a 3); cbn in Hr1; lia. }
  unfold datetime.ord2ymd, datetime.DI400Y, datetime.DI100Y, datetime.DI4Y. cbv zeta.
  set (n := 1 + 146097 * q + 36524 * a + 1461 * b + 365 * c + r1 - 1).
  assert (Hq : n / 146097 = q) by (subst n; Z.to_euclidean_division_equations; lia).
  assert (HR : n mod 146097 = 36524 * a + 1461 * b + 365 * c + r1)
    by (subst n; Z.to_euclidean_division_equations; lia).
  rewrite Hq, HR. clear Hq HR n.
  destruct Hleap as [Hlt|(-> & -> & Hba)].
  - set (R := 36524 * a + 1461 * b + 365 * c + r1).
    assert (Ha' : R / 36524 = a) by (subst R; Z.to_euclidean_division_equations; lia).
    assert (HR : R mod 36524 = 1461 * b + 365 * c + r1)
      by (subst R; Z.to_euclidean_division_equations; lia).
    rewrite Ha', HR. clear Ha' HR R.
    set (R := 1461 * b + 365 * c + r1).
    assert (Hb' : R / 1461 = b) by (subst R; Z.to_euclidean_division_equations; lia).
    assert (HR : R mod 1461 = 365 * c + r1)
      by (subst R; Z.to_euclidean_division_equations; lia).
    rewrite Hb', HR. clear Hb' HR R.
    assert (Hc' : (365 * c + r1) / 365 = c) by (Z.to_euclidean_division_equations; lia).
    assert (HR : (365 * c + r1) mod 365 = r1) by (Z.to_euclidean_division_equations; lia).
    rewrite Hc', HR. clear Hc' HR.
    replace ((c =? 4) || (a =? 4)) with false
      by (symmetry; apply orb_false_iff; split; apply Z.eqb_neq; lia).
    unfold month_day, leap_span. cbv zeta.
    destruct (r1 <? _); cbn [fst snd]; f_equal; f_equal; lia.
  - assert (H0 : (36524 * a + 1461 * b + 365 * 3 + 365) / 36524 = (if decide (b = 24) then 4 else a)
                ∧ (36524 * a + 1461 * b + 365 * 3 + 365) mod 36524
                  = (if decide (b = 24) then 0 else 1461 * b + 1460)).
    { case_decide; Z.to_euclidean_division_equations; lia. }
    destruct H0 as [-> ->]. unfold leap_span.
    case_decide as Hb24.
    + assert (a = 3) as -> by lia. subst b.
      change (0 mod 1461) with 0. change (0 / 1461) with 0. change (0 / 365) with 0.
      change ((0 =? 4) || (4 =? 4)) with true. cbv iota.
      change (month_day _ 365) with (12, 31). cbn [fst snd]. f_equal; f_equal; lia.
    + assert (H1 : (1461 * b + 1460) / 1461 = b ∧ (1461 * b + 1460) mod 1461 = 1460)
        by (Z.to_euclidean_division_equations; lia).
      destruct H1 as [-> ->].
      change (1460 / 365) with 4. change (1460 mod 365) with 0.
      rewrite Z.eqb_refl. cbn [orb].
      replace (negb (b =? 24) || (a =? 3)) with true
        by (symmetry; apply orb_true_iff; rewrite negb_true_iff, Z.eqb_neq, Z.eqb_eq; lia).
      change (month_day _ 365) with (12, 31).
      cbn [fst snd]. f_equal; f_equal; lia.
Qed.

(** Every day is such a day of such a year. *)
Lemma ord_parts n :
  ∃ q a b c r1,
    0 ≤ a ≤ 3 ∧ 0 ≤ b ≤ 24 ∧ 0 ≤ c ≤ 3 ∧ 0 ≤ r1 < year_length (leap_span a b c)
    ∧ n = 1 + 146097 * q + 36524 * a + 1461 * b + 365 * c + r1.
Proof.
  set (q := (n - 1) / 146097). set (R := (n - 1) mod 146097).
  assert (Hn : n = 1 + 146097 * q + R ∧ 0 ≤ R < 146097)
    by (subst q R; Z.to_euclidean_division_equations; lia).
  clearbody q R. destruct Hn as [-> HR].
  destruct (decide (R = 146096)) as [->|HR'].
  { exists q, 3, 24, 3, 365. cbn. lia. }
  set (a := R / 36524). set (R100 := R mod 36524).
  assert (Ha : R = 36524 * a + R100 ∧ 0 ≤ a ≤ 3 ∧ 0 ≤ R100 < 36524)
    by (subst a R100; Z.to_euclidean_division_equations; lia).
  clearbody a R100. destruct Ha as (-> & Ha & HR100).
  set (b := R100 / 1461). set (R4 := R100 mod 1461).
  assert (Hb : R100 = 1461 * b + R4 ∧ 0 ≤ b ≤ 24 ∧ 0 ≤ R4 < 1461)
    by (subst b R4; Z.to_euclidean_division_equations; lia).
  clearbody b R4. destruct Hb as (-> & Hb & HR4).
  destruct (decide (R4 = 1460)) as [->|HR4'].
  { exists q, a, b, 3, 365. unfold leap_span, year_length.
    replace (negb (b =? 24)) with true by (symmetry; rewrite negb_true_iff, Z.eqb_neq; lia).
    cbn. lia. }
  set (c := R4 / 365). set (r1 := R4 mod 365).
  assert (Hc : R4 = 365 * c + r1 ∧ 0 ≤ c ≤ 3 ∧ 0 ≤ r1 < 365)
    by (subst c r1; Z.to_euclidean_division_equations; lia).
  clearbody c r1. destruct Hc as (-> & Hc & Hr1).
  exists q, a, b, c, r1. unfold year_length. destruct (leap_span a b c); lia.
Qed.

(** The ordinal of a date of that year. *)
Lemma ymd2ord_parts q a b c m d :
  0 ≤ a ≤ 3 → 0 ≤ b ≤ 24 → 0 ≤ c ≤ 3 →
  datetime.ymd2ord (400 * q + 100 * a + 4 * b + c + 1) m d
  = 146097 * q + 36524 * a + 1461 * b + 365 * c + month_start (leap_span a b c) m + d.
Proof.
  intros Ha Hb Hc.
  replace (400 * q + 100 * a + 4 * b + c + 1) with (1 + 100 * a + 4 * b + c + 400 * q) by lia.
  rewrite ymd2ord_shift.
  pose proof (spans_ok a b c ltac:(lia) ltac:(lia) ltac:(lia)) as Hspan.
  unfold span_ok in Hspan. cbv zeta in Hspan.
  replace ((c =? 4) || (a =? 4)) with false in Hspan
    by (symmetry; apply orb_false_iff; split; apply Z.eqb_neq; lia).
  apply andb_true_iff in Hspan as [Hdby%Z.eqb_eq Hleap%bool_decide_eq_true].
  unfold datetime.ymd2ord, datetime.days_before_month. rewrite Hdby, Hleap.
  unfold month_start, leap_span, datetime.DI400Y. lia.
Qed.

(** The day of the month lies within the month, and the months of a year
    do not overlap. *)
Lemma month_days_fit leapyear n :
  0 ≤ n < year_length leapyear → month_day_fits leapyear n = true.
Proof.
  intros Hn.
  assert (Hall : forallb (month_day_fits false) (seqZ 0 365)
                 && forallb (month_day_fits true) (seqZ 0 366) = true) by (by vm_compute).
  apply andb_true_iff in Hall as [Hf Ht].
  destruct leapyear; cbn in Hn.
  - apply (proj1 (forallb_forall _ _) Ht), list_elem_of_In, elem_of_seqZ. lia.
  - apply (proj1 (forallb_forall _ _) Hf), list_elem_of_In, elem_of_seqZ. lia.
Qed.

Lemma months_are_apart leapyear m m' :
  1 ≤ m ≤ 12 → 1 ≤ m' ≤ 12 → months_apart leapyear m m' = true.
Proof.
  intros Hm Hm'.
  assert (Hall : forallb (λ l, forallb (λ m, forallb (months_apart l m) (seqZ 1 12))
                                       (seqZ 1 12)) [false; true] = true) by (by vm_compute).
  assert (Hl : In leapyear [false; true]) by (destruct leapyear; cbn; tauto).
  pose proof (proj1 (forallb_forall _ _) Hall leapyear Hl) as H1. cbv beta in H1.
  assert (Hin : In m (seqZ 1 12)) by (apply list_elem_of_In, elem_of_seqZ; lia).
  pose proof (proj1 (forallb_forall _ _) H1 m Hin) as H2. cbv beta in H2.
  apply (proj1 (forallb_forall _ _) H2), list_elem_of_In, elem_of_seqZ. lia.
Qed.

(** Days of one month have the same first of the month, days of one year
    the same first of January. *)
Lemma first_of_month_eq n n' :
  date_year n = date_year n' → date_month n = date_month n' →
  datetime.first_of_month n = datetime.first_of_month n'.
Proof.
  unfold date_year, date_month, datetime.first_of_month.
  destruct (datetime.ord2ymd n) as [[y m] d], (datetime.ord2ymd n') as [[y' m'] d'].
  cbn. by intros -> ->.
Qed.

Lemma first_of_year_eq n n' :
  date_year n = date_year n' → datetime.first_of_year n = datetime.first_of_year n'.
Proof.
  unfold date_year, datetime.first_of_year.
  destruct (datetime.ord2ymd n) as [[y m] d], (datetime.ord2ymd n') as [[y' m'] d'].
  cbn. by intros ->.
Qed.

(** The days from the first of the month to today are the days of
    today's month up to today; likewise for the year and for the week. *)
Lemma month_window today d :
  datetime.first_of_month today ≤ d ≤ today
  ↔ d ≤ today ∧ date_year d = date_year today ∧ date_month d = date_month today.
Proof.
  split.
  - intros [Hfrom Hto]. split; [done|].
    destruct (ord_parts today) as (q & a & b & c & r1 & Ha & Hb & Hc & Hr1 & Htoday).
    pose proof (ord2ymd_parts q a b c r1 Ha Hb Hc Hr1) as Hymd. rewrite <-Htoday in Hymd.
    pose proof (month_days_fit _ r1 Hr1) as Hfit. unfold month_day_fits in Hfit.
    unfold datetime.first_of_month in Hfrom. rewrite Hymd in Hfrom.
    unfold date_year, date_month. rewrite Hymd. cbn [fst snd].
    destruct (month_day (leap_span a b c) r1) as [m dd]. cbn [fst snd] in *.
    rewrite (ymd2ord_parts q a b c m 1 Ha Hb Hc) in Hfrom.
    rewrite !andb_true_iff, !Z.leb_le, Z.eqb_eq in Hfit.
    destruct Hfit as (((((Hm1 & Hm12) & Hd1) & Hdlen) & Hstart) & Hsum).
    set (r' := d - (1 + 146097 * q + 36524 * a + 1461 * b + 365 * c)).
    assert (Hr' : 0 ≤ r' < year_length (leap_span a b c)).
    { subst r'. lia. }
    pose proof (ord2ymd_parts q a b c r' Ha Hb Hc Hr') as Hymd'.
    replace (1 + 146097 * q + 36524 * a + 1461 * b + 365 * c + r') with d in Hymd'
      by (subst r'; lia).
    rewrite Hymd'. cbn [fst snd]. split; [done|].
    pose proof (month_days_fit _ r' Hr') as Hfit'. unfold month_day_fits in Hfit'.
    destruct (month_day (leap_span a b c) r') as [m' d']. cbn [fst snd].
    rewrite !andb_true_iff, !Z.leb_le, Z.eqb_eq in Hfit'.
    destruct Hfit' as (((((Hm1' & Hm12') & Hd1') & Hdlen') & Hstart') & Hsum').
    pose proof (months_are_apart (leap_span a b c) m m') as Hapart.
    unfold months_apart in Hapart. rewrite !orb_true_iff, Z.eqb_eq, !Z.leb_le in Hapart.
    subst r'. lia.
  - intros (Hto & Hy & Hm). split; [|done].
    rewrite <-(first_of_month_eq d today Hy Hm). apply first_days_bounds.
Qed.

Lemma year_window today d :
  datetime.first_of_year today ≤ d ≤ today ↔ d ≤ today ∧ date_year d = date_year today.
Proof.
  split.
  - intros [Hfrom Hto]. split; [done|].
    destruct (ord_parts today) as (q & a & b & c & r1 & Ha & Hb & Hc & Hr1 & Htoday).
    pose proof (ord2ymd_parts q a b c r1 Ha Hb Hc Hr1) as Hymd. rewrite <-Htoday in Hymd.
    unfold datetime.first_of_year in Hfrom. rewrite Hymd in Hfrom.
    unfold date_year. rewrite Hymd. cbn [fst snd].
    rewrite (ymd2ord_parts q a b c 1 1 Ha Hb Hc) in Hfrom.
    change (month_start _ 1) with 0 in Hfrom.
    set (r' := d - (1 + 146097 * q + 36524 * a + 1461 * b + 365 * c)).
    assert (Hr' : 0 ≤ r' < year_length (leap_span a b c)) by (subst r'; lia).
    pose proof (ord2ymd_parts q a b c r' Ha Hb Hc Hr') as Hymd'.
    replace (1 + 146097 * q + 36524 * a + 1461 * b + 365 * c + r') with d in Hymd'
      by (subst r'; lia).
    by rewrite Hymd'.
  - intros (Hto & Hy). split; [|done].
    rewrite <-(first_of_year_eq d today Hy). apply first_days_bounds.
Qed.

Lemma week_window today d :
  today - datetime.weekday today ≤ d ≤ today
  ↔ d ≤ today ∧ today - d < 7 ∧ datetime.weekday d ≤ datetime.weekday today.
Proof. unfold datetime.weekday. Z.to_euclidean_division_equations. lia. Qed.

(** ** The dashboard *)

Global Instance sumZ_Permutation : Proper ((≡ₚ) ==> (=)) sumZ.
Proof. intros l l' Hl. unfold sumZ. induction Hl; cbn; lia. Qed.

Lemma sumZ_cons a l : sumZ (a :: l) = a + sumZ l.
Proof. reflexivity. Qed.

Lemma Sum_sumZ {R} (f : R → Z) (m : gmap positive R) :
  Sum f m = sumZ (f <$> (map_to_list m).*2).
Proof.
  unfold Sum, sumZ. induction (map_to_list m) as [|[k r] l IH]; cbn; [done|].
  by rewrite IH.
Qed.

(** The aggregate over a queryset is the sum over the rows of the table
    that satisfy the queryset's condition. *)
Lemma Sum_qs_rows {R} (f : R → Z) (qs : QuerySet R) (P : R → Prop)
    `{!∀ r, Decision (P r)} (m : gmap positive R) :
  (∀ k r, qs k r = true ↔ P r) →
  Sum f (qs_rows qs m) = sumZ (f <$> filter P (map_to_list m).*2).
Proof.
  intros Hqs. rewrite Sum_sumZ. unfold qs_rows.
  induction m as [|i x m Hi IH] using map_ind.
  - by rewrite map_filter_empty, map_to_list_empty.
  - rewrite map_filter_insert, (delete_id m i Hi). rewrite map_to_list_insert by done.
    rewrite fmap_cons. cbn [snd]. case_decide as Hx; cbn in Hx.
    + rewrite map_to_list_insert by (by rewrite map_lookup_filter_None; left).
      rewrite filter_cons_True by (by apply Hqs in Hx).
      rewrite !fmap_cons, !sumZ_cons. cbn [snd]. by rewrite IH.
    + rewrite filter_cons_False by (by rewrite <-(Hqs i x)). done.
Qed.

Section DashboardProperties.
Context `{PyFloat} `{PyStr}.

Global Instance counted_dec u ty start today sel t :
  Decision (counted u ty start today sel t).
Proof. unfold counted. destruct sel; apply _. Defined.

Global Instance in_period_dec period today d : Decision (in_period period today d).
Proof. unfold in_period. repeat case_bool_decide; apply _. Defined.

Global Instance in_figure_dec u ty period today chosen t :
  Decision (in_figure u ty period today chosen t).
Proof. unfold in_figure. destruct chosen; apply _. Defined.

Lemma dashboard_queryset_counted u ty start today sel k t :
  qfilter (λ _ t, bool_decide (transaction_type t = ty))
          (dashboard_transactions u start today sel) k t = true
  ↔ counted u ty start today (card_pk <$> sel) t.
Proof.
  unfold dashboard_transactions, counted, qfilter, objects.
  destruct sel as [c|]; cbn;
    rewrite ?andb_true_iff, ?bool_decide_eq_true, ?Z.leb_le; tauto.
Qed.

(** The days from the start date of the view to today are the days of the
    period. *)
Lemma period_window period today d :
  (if bool_decide (period = "week"%string) then today - datetime.weekday today
   else if bool_decide (period = "year"%string) then datetime.first_of_year today
   else datetime.first_of_month today) ≤ d ≤ today
  ↔ in_period period today d.
Proof.
  unfold in_period. repeat case_bool_decide.
  - rewrite week_window. tauto.
  - rewrite year_window. tauto.
  - rewrite month_window. tauto.
Qed.

Lemma counted_in_figure u ty period today sel t :
  counted u ty
    (if bool_decide (period = "week"%string) then today - datetime.weekday today
     else if bool_decide (period = "year"%string) then datetime.first_of_year today
     else datetime.first_of_month today) today sel t
  ↔ in_figure u ty period today sel t.
Proof. unfold counted, in_figure. rewrite period_window. tauto. Qed.

(** The two tests of [card_id and card_id.isdigit()] come to the second. *)
Lemma isdigit_and_nonempty (s : str) :
  negb (bool_decide (s = [])) && isdigit s = isdigit s.
Proof. unfold isdigit. by destruct (negb _). Qed.

(** What [cards.filter(id=k).first()] selects among the cards of the
    user. *)
Lemma selected_by_queryset (db : DB) (u k : positive) :
  mkCard k <$> qs_get (qfilter (λ _ c, bool_decide (card_user c = u)) objects) (cards db) k
  = cards db !! k ≫= λ r, if bool_decide (card_user r = u) then Some (mkCard k r) else None.
Proof.
  unfold qs_get, qfilter, objects. destruct (cards db !! k) as [r|]; [|reflexivity].
  cbn. by case_bool_decide.
Qed.

(** The view raises on a [card] parameter of digits that [int] does not
    convert, and otherwise returns the context built for the card the
    parameter chooses. *)
Lemma get_context_data_cases db today now u GET_period GET_card :
  DashboardView_get_context_data db today now u GET_period GET_card
  = if card_parameter_fails GET_card then inl ValueError
    else inr (dashboard_context db today now u GET_period (chosen_card db u GET_card)).
Proof.
  unfold DashboardView_get_context_data, card_parameter_fails, chosen_card.
  destruct GET_card as [s|]; [|reflexivity]. rewrite isdigit_and_nonempty.
  cbn [mbind option_bind]. destruct (isdigit s); [|reflexivity]. cbn [andb].
  destruct (int s) as [[|k]|]; [reflexivity| |reflexivity].
  rewrite selected_by_queryset. reflexivity.
Qed.

(** C6.  A [card] parameter of digits that [int] does not convert makes
    the view raise [ValueError].  For any other request the view returns a
    context in which the period is the [period] parameter, [month] when
    there is none; the selected card is the card of the user that the
    [card] parameter names, if it names one; the income shown is the sum
    of the amounts of the user's income transactions dated within the
    period, on the selected card when there is one; the expense shown is
    the same sum over expense transactions; the balance shown is the
    balance stored for the selected card, or else the sum of the balances
    of all cards of the user. *)
Theorem dashboard_figures (db : DB) (today now : Date) (u : positive)
    (GET_period : option string) (GET_card : option str) :
  let period := default "month"%string GET_period in
  let chosen := chosen_card db u GET_card in
  if card_parameter_fails GET_card
  then DashboardView_get_context_data db today now u GET_period GET_card = inl ValueError
  else
    ∃ ctx,
      DashboardView_get_context_data db today now u GET_period GET_card = inr ctx
      ∧ ctx_period ctx = period
      ∧ ctx_selected_card ctx = chosen
      ∧ ctx_income ctx
        = sumZ (transaction_amount
                <$> filter (in_figure u "income" period today (card_pk <$> chosen))
                           (map_to_list (transactions db)).*2)
      ∧ ctx_expense ctx
        = sumZ (transaction_amount
                <$> filter (in_figure u "expense" period today (card_pk <$> chosen))
                           (map_to_list (transactions db)).*2)
      ∧ ctx_balance ctx
        = match chosen with
          | Some c => card_balance (card_fields c)
          | None =>
              sumZ (card_balance
                    <$> filter (λ c, card_user c = u) (map_to_list (cards db)).*2)
          end.
Proof.
  cbn zeta. rewrite get_context_data_cases.
  destruct (card_parameter_fails GET_card); [done|].
  eexists. split; [reflexivity|]. unfold dashboard_context. cbn.
  split; [done|]. split; [done|]. split; [|split].
  - rewrite <-(list_filter_iff _ _ _ (λ t, counted_in_figure u _ _ today _ t)).
    apply Sum_qs_rows. intros k t. apply dashboard_queryset_counted.
  - rewrite <-(list_filter_iff _ _ _ (λ t, counted_in_figure u _ _ today _ t)).
    apply Sum_qs_rows. intros k t. apply dashboard_queryset_counted.
  - destruct (chosen_card db u GET_card) as [c|]; [done|].
    apply Sum_qs_rows. intros k c. unfold qfilter, objects. cbn.
    by rewrite bool_decide_eq_true.
Qed.

End DashboardProperties.

(** ** The recommendations *)

Section Recommendations.
Context `{PyFloat} `{PyStr}.

Lemma first_by_total_cons {K} (g : K * Decimal) (groups : list (K * Decimal)) :
  first_by_total (g :: groups)
  = match first_by_total groups with
    | Some b => if g.2 <? b.2 then Some b else Some g
    | None => Some g
    end.
Proof. reflexivity. Qed.

Lemma first_by_total_None {K} (groups : list (K * Decimal)) :
  first_by_total groups = None ↔ groups = [].
Proof.
  destruct groups as [|g groups]; [done|]. rewrite first_by_total_cons.
  destruct (first_by_total groups) as [b|]; [destruct (g.2 <? b.2)|]; done.
Qed.

(** The group picked is one of the groups, and none has a greater total. *)
Lemma first_by_total_greatest {K} (groups : list (K * Decimal)) (b : K * Decimal) :
  first_by_total groups = Some b →
  b ∈ groups ∧ ∀ g, g ∈ groups → g.2 ≤ b.2.
Proof.
  revert b. induction groups as [|g groups IH]; intros b; [done|].
  rewrite first_by_total_cons.
  destruct (first_by_total groups) as [b'|] eqn:Hb'.
  - destruct (IH b' eq_refl) as [Hin Hmax].
    destruct (Z.ltb_spec g.2 b'.2) as [Hlt|Hge]; intros [= <-].
    + split; [by right|]. intros g' [->|Hg']%elem_of_cons; [lia|by apply Hmax].
    + split; [by left|]. intros g' [->|Hg']%elem_of_cons; [lia|].
      specialize (Hmax g' Hg'). lia.
  - intros [= <-]. apply first_by_total_None in Hb' as ->.
    split; [by left|]. intros g' [->|Hg']%elem_of_cons; [lia|].
    by apply elem_of_nil in Hg'.
Qed.

(** Rule 2 fires as soon as the queryset holds one expense. *)
Lemma top_category_fires_iff db qs :
  top_category_fires db qs = true ↔ expense_rows db qs ≠ [].
Proof.
  unfold top_category_fires. rewrite bool_decide_eq_true, <-not_eq_None_Some.
  rewrite first_by_total_None. unfold annotate_total.
  destruct (expense_rows db qs) as [|t rows]; [done|].
  split; [done|]. intros _. rewrite fmap_cons. cbn.
  destruct (decide_rel _ _ _); [|done].
  intros Hnil%fmap_nil_inv.
  assert (Hin : category__name db t ∈ remove_dups (category__name db <$> rows))
    by (by apply elem_of_remove_dups).
  rewrite Hnil in Hin. by apply elem_of_nil in Hin.
Qed.

(** The function returns the texts of the rules that fire, or the fallback
    text when there is none. *)
Lemma generate_ai_recommendations_rule_texts db now u qs income expense :
  generate_ai_recommendations db now u qs income expense
  = match rule_texts db now qs income expense with
    | [] => [Balanced]
    | l => l
    end.
Proof.
  unfold generate_ai_recommendations, rule_texts, overspending_fires, top_category_fires,
    fast_growth_fires, high_average_fires, single_category_fires, expense_rows.
  cbn zeta.
  set (rows := (map_to_list _).*2).
  set (floats := (λ t, float_of_Decimal (transaction_amount t)) <$> rows).
  destruct (income <? expense);
    destruct (first_by_total _) as [top|];
    destruct (_ && _);
    destruct floats as [|x l];
    try destruct (float_gt_3000 _);
    destruct (bool_decide _); reflexivity.
Qed.

Lemma Overspending_in_rule_texts db now qs income expense d :
  Overspending d ∈ rule_texts db now qs income expense
  ↔ income < expense ∧ d = expense - income.
Proof.
  unfold rule_texts, overspending_fires. rewrite !elem_of_app.
  destruct (Z.ltb_spec income expense) as [Hlt|Hge].
  - rewrite list_elem_of_singleton. split.
    + intros [[= ->]|[Hin|[Hin|[Hin|Hin]]]]; [done|exfalso..].
      * destruct (first_by_total _); [apply list_elem_of_singleton in Hin|apply elem_of_nil in Hin]; done.
      * destruct (fast_growth_fires _ _ _ _); [apply list_elem_of_singleton in Hin|apply elem_of_nil in Hin]; done.
      * destruct (high_average_fires _ _); [apply list_elem_of_singleton in Hin|apply elem_of_nil in Hin]; done.
      * destruct (single_category_fires _ _); [apply list_elem_of_singleton in Hin|apply elem_of_nil in Hin]; done.
    + intros [_ ->]. by left.
  - split; [|lia]. intros [Hin|[Hin|[Hin|[Hin|Hin]]]]; exfalso.
    + by apply elem_of_nil in Hin.
    + destruct (first_by_total _); [apply list_elem_of_singleton in Hin|apply elem_of_nil in Hin]; done.
    + destruct (fast_growth_fires _ _ _ _); [apply list_elem_of_singleton in Hin|apply elem_of_nil in Hin]; done.
    + destruct (high_average_fires _ _); [apply list_elem_of_singleton in Hin|apply elem_of_nil in Hin]; done.
    + destruct (single_category_fires _ _); [apply list_elem_of_singleton in Hin|apply elem_of_nil in Hin]; done.
Qed.

(** C8.  In every context the dashboard returns, the recommendations
    hold the overspending text exactly when the expense figure is strictly
    greater than the income figure, and the value the text carries is then
    expense minus income.  The same holds of [generate_ai_recommendations]
    for any two totals handed to it. *)
Theorem overspending_iff_expense_exceeds_income (db : DB) (today now : Date)
    (u : positive) (GET_period : option string) (GET_card : option str)
    (qs : QuerySet TransactionRow) (income expense d : Decimal) :
  (∀ ctx,
     DashboardView_get_context_data db today now u GET_period GET_card = inr ctx →
     Overspending d ∈ ctx_ai_recommendations ctx
     ↔ ctx_income ctx < ctx_expense ctx ∧ d = ctx_expense ctx - ctx_income ctx)
  ∧ (Overspending d ∈ generate_ai_recommendations db now u qs income expense
     ↔ income < expense ∧ d = expense - income).
Proof.
  assert (Hgen : ∀ qs income expense,
    Overspending d ∈ generate_ai_recommendations db now u qs income expense
    ↔ income < expense ∧ d = expense - income).
  { clear qs income expense. intros qs income expense.
    rewrite generate_ai_recommendations_rule_texts.
    rewrite <-Overspending_in_rule_texts with (db := db) (now := now) (qs := qs).
    destruct (rule_texts db now qs income expense) as [|r l]; [|done].
    split; [|by intros ?%elem_of_nil].
    intros Hin. apply list_elem_of_singleton in Hin. discriminate. }
  split; [|apply Hgen].
  intros ctx Hctx. rewrite get_context_data_cases in Hctx.
  destruct (card_parameter_fails GET_card); [done|]. injection Hctx as <-.
  unfold dashboard_context. cbn. apply Hgen.
Qed.

(** C10.  [generate_ai_recommendations] never returns the empty list, and
    when none of the five rules fires it returns the fallback text alone. *)
Theorem recommendations_never_empty (db : DB) (now : Date) (u : positive)
    (qs : QuerySet TransactionRow) (income expense : Decimal) :
  generate_ai_recommendations db now u qs income expense ≠ []
  ∧ (overspending_fires income expense = false →
     top_category_fires db qs = false →
     fast_growth_fires db now qs expense = false →
     high_average_fires db qs = false →
     single_category_fires db qs = false →
     generate_ai_recommendations db now u qs income expense = [Balanced]).
Proof.
  rewrite generate_ai_recommendations_rule_texts. split.
  - by destruct (rule_texts db now qs income expense).
  - intros H1 H2 H3 H4 H5. unfold rule_texts. rewrite H1, H3, H4, H5.
    unfold top_category_fires in H2. apply bool_decide_eq_false in H2.
    destruct (first_by_total _) as [top|]; [by destruct H2|]. done.
Qed.

End Recommendations.

(** ** The statements at work on the ledger *)

Example ymd2ord_2024_01_01 :
  datetime.ymd2ord 2024 1 1 = 738886
  ∧ datetime.ord2ymd 738886 = (2024, 1, 1)
  ∧ datetime.weekday 738886 = 0.
Proof. by vm_compute. Qed.

Example first_days_2024_02_29 :
  datetime.ord2ymd (datetime.first_of_month (datetime.ymd2ord 2024 2 29)) = (2024, 2, 1)
  ∧ datetime.ord2ymd (datetime.first_of_year (datetime.ymd2ord 2024 2 29)) = (2024, 1, 1)
  ∧ datetime.ord2ymd (datetime.ymd2ord 2024 2 29 - datetime.weekday (datetime.ymd2ord 2024 2 29))
    = (2024, 2, 26).
Proof. by vm_compute. Qed.

(** C1.  Transaction 1 is an income of 30 on card 1, whose balance is 100.
    Its owner updates it to an income of 50 on the same card.  Taking the
    old effect back and applying the new one gives 100 - 30 + 50 = 120;
    the update view leaves 150, the balance from before the request plus
    the new amount: the roll-back it has just saved is overwritten by the
    stale [Card] instance that form validation had fetched. *)
Theorem update_on_same_card_loses_rollback :
  let result :=
    TransactionUpdateView_post (H := sample_validation) (Some 1%positive) 1
                               income_50_on_card_1 ledger in
  card_balance <$> cards ledger !! 1%positive = Some 100
  ∧ (transactions ledger !! 1%positive
     = Some (mkTransactionRow 1 "income" 30 (Some 1%positive) (Some 1%positive) 738886 ""))
  ∧ result.1 = inr (HttpResponseRedirect success_url)
  ∧ (transactions result.2 !! 1%positive
     = Some (mkTransactionRow 1 "income" 50 (Some 1%positive) (Some 1%positive) 738888 ""))
  ∧ card_balance <$> cards result.2 !! 1%positive = Some 150
  ∧ card_balance <$> cards result.2 !! 1%positive ≠ Some (100 - 30 + 50).
Proof. cbn zeta. repeat split; try (by vm_compute). Qed.

(** The sibling path: moved from card 1 to card 2 (both of user 1), the
    same transaction is rolled back on card 1 and applied to card 2. *)
Example update_to_other_card_reconciles :
  let POST := mkFormData (Some "income"%string) (Some 50) (Some 1%positive)
                         (Some 2%positive) (Some 738888) "" in
  let result :=
    TransactionUpdateView_post (H := sample_validation) (Some 1%positive) 1 POST ledger in
  card_balance <$> cards result.2 !! 1%positive = Some (100 - 30)
  ∧ card_balance <$> cards result.2 !! 2%positive = Some (50 + 50).
Proof. by vm_compute. Qed.

(** C3.  Transaction 2 of the ledger is an expense of 40 on card 2, whose
    balance is 50.  A POST to the delete view that Django 4.0 or later
    handles answers with the redirect and removes the row, and card 2
    still holds 50, not the 90 that taking the expense back gives; the
    [delete] handler of the view, which that POST does not reach, leaves
    90. *)
Theorem delete_by_post_keeps_card_balance :
  let posted := TransactionDeleteView_post From_4_0 (Some 1%positive) 2 ledger in
  let handled := TransactionDeleteView_delete (Some 1%positive) 2 ledger in
  (transactions ledger !! 2%positive
   = Some (mkTransactionRow 1 "expense" 40 (Some 2%positive) (Some 2%positive) 738887 ""))
  ∧ card_balance <$> cards ledger !! 2%positive = Some 50
  ∧ posted.1 = inr (HttpResponseRedirect success_url)
  ∧ transactions posted.2 !! 2%positive = None
  ∧ card_balance <$> cards posted.2 !! 2%positive = Some 50
  ∧ card_balance <$> cards posted.2 !! 2%positive ≠ Some (50 + 40)
  ∧ handled.1 = inr (HttpResponseRedirect success_url)
  ∧ transactions handled.2 !! 2%positive = None
  ∧ card_balance <$> cards handled.2 !! 2%positive = Some (50 + 40).
Proof. cbn zeta. repeat split; try (by vm_compute). Qed.

Lemma create_changes_card_balance_by_amount_witness :
  let db' := (TransactionCreateView_post (H := sample_validation) (Some 1%positive)
                income_50_on_card_1 ledger).2 in
  TransactionCreateView_post (H := sample_validation) (Some 1%positive)
      income_50_on_card_1 ledger
    = (inr (HttpResponseRedirect success_url), db')
  ∧ data_card income_50_on_card_1 = Some 1%positive
  ∧ ∃ k t row row',
      transactions ledger !! k = None
      ∧ transactions db' = <[k := t]> (transactions ledger)
      ∧ transaction_card t = Some 1%positive
      ∧ data_type income_50_on_card_1 = Some (transaction_type t)
      ∧ data_amount income_50_on_card_1 = Some (transaction_amount t)
      ∧ cards ledger !! 1%positive = Some row
      ∧ cards db' !! 1%positive = Some row'
      ∧ (transaction_type t = "income"%string →
         card_balance row' = card_balance row + transaction_amount t)
      ∧ (transaction_type t = "expense"%string →
         card_balance row' = card_balance row - transaction_amount t).
Proof.
  cbn zeta. split; [by vm_compute|]. split; [reflexivity|].
  apply (create_changes_card_balance_by_amount (H := sample_validation)
           1 1 income_50_on_card_1 ledger _ success_url); by vm_compute.
Defined.

Lemma delete_handler_reverses_effect_on_card_witness :
  let t := mkTransactionRow 1 "expense" 40 (Some 2%positive) (Some 2%positive) 738887 "" in
  let row := mkCardRow 1 50 true in
  transactions ledger !! 2%positive = Some t
  ∧ transaction_card t = Some 2%positive
  ∧ cards ledger !! 2%positive = Some row
  ∧ ∃ db' row',
      TransactionDeleteView_delete None 2 ledger
        = (inr (HttpResponseRedirect success_url), db')
      ∧ transactions db' = delete 2%positive (transactions ledger)
      ∧ cards db' !! 2%positive = Some row'
      ∧ card_user row' = card_user row
      ∧ (transaction_type t = "income"%string →
         card_balance row' = card_balance row - transaction_amount t)
      ∧ (transaction_type t = "expense"%string →
         card_balance row' = card_balance row + transaction_amount t)
      ∧ (∀ c', c' ≠ 2%positive → cards db' !! c' = cards ledger !! c').
Proof.
  cbn zeta. split; [by vm_compute|]. split; [reflexivity|]. split; [by vm_compute|].
  apply (delete_handler_reverses_effect_on_card None 2 2 _ _ ledger); by vm_compute.
Defined.

Lemma create_without_card_keeps_balances_witness :
  let form := TransactionForm_init 1 expense_20_in_cash blank in
  let cleaned := default form (full_clean (H := sample_validation) form ledger) in
  full_clean (H := sample_validation) form ledger = Some cleaned
  ∧ data_card expense_20_in_cash = None
  ∧ ∃ k t db',
      TransactionCreateView_post (H := sample_validation) (Some 1%positive)
          expense_20_in_cash ledger
        = (inr (HttpResponseRedirect success_url), db')
      ∧ cards db' = cards ledger
      ∧ transactions ledger !! k = None
      ∧ transactions db' = <[k := t]> (transactions ledger)
      ∧ transaction_user t = 1%positive
      ∧ transaction_card t = None
      ∧ data_type expense_20_in_cash = Some (transaction_type t)
      ∧ data_amount expense_20_in_cash = Some (transaction_amount t).
Proof.
  cbn zeta. split; [by vm_compute|]. split; [reflexivity|].
  eapply (create_without_card_keeps_balances (H := sample_validation)
            1 expense_20_in_cash ledger); by vm_compute.
Defined.

Lemma create_invalid_changes_nothing_witness :
  full_clean (H := sample_validation)
             (TransactionForm_init 1 expense_without_amount blank) ledger = None
  ∧ TransactionCreateView_post (H := sample_validation) (Some 1%positive)
        expense_without_amount ledger
    = (inr (FormInvalid template_name), ledger).
Proof.
  split; [by vm_compute|].
  apply (create_invalid_changes_nothing (H := sample_validation)
           1 expense_without_amount ledger). by vm_compute.
Defined.

(** User 1, or nobody at all, asks for the deletion of transaction 3,
    which is user 2's expense of 5 on user 2's card 3 (balance 7). *)
Lemma delete_reaches_foreign_transactions_witness :
  let t := mkTransactionRow 2 "expense" 5 (Some 3%positive) (Some 3%positive) 738887 "" in
  transactions ledger !! 3%positive = Some t
  ∧ transaction_user t ≠ 1%positive
  ∧ (∀ c, transaction_card t = Some c → is_Some (cards ledger !! c))
  ∧ (∃ db',
        TransactionDeleteView_delete None 3 ledger
          = (inr (HttpResponseRedirect success_url), db')
        ∧ transactions db' !! 3%positive = None
        ∧ cards db' !! 3%positive = Some (mkCardRow 2 12 true))
  ∧ TransactionUpdateView_post (H := sample_validation) (Some 1%positive) 3
        income_50_on_card_1 ledger
    = (inl Http404, ledger).
Proof.
  cbn zeta.
  assert (Ht : transactions ledger !! 3%positive
               = Some (mkTransactionRow 2 "expense" 5 (Some 3%positive) (Some 3%positive)
                                        738887 "")) by (by vm_compute).
  assert (Hu : transaction_user
                 (mkTransactionRow 2 "expense" 5 (Some 3%positive) (Some 3%positive) 738887 "")
               ≠ 1%positive) by (by vm_compute).
  assert (Hfk : ∀ c,
             transaction_card
               (mkTransactionRow 2 "expense" 5 (Some 3%positive) (Some 3%positive) 738887 "")
             = Some c → is_Some (cards ledger !! c)).
  { intros c [= <-]. exists (mkCardRow 2 7 true). by vm_compute. }
  split; [exact Ht|]. split; [exact Hu|]. split; [exact Hfk|].
  destruct (delete_reaches_foreign_transactions (H := sample_validation) None 1 3 _
              income_50_on_card_1 ledger Ht Hu Hfk)
    as ((db' & Hdel & Hgone & Hcard) & _ & _ & H404 & _).
  split; [|exact H404].
  exists db'. split; [exact Hdel|]. split; [exact Hgone|].
  apply (Hcard 3%positive (mkCardRow 2 7 true)); by vm_compute.
Defined.

Lemma form_keeps_card_and_category_with_owner_witness :
  let db' := (TransactionCreateView_post (H := sample_validation) (Some 1%positive)
                income_50_on_card_1 ledger).2 in
  TransactionCreateView_post (H := sample_validation) (Some 1%positive)
      income_50_on_card_1 ledger
    = (inr (HttpResponseRedirect success_url), db')
  ∧ ∃ k t, transactions ledger !! k = None
           ∧ transactions db' = <[k := t]> (transactions ledger)
           ∧ transaction_user t = 1%positive
           ∧ owned_refs ledger t.
Proof.
  cbn zeta.
  assert (Hpost : TransactionCreateView_post (H := sample_validation) (Some 1%positive)
                    income_50_on_card_1 ledger
                  = (inr (HttpResponseRedirect success_url),
                     (TransactionCreateView_post (H := sample_validation) (Some 1%positive)
                        income_50_on_card_1 ledger).2)) by (by vm_compute).
  split; [exact Hpost|].
  exact (proj1 (proj2 (proj2
           (form_keeps_card_and_category_with_owner (H := sample_validation)
              1 income_50_on_card_1 blank ledger))) _ _ Hpost).
Defined.

(** The recommendations for user 1 on 2024-01-01, a day with one income
    and no expense. *)
Lemma recommendations_never_empty_witness :
  let qs := dashboard_transactions 1 738886 738886 None in
  overspending_fires 30 0 = false
  ∧ top_category_fires ledger qs = false
  ∧ fast_growth_fires ledger 738886 qs 0 = false
  ∧ high_average_fires (H := sample_arithmetic) ledger qs = false
  ∧ single_category_fires ledger qs = false
  ∧ generate_ai_recommendations (H := sample_arithmetic) ledger 738886 1 qs 30 0
    = [Balanced].
Proof.
  cbn zeta. repeat (split; [by vm_compute|]).
  apply (proj2 (recommendations_never_empty (H := sample_arithmetic) ledger 738886 1
                  (dashboard_transactions 1 738886 738886 None) 30 0)); by vm_compute.
Defined.

(** * Further properties of the transaction views *)

Section ViewOutcomes.
Context `{ModelValidation}.

(** Every outcome of a create request of a logged-in user. *)
Lemma create_post_cases u POST db :
  TransactionCreateView_post (Some u) POST db =
  match full_clean (TransactionForm_init u POST blank) db with
  | Some form =>
      let i := instance form in
      (inr (HttpResponseRedirect success_url),
       mkDB (match card_cache i with
             | Some card =>
                 <[card_pk card := applied (type i) (amount i) (card_fields card)]> (cards db)
             | None => cards db
             end)
            (categories db)
            (<[fresh (dom (transactions db)) := row_of u i]> (transactions db)))
  | None => (inr (FormInvalid template_name), db)
  end.
Proof.
  rewrite create_post_run.
  destruct (full_clean _ db) as [form|] eqn:Hclean; [|done].
  destruct (full_clean_refs _ _ _ _ _ Hclean) as (_ & _ & Hpk & _ & Hid).
  by rewrite create_form_valid_run.
Qed.

(** Every outcome of an update request of a logged-in user. *)
Lemma update_post_cases u k POST db :
  TransactionUpdateView_post (Some u) k POST db =
  match qs_get (TransactionUpdateView_get_queryset u) (transactions db) k with
  | None => (inl Http404, db)
  | Some old =>
      match full_clean (TransactionForm_init u POST (Transaction_from_db k old)) db with
      | None => (inr (FormInvalid template_name), db)
      | Some form =>
          let i := instance form in
          if old_card_exists old db
          then
            (inr (HttpResponseRedirect success_url),
             mkDB (match card_cache i with
                   | Some card =>
                       <[card_pk card := applied (type i) (amount i) (card_fields card)]>
                         (cards_rolled_back old db)
                   | None => cards_rolled_back old db
                   end)
                  (categories db)
                  (<[k := row_of u i]> (transactions db)))
          else (inl DoesNotExist, db)
      end
  end.
Proof.
  destruct (qs_get _ (transactions db) k) as [old|] eqn:Hget.
  2:{ unfold TransactionUpdateView_post. unfold bind at 1.
      by rewrite (get_object_missing _ k db Hget). }
  pose proof Hget as Hget'. apply update_queryset_get in Hget' as [Hold Hu].
  destruct (full_clean _ db) as [form|] eqn:Hclean.
  2:{ unfold TransactionUpdateView_post. unfold bind at 1.
      rewrite (get_object_found _ k old db Hget). unfold bind at 1.
      by rewrite is_valid_run, Hclean. }
  cbn zeta. unfold old_card_exists.
  destruct (transaction_card old) as [oc|] eqn:Hoc.
  - destruct (cards db !! oc) as [orow|] eqn:Horow.
    + rewrite bool_decide_eq_true_2 by done.
      apply (update_post_run u k old POST db form Hold Hu Hclean).
      intros oc' Hoc'. rewrite Hoc in Hoc'. injection Hoc' as <-. by rewrite Horow.
    + rewrite bool_decide_eq_false_2 by (by intros [? ?]).
      by apply (update_post_dangling u k oc old POST db form).
  - apply (update_post_run u k old POST db form Hold Hu Hclean).
    intros oc' Hoc'. by rewrite Hoc in Hoc'.
Qed.

(** Every outcome of a delete request. *)
Lemma delete_cases requester k db :
  TransactionDeleteView_delete requester k db =
  match transactions db !! k with
  | None => (inl Http404, db)
  | Some t =>
      match transaction_card t with
      | None => (inr (HttpResponseRedirect success_url),
                 mkDB (cards db) (categories db) (delete k (transactions db)))
      | Some c =>
          match cards db !! c with
          | Some row =>
              (inr (HttpResponseRedirect success_url),
               mkDB (<[c := reversed t row]> (cards db)) (categories db)
                    (delete k (transactions db)))
          | None => (inl DoesNotExist, db)
          end
      end
  end.
Proof.
  destruct (transactions db !! k) as [t|] eqn:Ht.
  - by apply delete_run.
  - unfold TransactionDeleteView_delete. unfold bind at 1.
    rewrite (get_object_missing objects k db); [done|]. by rewrite qs_get_objects.
Qed.

End ViewOutcomes.

(** ** What the views leave alone *)

Section Frame.
Context `{ModelValidation}.

Lemma only_balances_differ_refl db : only_balances_differ db db.
Proof. by split. Qed.

Lemma identity_insert (m m' : gmap positive CardRow) c r r' :
  (∀ c', card_identity <$> m' !! c' = card_identity <$> m !! c') →
  m !! c = Some r →
  card_identity r' = card_identity r →
  ∀ c', card_identity <$> <[c := r']> m' !! c' = card_identity <$> m !! c'.
Proof.
  intros Hm Hc Hid c'. destruct (decide (c = c')) as [<-|Hne].
  - by rewrite lookup_insert_eq, Hc; cbn; rewrite Hid.
  - by rewrite lookup_insert_ne.
Qed.

Lemma cards_rolled_back_identity old db c :
  card_identity <$> cards_rolled_back old db !! c = card_identity <$> cards db !! c.
Proof.
  unfold cards_rolled_back. destruct (transaction_card old) as [oc|]; [|done].
  destruct (cards db !! oc) as [orow|] eqn:Horow; [|done].
  by apply (identity_insert (cards db) (cards db) oc orow).
Qed.

(** X1.  Whatever the requester, the data and the outcome (redirect,
    re-rendered form, 404, exception), the create, update and delete views
    leave the category table as it was and neither add nor remove a card
    nor change the owner or the activity of one: only balances and
    transaction rows can differ afterwards. *)
Theorem views_only_touch_balances (requester : option positive) (k : positive)
    (POST : FormData) (db : DB) :
  only_balances_differ db (TransactionCreateView_post requester POST db).2
  ∧ only_balances_differ db (TransactionUpdateView_post requester k POST db).2
  ∧ only_balances_differ db (TransactionDeleteView_delete requester k db).2.
Proof.
  split; [|split].
  - destruct requester as [u|]; [|apply only_balances_differ_refl].
    rewrite create_post_cases.
    destruct (full_clean _ db) as [form|] eqn:Hclean; [|apply only_balances_differ_refl].
    destruct (full_clean_refs _ _ _ _ _ Hclean) as (Hc & _ & _ & _ & Hid).
    split; [done|]. cbn.
    destruct (card_cache (instance form)) as [[c r]|] eqn:Hcache; [|done].
    destruct (Hc c) as (r' & Hr' & _ & [= <-]); [by rewrite Hid|].
    by apply (identity_insert (cards db) (cards db) c r).
  - destruct requester as [u|]; [|apply only_balances_differ_refl].
    rewrite update_post_cases.
    destruct (qs_get _ (transactions db) k) as [old|]; [|apply only_balances_differ_refl].
    destruct (full_clean _ db) as [form|] eqn:Hclean; [|apply only_balances_differ_refl].
    cbn zeta. destruct (old_card_exists old db); [|apply only_balances_differ_refl].
    destruct (full_clean_refs _ _ _ _ _ Hclean) as (Hc & _ & _ & _ & Hid).
    split; [done|]. cbn.
    destruct (card_cache (instance form)) as [[c r]|] eqn:Hcache.
    + destruct (Hc c) as (r' & Hr' & _ & [= <-]); [by rewrite Hid|].
      apply (identity_insert (cards db) _ c r); [|done..].
      apply cards_rolled_back_identity.
    + apply cards_rolled_back_identity.
  - rewrite delete_cases.
    destruct (transactions db !! k) as [t|]; [|apply only_balances_differ_refl].
    destruct (transaction_card t) as [c|]; [|by split].
    destruct (cards db !! c) as [row|] eqn:Hrow; [|apply only_balances_differ_refl].
    split; [done|]. by apply (identity_insert (cards db) (cards db) c row).
Qed.

Lemma owned_refs_only_balances db db' t :
  only_balances_differ db db' → owned_refs db t → owned_refs db' t.
Proof.
  intros [Hcat Hcards] [Hc Hg]. split.
  - intros c Ht. destruct (Hc c Ht) as (r & Hr & Hu).
    specialize (Hcards c). rewrite Hr in Hcards. cbn in Hcards.
    destruct (cards db' !! c) as [r'|]; [|done]. injection Hcards as Hu' _.
    exists r'. split; [done|]. congruence.
  - rewrite Hcat. apply Hg.
Qed.

(** X2.  If every stored transaction refers to a card and a category of
    its own user, the same holds after any create, update or delete
    request, whatever its outcome. *)
Theorem views_keep_references_owned (requester : option positive) (k : positive)
    (POST : FormData) (db : DB) :
  well_formed db →
  well_formed (TransactionCreateView_post requester POST db).2
  ∧ well_formed (TransactionUpdateView_post requester k POST db).2
  ∧ well_formed (TransactionDeleteView_delete requester k db).2.
Proof.
  intros Hwf.
  destruct (views_only_touch_balances requester k POST db) as (Fc & Fu & Fd).
  split; [|split]; intros k' t Ht.
  - apply (owned_refs_only_balances db _ t Fc).
    destruct requester as [u|]; [|by apply (Hwf k')].
    rewrite create_post_cases in Ht.
    destruct (full_clean _ db) as [form|] eqn:Hclean; [|by apply (Hwf k')].
    cbn in Ht. apply lookup_insert_Some in Ht as [[_ <-]|[_ Ht]]; [|by apply (Hwf k')].
    destruct (full_clean_refs _ _ _ _ _ Hclean) as (Hc & Hg & _).
    split; cbn.
    + intros c Hcid. destruct (Hc c Hcid) as (r & ? & ? & _). by exists r.
    + intros g Hgid. destruct (Hg g Hgid) as (r & ? & ? & ?). by exists r.
  - apply (owned_refs_only_balances db _ t Fu).
    destruct requester as [u|]; [|by apply (Hwf k')].
    rewrite update_post_cases in Ht.
    destruct (qs_get _ (transactions db) k) as [old|]; [|by apply (Hwf k')].
    destruct (full_clean _ db) as [form|] eqn:Hclean; [|by apply (Hwf k')].
    cbn zeta in Ht. destruct (old_card_exists old db); [|by apply (Hwf k')].
    cbn in Ht. apply lookup_insert_Some in Ht as [[_ <-]|[_ Ht]]; [|by apply (Hwf k')].
    destruct (full_clean_refs _ _ _ _ _ Hclean) as (Hc & Hg & _).
    split; cbn.
    + intros c Hcid. destruct (Hc c Hcid) as (r & ? & ? & _). by exists r.
    + intros g Hgid. destruct (Hg g Hgid) as (r & ? & ? & ?). by exists r.
  - apply (owned_refs_only_balances db _ t Fd).
    rewrite delete_cases in Ht.
    destruct (transactions db !! k) as [t0|]; [|by apply (Hwf k')].
    destruct (transaction_card t0) as [c|].
    + destruct (cards db !! c) as [row|]; [|by apply (Hwf k')].
      cbn in Ht. apply lookup_delete_Some in Ht as [_ Ht]. by apply (Hwf k').
    + cbn in Ht. apply lookup_delete_Some in Ht as [_ Ht]. by apply (Hwf k').
Qed.

End Frame.

(** ** Whose cards a request can change *)

Section Isolation.
Context `{ModelValidation}.

(** X3.  A create request of user [u] changes no card of another user,
    whatever its outcome; neither does an update request of [u] on a
    transaction whose card, if it has one that exists, is a card of the
    user of the transaction. *)
Theorem create_and_update_leave_foreign_cards (u k c : positive) (row : CardRow)
    (POST : FormData) (db : DB) :
  cards db !! c = Some row →
  card_user row ≠ u →
  (∀ old oc orow, transactions db !! k = Some old → transaction_card old = Some oc →
                  cards db !! oc = Some orow → card_user orow = transaction_user old) →
  cards (TransactionCreateView_post (Some u) POST db).2 !! c = Some row
  ∧ cards (TransactionUpdateView_post (Some u) k POST db).2 !! c = Some row.
Proof.
  intros Hrow Hu Hold. split.
  - rewrite create_post_cases.
    destruct (full_clean _ db) as [form|] eqn:Hclean; [|done].
    destruct (full_clean_refs _ _ _ _ _ Hclean) as (Hc & _ & _ & _ & Hid). cbn.
    destruct (card_cache (instance form)) as [[c' r']|] eqn:Hcache; [|done].
    destruct (Hc c') as (r'' & Hr'' & Hu' & [= <-]); [by rewrite Hid|].
    rewrite lookup_insert_ne; [done|]. cbn. intros ->. congruence.
  - rewrite update_post_cases.
    destruct (qs_get _ (transactions db) k) as [old|] eqn:Hget; [|done].
    apply update_queryset_get in Hget as [Hk Hou].
    destruct (full_clean _ db) as [form|] eqn:Hclean; [|done].
    cbn zeta. destruct (old_card_exists old db); [|done].
    destruct (full_clean_refs _ _ _ _ _ Hclean) as (Hc & _ & _ & _ & Hid). cbn.
    assert (Hrb : cards_rolled_back old db !! c = Some row).
    { unfold cards_rolled_back. destruct (transaction_card old) as [oc|] eqn:Hoc; [|done].
      destruct (cards db !! oc) as [orow|] eqn:Horow; [|done].
      rewrite lookup_insert_ne; [done|]. intros ->.
      pose proof (Hold old c orow Hk Hoc Horow). congruence. }
    destruct (card_cache (instance form)) as [[c' r']|] eqn:Hcache; [|done].
    destruct (Hc c') as (r'' & Hr'' & Hu' & [= <-]); [by rewrite Hid|].
    rewrite lookup_insert_ne; [done|]. cbn. intros ->. congruence.
Qed.

(** X4.  An update that does not keep the transaction on the card it was
    on (it moves it to another card, puts a cash transaction on a card, or
    turns it into cash) reconciles: the card it leaves has the old effect
    taken back, the card it reaches has the new effect applied, and every
    other card is as it was. *)
Theorem update_reconciles_when_card_changes (u k : positive) (old : TransactionRow)
    (POST : FormData) (db : DB) (form : TransactionForm) :
  transactions db !! k = Some old →
  transaction_user old = u →
  full_clean (TransactionForm_init u POST (Transaction_from_db k old)) db = Some form →
  (∀ oc, transaction_card old = Some oc → is_Some (cards db !! oc)) →
  transaction_card old ≠ data_card POST ∨ data_card POST = None →
  ∃ db',
    TransactionUpdateView_post (Some u) k POST db
      = (inr (HttpResponseRedirect success_url), db')
    ∧ (∀ oc orow, transaction_card old = Some oc → cards db !! oc = Some orow →
                  cards db' !! oc = Some (reversed old orow))
    ∧ (∀ nc nrow, data_card POST = Some nc → cards db !! nc = Some nrow →
                  cards db' !! nc
                  = Some (applied (type (instance form)) (amount (instance form)) nrow))
    ∧ (∀ c, transaction_card old ≠ Some c → data_card POST ≠ Some c →
            cards db' !! c = cards db !! c).
Proof.
  intros Hold Hu Hclean Hfk Hmove.
  rewrite (update_post_run u k old POST db form Hold Hu Hclean Hfk).
  apply full_clean_Some in Hclean
    as (t & a & category & card & d & Ht & Ha & _ & Hc & Hd & ->).
  cbn in Hc. eexists. split; [reflexivity|]. cbn.
  assert (Hrb : ∀ c, transaction_card old ≠ Some c →
                     cards_rolled_back old db !! c = cards db !! c).
  { intros c Hne. unfold cards_rolled_back.
    destruct (transaction_card old) as [oc|]; [|done].
    destruct (cards db !! oc); [|done]. rewrite lookup_insert_ne; [done|]. congruence. }
  assert (Hrb' : ∀ oc orow, transaction_card old = Some oc → cards db !! oc = Some orow →
                            cards_rolled_back old db !! oc = Some (reversed old orow)).
  { intros oc orow Hoc Horow. unfold cards_rolled_back. rewrite Hoc, Horow.
    apply lookup_insert_eq. }
  destruct (data_card POST) as [nc|] eqn:Hnc.
  - apply clean_choice_Some in Hc as (nrow & -> & Hnrow & _). cbn.
    assert (Hne : transaction_card old ≠ Some nc) by (by destruct Hmove).
    split; [|split].
    + intros oc orow Hoc Horow. rewrite lookup_insert_ne by congruence. by apply Hrb'.
    + intros nc' nrow' [= <-] Hnrow'. rewrite lookup_insert_eq. congruence.
    + intros c Hc1 Hc2. rewrite lookup_insert_ne by congruence. by apply Hrb.
  - apply clean_choice_None in Hc as ->. cbn.
    split; [|split].
    + apply Hrb'.
    + by intros nc nrow [=].
    + intros c Hc1 _. by apply Hrb.
Qed.

(** X5.  When the data of an update request does not validate, the view
    re-renders the form and the database is as it was: the old effect is
    not taken back and the transaction keeps its fields. *)
Theorem update_invalid_changes_nothing (u k : positive) (old : TransactionRow)
    (POST : FormData) (db : DB) :
  transactions db !! k = Some old →
  transaction_user old = u →
  full_clean (TransactionForm_init u POST (Transaction_from_db k old)) db = None →
  TransactionUpdateView_post (Some u) k POST db = (inr (FormInvalid template_name), db).
Proof.
  intros Hold Hu Hclean. rewrite update_post_cases.
  rewrite (proj2 (update_queryset_get u (transactions db) k old)) by done.
  by rewrite Hclean.
Qed.

Lemma reversed_applied u i row :
  reversed (row_of u i) (applied (type i) (amount i) row) = row.
Proof.
  unfold reversed, applied, row_of. destruct row as [cu b act]. cbn.
  case_bool_decide; f_equal; lia.
Qed.

(** X6.  The [delete] handler of the delete view (a request of the DELETE
    verb, and a POST up to Django 3.2), run on the transaction a create
    request has just inserted, gives back the database from before the
    create: the balance of its card returns to what it was and the row is
    gone.  A POST that Django 4.0 or later handles gives back the
    transaction table only: the cards stay as the create request left
    them. *)
Theorem create_then_delete_restores (requester : option positive) (u : positive)
    (POST : FormData) (db db' : DB) (url : string) :
  TransactionCreateView_post (Some u) POST db = (inr (HttpResponseRedirect url), db') →
  ∃ k, transactions db !! k = None
       ∧ is_Some (transactions db' !! k)
       ∧ TransactionDeleteView_delete requester k db'
         = (inr (HttpResponseRedirect success_url), db)
       ∧ TransactionDeleteView_post Before_4_0 requester k db'
         = (inr (HttpResponseRedirect success_url), db)
       ∧ TransactionDeleteView_post From_4_0 requester k db'
         = (inr (HttpResponseRedirect success_url),
            mkDB (cards db') (categories db) (transactions db)).
Proof.
  intros Hpost. rewrite create_post_cases in Hpost.
  destruct (full_clean _ db) as [form|] eqn:Hclean; [|done].
  destruct (full_clean_refs _ _ _ _ _ Hclean) as (Hc & _ & _ & _ & Hid).
  cbn zeta in Hpost. injection Hpost as _ <-.
  set (k := fresh (dom (transactions db))).
  assert (Hk : transactions db !! k = None) by apply not_elem_of_dom, is_fresh.
  exists k. split; [done|]. split; [cbn; by rewrite lookup_insert_eq|].
  assert (Hhandler :
    TransactionDeleteView_delete requester k
      (mkDB match card_cache (instance form) with
            | Some c0 => <[card_pk c0 := applied (type (instance form))
                                                 (amount (instance form)) (card_fields c0)]>
                           (cards db)
            | None => cards db
            end (categories db) (<[k := row_of u (instance form)]> (transactions db)))
    = (inr (HttpResponseRedirect success_url), db)).
  { rewrite delete_cases. cbn. rewrite lookup_insert_eq. cbn.
    rewrite delete_insert_eq, (delete_id _ _ Hk).
    destruct db as [cs gs ts]. cbn in *.
    destruct (card_cache (instance form)) as [[c r]|] eqn:Hcache.
    - destruct (Hc c) as (r' & Hr' & _ & [= <-]); [by rewrite Hid|].
      rewrite Hid. cbn. rewrite lookup_insert_eq, insert_insert_eq.
      by rewrite reversed_applied, insert_id.
    - by rewrite Hid. }
  split; [exact Hhandler|]. split; [exact Hhandler|].
  rewrite (delete_post_run requester k (row_of u (instance form)))
    by (cbn; apply lookup_insert_eq).
  cbn. by rewrite delete_insert_eq, (delete_id _ _ Hk).
Qed.

End Isolation.

(** ** Categories by type *)

Section CategoryTypes.
Context `{ModelValidation}.

Lemma form_category_queryset_typed u POST inst t k r :
  data_type POST = Some t →
  t = "income"%string ∨ t = "expense"%string →
  category_queryset (TransactionForm_init u POST inst) k r = true →
  category_type r = t.
Proof.
  intros Ht Hty. unfold TransactionForm_init, qfilter, objects. cbn. rewrite Ht.
  assert (bool_decide (t = "income"%string) || bool_decide (t = "expense"%string) = true)
    as -> by (destruct Hty as [-> | ->]; done).
  cbn. rewrite !andb_true_iff, !bool_decide_eq_true. tauto.
Qed.

Lemma full_clean_category_typed u POST inst db form :
  full_clean (TransactionForm_init u POST inst) db = Some form →
  type (instance form) = "income"%string ∨ type (instance form) = "expense"%string →
  ∀ g, category_id (instance form) = Some g →
       ∃ r, categories db !! g = Some r ∧ category_type r = type (instance form).
Proof.
  intros Hclean Hty g Hg. apply full_clean_Some in Hclean
    as (t & a & category & card & d & Ht & Ha & Hcat & _ & _ & ->).
  cbn in *. destruct (data_category POST) as [g'|].
  - apply clean_choice_Some in Hcat as (r & -> & Hr & Hq). cbn in Hg.
    injection Hg as ->. exists r. split; [done|].
    by apply (form_category_queryset_typed u POST inst t g r).
  - by apply clean_choice_None in Hcat as ->.
Qed.

(** X7.  A transaction of type income or expense that the create view or
    the update view saves has, when it has a category, a category of its
    own type: the form offers the categories of the submitted type only. *)
Theorem saved_category_has_transaction_type (u k : positive) (POST : FormData)
    (db db' : DB) (url : string) :
  TransactionCreateView_post (Some u) POST db = (inr (HttpResponseRedirect url), db')
  ∨ TransactionUpdateView_post (Some u) k POST db = (inr (HttpResponseRedirect url), db') →
  ∃ k' t,
    transactions db' !! k' = Some t
    ∧ data_type POST = Some (transaction_type t)
    ∧ data_category POST = transaction_category t
    ∧ (transaction_type t = "income"%string ∨ transaction_type t = "expense"%string →
       category_matches_type db' t).
Proof.
  intros [Hpost|Hpost].
  - rewrite create_post_cases in Hpost.
    destruct (full_clean _ db) as [form|] eqn:Hclean; [|done].
    cbn zeta in Hpost. injection Hpost as _ <-.
    eexists _, _. split; [cbn; apply lookup_insert_eq|].
    pose proof (full_clean_category_typed _ _ _ _ _ Hclean) as Hty.
    apply full_clean_Some in Hclean
      as (t & a & category & card & d & Ht & Ha & Hcat & _ & _ & ->).
    cbn in *. split; [done|]. split; [|done].
    destruct (data_category POST) as [g|].
    + by apply clean_choice_Some in Hcat as (r & -> & _).
    + by apply clean_choice_None in Hcat as ->.
  - rewrite update_post_cases in Hpost.
    destruct (qs_get _ (transactions db) k) as [old|]; [|done].
    destruct (full_clean _ db) as [form|] eqn:Hclean; [|done].
    cbn zeta in Hpost. destruct (old_card_exists old db); [|done].
    injection Hpost as _ <-.
    eexists _, _. split; [cbn; apply lookup_insert_eq|].
    pose proof (full_clean_category_typed _ _ _ _ _ Hclean) as Hty.
    apply full_clean_Some in Hclean
      as (t & a & category & card & d & Ht & Ha & Hcat & _ & _ & ->).
    cbn in *. split; [done|]. split; [|done].
    destruct (data_category POST) as [g|].
    + by apply clean_choice_Some in Hcat as (r & -> & _).
    + by apply clean_choice_None in Hcat as ->.
Qed.

End CategoryTypes.

(** * Properties of the transaction list *)

Section ListProperties.
Context `{TransactionChoices}.

(** What the cleaned data of a valid filter form are. *)
Lemma TransactionFilterForm_clean_Some u GET db cleaned :
  TransactionFilterForm_clean (TransactionFilterForm_init GET (Some u)) db = Some cleaned →
  cleaned_type cleaned = default ""%string (filter_type GET)
  ∧ (cleaned_type cleaned = ""%string ∨ cleaned_type cleaned ∈ TYPE_CHOICES)
  ∧ cleaned_category cleaned = filter_category GET
  ∧ (∀ c, filter_category GET = Some c →
          ∃ r, categories db !! c = Some r ∧ category_user r = u
               ∧ category_is_active r = true)
  ∧ clean_date (filter_date_from GET) = Some (cleaned_date_from cleaned)
  ∧ clean_date (filter_date_to GET) = Some (cleaned_date_to cleaned).
Proof.
  unfold TransactionFilterForm_clean, TransactionFilterForm_init. cbn. intros E.
  destruct (bool_decide (default ""%string (filter_type GET) = ""%string)
            || bool_decide (default ""%string (filter_type GET) ∈ TYPE_CHOICES)) eqn:Hty;
    [|done]. cbn in E.
  destruct (clean_choice _ (categories db) (filter_category GET)) as [category|] eqn:Hcat;
    [|done]. cbn in E.
  destruct (clean_date (filter_date_from GET)) as [df|]; [|done]. cbn in E.
  destruct (clean_date (filter_date_to GET)) as [dt|]; [|done]. cbn in E.
  injection E as <-. cbn. split; [done|]. split.
  { apply orb_true_iff in Hty as [Hty|Hty]; apply bool_decide_eq_true in Hty; auto. }
  destruct (filter_category GET) as [c|].
  - apply clean_choice_Some in Hcat as (r & -> & Hr & Hq). cbn.
    split; [done|]. split; [|done]. intros c' [= <-]. exists r. split; [done|].
    unfold qfilter, objects in Hq. cbn in Hq.
    by rewrite andb_true_iff, bool_decide_eq_true in Hq.
  - apply clean_choice_None in Hcat as ->. cbn. split; [done|]. split; [|done].
    by intros c [=].
Qed.

Lemma clean_date_Some v o :
  clean_date v = Some o → (∀ d, v = Parsed d ↔ o = Some d).
Proof. destruct v; cbn; intros [= <-] d'; split; congruence. Qed.

Lemma qfilter_true {R} (cond : positive → R → bool) (qs : QuerySet R) k r :
  qfilter cond qs k r = true ↔ qs k r = true ∧ cond k r = true.
Proof. unfold qfilter. apply andb_true_iff. Qed.

Lemma qfilter_option {A R} (o : option A) (cond : A → positive → R → bool)
    (qs : QuerySet R) k r :
  match o with Some a => qfilter (cond a) qs | None => qs end k r = true
  ↔ qs k r = true ∧ ∀ a, o = Some a → cond a k r = true.
Proof.
  destruct o as [a|].
  - rewrite qfilter_true. split; [intros [? ?]; split; [done|]; by intros ? [= <-]|].
    intros [? Ha]. split; [done|]. by apply Ha.
  - split; [intros ?; split; [done|]; by intros ? [=]|]. by intros [? _].
Qed.

(** X8.  With a valid filter form, the list view selects exactly the
    transactions of the requesting user that have the chosen type (when one
    is chosen), the chosen category (when one is chosen), and a date within
    the bounds given. *)
Theorem list_view_selects_filtered_rows_of_user (u : positive) (GET : FilterData)
    (db : DB) (cleaned : FilterCleaned) (k : positive) (t : TransactionRow) :
  TransactionFilterForm_clean (TransactionFilterForm_init GET (Some u)) db = Some cleaned →
  (TransactionListView_get_queryset_filtered u GET db k t = true
   ↔ transaction_user t = u
     ∧ (∀ ty, filter_type GET = Some ty → ty ≠ ""%string → transaction_type t = ty)
     ∧ (∀ c, filter_category GET = Some c → transaction_category t = Some c)
     ∧ (∀ d, filter_date_from GET = Parsed d → d ≤ transaction_date t)
     ∧ (∀ d, filter_date_to GET = Parsed d → transaction_date t ≤ d)).
Proof.
  intros Hclean. unfold TransactionListView_get_queryset_filtered. rewrite Hclean.
  apply TransactionFilterForm_clean_Some in Hclean as (Hty & _ & Hcat & _ & Hdf & Hdt).
  pose proof (clean_date_Some _ _ Hdf) as Hdf'.
  pose proof (clean_date_Some _ _ Hdt) as Hdt'.
  cbn zeta.
  rewrite (qfilter_option (cleaned_date_to cleaned) (λ d _ t, transaction_date t <=? d)).
  rewrite (qfilter_option (cleaned_date_from cleaned) (λ d _ t, d <=? transaction_date t)).
  rewrite (qfilter_option (cleaned_category cleaned)
             (λ c _ t, bool_decide (transaction_category t = Some c))).
  rewrite Hcat, Hty.
  assert (Htype :
    (if bool_decide (default ""%string (filter_type GET) = ""%string)
     then TransactionListView_get_queryset u
     else qfilter (λ _ t0, bool_decide (transaction_type t0
                                        = default ""%string (filter_type GET)))
                  (TransactionListView_get_queryset u)) k t = true
    ↔ transaction_user t = u
      ∧ (∀ ty, filter_type GET = Some ty → ty ≠ ""%string → transaction_type t = ty)).
  { assert (Hbase : TransactionListView_get_queryset u k t = true ↔ transaction_user t = u).
    { unfold TransactionListView_get_queryset, qfilter, objects. cbn.
      by rewrite bool_decide_eq_true. }
    destruct (filter_type GET) as [ty|]; cbn; [case_bool_decide as Hne|];
      rewrite ?qfilter_true, Hbase, ?bool_decide_eq_true.
    - subst ty. split; [intros Hu; split; [done|]; by intros ? [= <-] ?|by intros [? _]].
    - split; [intros [Hu Ht]; split; [done|]; by intros ? [= <-] _|].
      intros [Hu Ht]. split; [done|]. by apply Ht.
    - split; [intros Hu; split; [done|]; by intros ? [=]|by intros [? _]]. }
  rewrite Htype. clear Htype.
  split.
  - intros ((([Hu Ht] & Hc) & Hf) & Hto). repeat split; try done.
    + intros c Hc'. specialize (Hc c Hc'). by apply bool_decide_eq_true in Hc.
    + intros d Hd. apply Hdf' in Hd. specialize (Hf d Hd). by apply Z.leb_le in Hf.
    + intros d Hd. apply Hdt' in Hd. specialize (Hto d Hd). by apply Z.leb_le in Hto.
  - intros (Hu & Ht & Hc & Hf & Hto). repeat split; try done.
    + intros c Hc'. apply bool_decide_eq_true_2. by apply Hc.
    + intros d Hd. apply Hdf' in Hd. apply Z.leb_le. by apply Hf.
    + intros d Hd. apply Hdt' in Hd. apply Z.leb_le. by apply Hto.
Qed.

Lemma TransactionFilterForm_clean_None u GET db :
  filter_date_from GET = Malformed
  ∨ filter_date_to GET = Malformed
  ∨ (∃ c, filter_category GET = Some c
          ∧ ∀ r, categories db !! c = Some r →
                 category_user r ≠ u ∨ category_is_active r = false)
  ∨ (∃ ty, filter_type GET = Some ty ∧ ty ≠ ""%string ∧ ty ∉ TYPE_CHOICES) →
  TransactionFilterForm_clean (TransactionFilterForm_init GET (Some u)) db = None.
Proof.
  intros Hbad.
  destruct (TransactionFilterForm_clean _ db) as [cleaned|] eqn:Hclean; [|done].
  apply TransactionFilterForm_clean_Some in Hclean as (Hty & Hin & _ & Hcat & Hdf & Hdt).
  destruct Hbad as [Hbad|[Hbad|[(c & Hc & Hbad)|(ty & Hf & Hne & Hnin)]]].
  - by rewrite Hbad in Hdf.
  - by rewrite Hbad in Hdt.
  - destruct (Hcat c Hc) as (r & Hr & Hu & Hact).
    destruct (Hbad r Hr) as [?|?]; congruence.
  - rewrite Hf in Hty. cbn in Hty. rewrite Hty in Hin. by destruct Hin.
Qed.

(** X9.  When the filter form has an error (a date that does not parse,
    a type that is no choice, a category that is not an active category of
    the requesting user), the list view applies none of the filters, the
    valid ones included: it selects every transaction of the user. *)
Theorem list_view_drops_all_filters_on_error (u : positive) (GET : FilterData)
    (db : DB) (k : positive) (t : TransactionRow) :
  filter_date_from GET = Malformed
  ∨ filter_date_to GET = Malformed
  ∨ (∃ c, filter_category GET = Some c
          ∧ ∀ r, categories db !! c = Some r →
                 category_user r ≠ u ∨ category_is_active r = false)
  ∨ (∃ ty, filter_type GET = Some ty ∧ ty ≠ ""%string ∧ ty ∉ TYPE_CHOICES) →
  TransactionListView_get_queryset_filtered u GET db k t
  = bool_decide (transaction_user t = u).
Proof.
  intros Hbad. unfold TransactionListView_get_queryset_filtered.
  by rewrite (TransactionFilterForm_clean_None u GET db Hbad).
Qed.

Lemma Sum_qs_rows_none {R} (f : R → Z) (qs : QuerySet R) (m : gmap positive R) :
  (∀ k r, qs k r = false) → Sum f (qs_rows qs m) = 0.
Proof.
  intros Hqs. rewrite (Sum_qs_rows f qs (λ _, False)).
  - induction ((map_to_list m).*2) as [|r l IH]; [done|].
    by rewrite filter_cons_False by tauto.
  - intros k r. rewrite Hqs. split; [done|tauto].
Qed.

(** X10.  With a valid filter on a type other than expense, the expense
    total of the list is zero and the balance shown is the income total;
    with a valid filter on a type other than income, the income total is
    zero and the balance shown is minus the expense total. *)
Theorem list_totals_under_type_filter (u : positive) (GET : FilterData) (db : DB)
    (cleaned : FilterCleaned) (ty : string) :
  TransactionFilterForm_clean (TransactionFilterForm_init GET (Some u)) db = Some cleaned →
  filter_type GET = Some ty →
  ty ≠ ""%string →
  let ctx := TransactionListView_get_context_data u GET db in
  (ty ≠ "expense"%string → total_expense ctx = 0 ∧ list_balance ctx = total_income ctx)
  ∧ (ty ≠ "income"%string → total_income ctx = 0 ∧ list_balance ctx = - total_expense ctx).
Proof.
  intros Hclean Hty Hne. cbn zeta.
  assert (Hsel : ∀ k t, TransactionListView_get_queryset_filtered u GET db k t = true →
                        transaction_type t = ty).
  { intros k t Hsel.
    apply (list_view_selects_filtered_rows_of_user u GET db cleaned k t Hclean) in Hsel
      as (_ & Ht & _). by apply Ht. }
  unfold TransactionListView_get_context_data. cbn.
  split; intros Hother.
  - rewrite (Sum_qs_rows_none transaction_amount (qfilter is_expense _)); [split; lia|].
    intros k t. apply not_true_is_false. rewrite qfilter_true. intros [Hs He].
    apply Hsel in Hs. unfold is_expense in He. apply bool_decide_eq_true in He. congruence.
  - rewrite (Sum_qs_rows_none transaction_amount (qfilter is_income _)); [split; lia|].
    intros k t. apply not_true_is_false. rewrite qfilter_true. intros [Hs He].
    apply Hsel in Hs. unfold is_income in He. apply bool_decide_eq_true in He. congruence.
Qed.

End ListProperties.

(** * Properties of the other forms and of the category views *)

(** X11.  The budget form of a user offers exactly that user's active
    expense categories, which are the categories the transaction form of
    the user offers once the type expense is submitted; the filter form of
    a user offers exactly the categories a blank transaction form of the
    user offers, and without a user it offers none; and whatever one of
    these forms offers, the category list of the user shows. *)
Theorem forms_offer_consistent_categories (u k : positive) (r : CategoryRow)
    (POST : FormData) (GET : FilterData) (inst : Transaction) :
  (BudgetForm_init (Some u) k r = true
   ↔ category_user r = u ∧ category_type r = "expense"%string
     ∧ category_is_active r = true)
  ∧ (data_type POST = Some "expense"%string →
     category_queryset (TransactionForm_init u POST inst) k r
     = BudgetForm_init (Some u) k r)
  ∧ (data_type POST = None →
     filter_category_queryset (TransactionFilterForm_init GET (Some u)) k r
     = category_queryset (TransactionForm_init u POST blank) k r)
  ∧ filter_category_queryset (TransactionFilterForm_init GET None) k r = false
  ∧ (BudgetForm_init (Some u) k r = true
     ∨ category_queryset (TransactionForm_init u POST inst) k r = true
     ∨ filter_category_queryset (TransactionFilterForm_init GET (Some u)) k r = true →
     CategoryListView_get_queryset u k r = true).
Proof.
  split; [|split; [|split; [|split]]].
  - unfold BudgetForm_init, qfilter, objects. cbn.
    rewrite !andb_true_iff, !bool_decide_eq_true. tauto.
  - intros Ht. unfold TransactionForm_init, BudgetForm_init, qfilter, objects. cbn.
    rewrite Ht.
    change (bool_decide ("expense"%string = "income"%string)
            || bool_decide ("expense"%string = "expense"%string)) with true.
    cbn.
    destruct (bool_decide (category_user r = u)), (category_is_active r),
      (bool_decide (category_type r = "expense"%string)); done.
  - intros Ht. unfold TransactionForm_init, TransactionFilterForm_init. cbn.
    by rewrite Ht.
  - done.
  - unfold CategoryListView_get_queryset, BudgetForm_init, TransactionFilterForm_init,
      qfilter, objects. cbn.
    intros [Hb|[Hf|Hf]].
    + by apply andb_true_iff in Hb as [[Hu _]%andb_true_iff _].
    + apply bool_decide_eq_true. by apply (form_category_queryset u POST inst k r).
    + by apply andb_true_iff in Hf as [Hu _].
Qed.

Section CategoryDelete.
Context `{CategoryOnDelete}.

(** X12.  The category delete view answers 404 and changes nothing when
    the category is missing or belongs to another user than the one logged
    in, unlike the transaction delete view. *)
Theorem category_delete_is_for_owner_only (u k : positive) (db : DB) :
  (∀ r, categories db !! k = Some r → category_user r ≠ u) →
  CategoryDeleteView_delete u k db = (inl Http404, db).
Proof.
  intros Hforeign. unfold CategoryDeleteView_delete. run.
  destruct (qs_get _ (categories db) k) as [r|] eqn:Hget; [|done].
  apply qs_get_Some in Hget as [Hr Hq].
  unfold CategoryDeleteView_get_queryset, CategoryListView_get_queryset, qfilter,
    objects in Hq. cbn in Hq. apply bool_decide_eq_true in Hq.
  by destruct (Hforeign r Hr).
Qed.

End CategoryDelete.

(** * Further properties of the dashboard *)

Lemma qs_get_rows {R} (qs : QuerySet R) (m : gmap positive R) k :
  qs_get qs m k = qs_rows qs m !! k.
Proof.
  apply option_eq. intros r. unfold qs_rows.
  by rewrite qs_get_Some, map_lookup_filter_Some.
Qed.

(** A queryset that selects only rows of [base] sees of a table what
    [base] selects of it. *)
Lemma qs_rows_agree {R} (qs base : QuerySet R) (m m' : gmap positive R) :
  (∀ k r, qs k r = true → base k r = true) →
  qs_rows base m' = qs_rows base m →
  qs_rows qs m' = qs_rows qs m.
Proof.
  intros Hsub Hbase. unfold qs_rows in *. apply map_filter_strong_ext_1. intros i x.
  pose proof (map_filter_strong_ext_2 _ _ _ _ i x Hbase) as Hi. cbn in *.
  split; intros [Hq Hm]; (split; [done|]); apply Hsub in Hq as Hb; tauto.
Qed.

Section DashboardIsolation.
Context `{PyFloat} `{PyStr}.

Lemma dashboard_transactions_user u start today sel k t :
  dashboard_transactions u start today sel k t = true → transaction_user t = u.
Proof.
  unfold dashboard_transactions, qfilter, objects. destruct sel; cbn;
    rewrite ?andb_true_iff, ?bool_decide_eq_true; tauto.
Qed.

Lemma generate_ai_recommendations_agree db db' now u qs income expense :
  categories db' = categories db →
  (∀ cond, qs_rows (qfilter cond qs) (transactions db')
           = qs_rows (qfilter cond qs) (transactions db)) →
  generate_ai_recommendations db' now u qs income expense
  = generate_ai_recommendations db now u qs income expense.
Proof.
  intros Hcat Hrows. unfold generate_ai_recommendations, category__name.
  by rewrite Hcat, !Hrows.
Qed.

(** X13.  The dashboard of a user is determined by the category table,
    the user's own cards and the user's own transactions: two databases
    that agree on these give the same outcome, an exception or a context
    with the same income, expense, balance, selected card and
    recommendations, whatever else they hold. *)
Theorem dashboard_depends_on_own_rows_only (db db' : DB) (today now : Date)
    (u : positive) (GET_period : option string) (GET_card : option str) :
  same_for_user u db db' →
  DashboardView_get_context_data db' today now u GET_period GET_card
  = DashboardView_get_context_data db today now u GET_period GET_card.
Proof.
  intros (Hcat & Hcards & Htxs). rewrite !get_context_data_cases.
  destruct (card_parameter_fails GET_card); [done|]. f_equal.
  assert (Hget : ∀ k,
    qs_get (qfilter (λ _ c, bool_decide (card_user c = u)) objects) (cards db') k
    = qs_get (qfilter (λ _ c, bool_decide (card_user c = u)) objects) (cards db) k).
  { intros k. rewrite !qs_get_rows. f_equal.
    apply (qs_rows_agree _ (λ _ c, bool_decide (card_user c = u))); [|done].
    by intros k' r [_ ?]%andb_true_iff. }
  assert (Hsel : chosen_card db' u GET_card = chosen_card db u GET_card).
  { unfold chosen_card. destruct GET_card as [s|]; [|done]. cbn.
    destruct (if isdigit s then int s else None) as [[|k]|]; [done| |done]. cbn.
    by rewrite <-!selected_by_queryset, Hget. }
  rewrite Hsel. clear Hsel.
  set (selected := chosen_card db u GET_card). unfold dashboard_context.
  set (start := if bool_decide (default "month"%string GET_period = "week"%string)
                then _ else _).
  assert (Hrows : ∀ cond,
    qs_rows (qfilter cond (dashboard_transactions u start today selected)) (transactions db')
    = qs_rows (qfilter cond (dashboard_transactions u start today selected))
              (transactions db)).
  { intros cond.
    apply (qs_rows_agree _ (λ _ t, bool_decide (transaction_user t = u))); [|done].
    intros k t [Hq _]%andb_true_iff. apply bool_decide_eq_true.
    by apply (dashboard_transactions_user u start today selected k t). }
  cbn zeta. rewrite !Hrows.
  rewrite (generate_ai_recommendations_agree db db') by done.
  f_equal. destruct selected; [done|].
  f_equal. apply (qs_rows_agree _ (λ _ c, bool_decide (card_user c = u))); [|done].
  by intros k' r [_ ?]%andb_true_iff.
Qed.

(** X14.  A [card] parameter that is not a run of digits, or that is one
    that [int] converts to a number that names no card of the user (zero,
    a missing card, a card of someone else), selects no card: the
    dashboard is the one shown without the parameter. *)
Theorem dashboard_ignores_foreign_card_parameter (db : DB) (today now : Date)
    (u : positive) (GET_period : option string) (s : str) :
  (isdigit s = true →
   ∃ n, int s = Some n
        ∧ ∀ k r, n = Npos k → cards db !! k = Some r → card_user r ≠ u) →
  DashboardView_get_context_data db today now u GET_period (Some s)
  = DashboardView_get_context_data db today now u GET_period None.
Proof.
  intros Hforeign. rewrite !get_context_data_cases.
  unfold card_parameter_fails, chosen_card. cbn [mbind option_bind].
  destruct (isdigit s); [|done].
  destruct Hforeign as (n & -> & Hn); [done|]. cbn.
  destruct n as [|k]; [done|].
  destruct (cards db !! k) as [r|] eqn:Hr; [|done]. cbn.
  by rewrite bool_decide_eq_false_2 by (by apply (Hn k r)).
Qed.

End DashboardIsolation.

(** * Further properties of the recommendations *)

Section RecommendationShape.
Context `{PyFloat}.

Lemma qs_rows_empty {R} (qs qs' : QuerySet R) (m : gmap positive R) :
  (∀ k r, qs' k r = true → qs k r = true) →
  qs_rows qs m = ∅ → qs_rows qs' m = ∅.
Proof.
  unfold qs_rows. intros Hsub Hempty. apply map_empty. intros k.
  apply map_lookup_filter_None. destruct (m !! k) as [r|] eqn:Hr; [right|by left].
  intros r' [= <-] Hq. cbn in Hq.
  exact (map_filter_empty_not_lookup _ m k r Hempty (Hsub k r Hq) Hr).
Qed.

Lemma expense_rows_nil db qs :
  expense_rows db qs = [] → qs_rows (qfilter is_expense qs) (transactions db) = ∅.
Proof.
  unfold expense_rows. intros Hnil%fmap_nil_inv. by apply map_to_list_empty_iff.
Qed.

(** Each of the rules 3, 4 and 5 needs an expense in the queryset. *)
Lemma later_rules_need_expense db now qs expense :
  fast_growth_fires db now qs expense = true
  ∨ high_average_fires db qs = true
  ∨ single_category_fires db qs = true →
  expense_rows db qs ≠ [].
Proof.
  intros Hfire Hnil. destruct Hfire as [Hf|[Hf|Hf]].
  - unfold fast_growth_fires in Hf. cbn zeta in Hf.
    apply expense_rows_nil in Hnil.
    rewrite (qs_rows_empty (qfilter is_expense qs)) in Hf; [done| |done].
    intros k r. unfold qfilter, is_expense.
    rewrite !andb_true_iff. tauto.
  - unfold high_average_fires in Hf. by rewrite Hnil in Hf.
  - unfold single_category_fires in Hf. by rewrite Hnil in Hf.
Qed.

Lemma rule_texts_length db now qs income expense :
  (length (rule_texts db now qs income expense) ≤ 5)%nat.
Proof.
  unfold rule_texts. rewrite !length_app.
  destruct (overspending_fires _ _), (first_by_total _), (fast_growth_fires _ _ _ _),
    (high_average_fires _ _), (single_category_fires _ _); cbn; lia.
Qed.

Lemma Balanced_not_in_rule_texts db now qs income expense :
  Balanced ∉ rule_texts db now qs income expense.
Proof.
  unfold rule_texts. intros Hin.
  destruct (overspending_fires _ _), (first_by_total _), (fast_growth_fires _ _ _ _),
    (high_average_fires _ _), (single_category_fires _ _); cbn in Hin;
    repeat (apply elem_of_cons in Hin as [Hin|Hin]; [discriminate Hin|]);
    by apply elem_of_nil in Hin.
Qed.

(** X15.  [generate_ai_recommendations] returns between one and five
    texts; the fallback text never stands beside another one; and
    whenever the text of rule 3, 4 or 5 is in the list, so is the text of
    rule 2, the category with the greatest expense. *)
Theorem recommendations_shape (db : DB) (now : Date) (u : positive)
    (qs : QuerySet TransactionRow) (income expense : Decimal) :
  let recs := generate_ai_recommendations db now u qs income expense in
  (1 ≤ length recs ≤ 5)%nat
  ∧ (Balanced ∈ recs ↔ recs = [Balanced])
  ∧ (FastGrowth ∈ recs ∨ SingleCategory ∈ recs ∨ (∃ avg, HighAverage avg ∈ recs) →
     ∃ name total, TopCategory name total ∈ recs).
Proof.
  cbn zeta. rewrite generate_ai_recommendations_rule_texts.
  pose proof (rule_texts_length db now qs income expense) as Hlen.
  pose proof (Balanced_not_in_rule_texts db now qs income expense) as Hbal.
  assert (Hlater :
    FastGrowth ∈ rule_texts db now qs income expense
    ∨ SingleCategory ∈ rule_texts db now qs income expense
    ∨ (∃ avg, HighAverage avg ∈ rule_texts db now qs income expense) →
    ∃ name total, TopCategory name total ∈ rule_texts db now qs income expense).
  { intros Hin.
    assert (Hfire : fast_growth_fires db now qs expense = true
                    ∨ high_average_fires db qs = true
                    ∨ single_category_fires db qs = true).
    { unfold rule_texts in Hin.
      destruct (fast_growth_fires _ _ _ _); [by left|].
      destruct (high_average_fires _ _); [by right; left|].
      destruct (single_category_fires _ _); [by right; right|].
      exfalso.
      destruct (overspending_fires _ _), (first_by_total _); cbn in Hin;
        destruct Hin as [Hin|[Hin|[avg Hin]]];
        repeat (apply elem_of_cons in Hin as [Hin|Hin]; [discriminate Hin|]);
        by apply elem_of_nil in Hin. }
    apply later_rules_need_expense, top_category_fires_iff in Hfire.
    unfold top_category_fires in Hfire. apply bool_decide_eq_true in Hfire as [top Htop].
    exists top.1, top.2. unfold rule_texts. rewrite Htop, !elem_of_app.
    right; left. by apply list_elem_of_singleton. }
  destruct (rule_texts db now qs income expense) as [|r l] eqn:Htexts.
  - split; [cbn; lia|].
    split; [split; [done|intros _; by apply list_elem_of_singleton]|].
    intros [Hin|[Hin|[avg Hin]]]; apply list_elem_of_singleton in Hin; discriminate.
  - split; [cbn in *; lia|]. split; [|done].
    split; [done|]. intros [= -> ->]. destruct Hbal. by left.
Qed.

Lemma annotate_total_sumZ db n rows :
  foldr (λ t acc, transaction_amount t + acc) 0
        (filter (λ t, category__name db t = n) rows)
  = name_total db n rows.
Proof.
  unfold name_total, sumZ.
  induction (filter (λ t, category__name db t = n) rows) as [|t l IH]; [done|].
  cbn. by rewrite IH.
Qed.

(** X16.  The text of rule 2 names a category whose expenses in the
    queryset sum to the total it states, and no category name has a
    greater sum. *)
Theorem top_category_is_greatest (db : DB) (now : Date) (u : positive)
    (qs : QuerySet TransactionRow) (income expense total : Decimal)
    (name : option string) :
  TopCategory name total ∈ generate_ai_recommendations db now u qs income expense →
  total = name_total db name (expense_rows db qs)
  ∧ (∃ t, t ∈ expense_rows db qs ∧ category__name db t = name)
  ∧ ∀ t, t ∈ expense_rows db qs →
         name_total db (category__name db t) (expense_rows db qs) ≤ total.
Proof.
  rewrite generate_ai_recommendations_rule_texts. intros Hin.
  assert (Htop : first_by_total (annotate_total (category__name db) (expense_rows db qs))
                 = Some (name, total)).
  { assert (Hin' : TopCategory name total ∈ rule_texts db now qs income expense).
    { destruct (rule_texts db now qs income expense) as [|r l]; [|done].
      apply list_elem_of_singleton in Hin. discriminate. }
    clear Hin. unfold rule_texts in Hin'.
    destruct (first_by_total _) as [[n t]|];
      destruct (overspending_fires _ _), (fast_growth_fires _ _ _ _),
        (high_average_fires _ _), (single_category_fires _ _); cbn in Hin';
      repeat (apply elem_of_cons in Hin' as [Hin'|Hin'];
              [try discriminate Hin'; try (by injection Hin' as -> ->)|]);
      by apply elem_of_nil in Hin'. }
  clear Hin. apply first_by_total_greatest in Htop as [Hmem Hmax].
  assert (Hgroups : annotate_total (category__name db) (expense_rows db qs)
                    = (λ n, (n, name_total db n (expense_rows db qs)))
                      <$> remove_dups (category__name db <$> expense_rows db qs)).
  { unfold annotate_total. apply list_fmap_ext. intros _ n _. f_equal.
    apply annotate_total_sumZ. }
  rewrite Hgroups in Hmem, Hmax. clear Hgroups.
  apply list_elem_of_fmap in Hmem as (n & [= -> ->] & Hn).
  apply elem_of_remove_dups, list_elem_of_fmap in Hn as (t0 & -> & Ht0).
  split; [done|]. split; [by exists t0|].
  intros t Ht.
  apply (Hmax (category__name db t, name_total db (category__name db t) (expense_rows db qs))).
  apply list_elem_of_fmap. exists (category__name db t). split; [done|].
  apply elem_of_remove_dups, list_elem_of_fmap. by exists t.
Qed.

End RecommendationShape.

(** * The last transactions of the dashboard *)

Global Instance newer_first_trans : Transitive newer_first.
Proof. unfold newer_first. intros a b c. lia. Qed.

Global Instance newer_first_total : Total newer_first.
Proof. unfold newer_first. intros a b. lia. Qed.

(** X17.  The dashboard lists at most ten transactions, each one a stored
    row its queryset selects and none twice, as many as there are when
    they are fewer than ten, the newest first; and no selected transaction
    that is left out is newer than a listed one. *)
Theorem recent_transactions_are_the_newest (db : DB) (qs : QuerySet TransactionRow) :
  let recent := recent_transactions db qs in
  length recent = min 10 (size (qs_rows qs (transactions db)))
  ∧ NoDup recent
  ∧ StronglySorted newer_first recent
  ∧ (∀ k t, (k, t) ∈ recent → transactions db !! k = Some t ∧ qs k t = true)
  ∧ (∀ k t k' t',
       (k, t) ∈ recent →
       transactions db !! k' = Some t' → qs k' t' = true → (k', t') ∉ recent →
       transaction_date t' ≤ transaction_date t).
Proof.
  cbn zeta. unfold recent_transactions.
  set (rows := map_to_list (qs_rows qs (transactions db))).
  set (sorted := merge_sort newer_first rows).
  assert (Hperm : sorted ≡ₚ rows) by apply merge_sort_Permutation.
  assert (Hsorted : StronglySorted newer_first sorted)
    by (apply StronglySorted_merge_sort; apply _).
  assert (Hmem : ∀ k t, (k, t) ∈ sorted ↔ transactions db !! k = Some t ∧ qs k t = true).
  { intros k t. rewrite Hperm. unfold rows, qs_rows.
    by rewrite elem_of_map_to_list, map_lookup_filter_Some. }
  rewrite <-(take_drop 10 sorted) in Hsorted.
  split; [|split; [|split; [|split]]].
  - rewrite length_take, Hperm. unfold rows. by rewrite length_map_to_list.
  - apply (sublist_NoDup _ sorted); [|apply sublist_take].
    rewrite Hperm. apply NoDup_map_to_list.
  - by apply StronglySorted_app_1_l in Hsorted.
  - intros k t Hin. apply Hmem. by apply (subseteq_take 10).
  - intros k t k' t' Hin Hk' Hq' Hout.
    assert (Hin' : (k', t') ∈ sorted) by (by apply Hmem).
    rewrite <-(take_drop 10 sorted) in Hin'. apply elem_of_app in Hin' as [?|Hdrop]; [done|].
    apply (StronglySorted_app_1_elem_of _ _ _ (k, t) (k', t') Hsorted Hin Hdrop).
Qed.

(** * The period of the dashboard *)

Section Period.
Context `{PyFloat} `{PyStr}.

(** X18.  Whatever the day and the [period] parameter, the period of a
    context the dashboard returns starts on or before today: on the Monday
    of today's week, at most 6 days back, for [week]; at most 365 days
    back for [year]; at most 30 days back for any other value, which
    counts as [month]. *)
Theorem dashboard_period_starts_before_today (db : DB) (today now : Date)
    (u : positive) (GET_period : option string) (GET_card : option str)
    (ctx : Context) :
  DashboardView_get_context_data db today now u GET_period GET_card = inr ctx →
  ctx_period ctx = default "month"%string GET_period
  ∧ ctx_start_date ctx ≤ today
  ∧ (ctx_period ctx = "week"%string →
     datetime.weekday (ctx_start_date ctx) = 0 ∧ today - ctx_start_date ctx ≤ 6)
  ∧ (ctx_period ctx = "year"%string → today - ctx_start_date ctx ≤ 365)
  ∧ (ctx_period ctx ≠ "week"%string → ctx_period ctx ≠ "year"%string →
     today - ctx_start_date ctx ≤ 30).
Proof.
  rewrite get_context_data_cases.
  destruct (card_parameter_fails GET_card); [done|]. intros [= <-].
  unfold dashboard_context. cbn.
  destruct (first_days_bounds today) as [Hm Hy].
  split; [done|].
  case_bool_decide as Hweek; [|case_bool_decide as Hyear].
  - unfold datetime.weekday.
    split; [Z.to_euclidean_division_equations; lia|].
    split; [intros _; Z.to_euclidean_division_equations; lia|].
    split; [by rewrite Hweek|]. done.
  - split; [lia|]. split; [done|]. split; [intros _; lia|]. done.
  - split; [lia|]. split; [done|]. split; [done|]. intros _ _. lia.
Qed.

End Period.

(** * The dashboard after a create request *)

Lemma Sum_insert_fresh {R} (f : R → Z) (qs : QuerySet R) (m : gmap positive R) k x :
  m !! k = None →
  Sum f (qs_rows qs (<[k := x]> m))
  = (if qs k x then f x else 0) + Sum f (qs_rows qs m).
Proof.
  intros Hk. rewrite !Sum_sumZ. unfold qs_rows.
  rewrite map_filter_insert, (delete_id m k Hk). cbn.
  destruct (qs k x) eqn:Hq.
  - rewrite decide_True by done.
    rewrite map_to_list_insert by (by rewrite map_lookup_filter_None; left).
    by rewrite !fmap_cons, sumZ_cons.
  - rewrite decide_False by (by intros ?). lia.
Qed.

Lemma Sum_insert_replace {R} (f : R → Z) (qs : QuerySet R) (m : gmap positive R) k x y :
  m !! k = Some y →
  Sum f (qs_rows qs (<[k := x]> m))
  = (if qs k x then f x else 0) - (if qs k y then f y else 0) + Sum f (qs_rows qs m).
Proof.
  intros Hk.
  rewrite <-(insert_delete_eq m k x).
  rewrite <-(insert_delete_id m k y Hk) at 2.
  rewrite !Sum_insert_fresh by apply lookup_delete_eq. lia.
Qed.

Section CreateThenDashboard.
Context `{ModelValidation} `{PyFloat} `{PyStr}.

(** X19.  After a successful create request of a user, that user's
    dashboard (no card selected) shows the income raised by the amount if
    the transaction is an income dated within the period, the expense
    raised by the amount if it is an expense dated within the period, and
    the balance raised by the amount for an income on a card, lowered by
    it for any other transaction on a card, unchanged for cash. *)
Theorem dashboard_reflects_created_transaction (db db' : DB) (today now : Date)
    (u : positive) (GET_period : option string) (POST : FormData) (url ty : string)
    (a : Decimal) (d : Date) :
  TransactionCreateView_post (Some u) POST db = (inr (HttpResponseRedirect url), db') →
  data_type POST = Some ty →
  data_amount POST = Some a →
  data_date POST = Some d →
  ∃ before after,
    DashboardView_get_context_data db today now u GET_period None = inr before
    ∧ DashboardView_get_context_data db' today now u GET_period None = inr after
    ∧ let counts := bool_decide (ctx_start_date before ≤ d ≤ today) in
      ctx_income after
      = ctx_income before
        + (if counts && bool_decide (ty = "income"%string) then a else 0)
      ∧ ctx_expense after
        = ctx_expense before
          + (if counts && bool_decide (ty = "expense"%string) then a else 0)
      ∧ ctx_balance after
        = ctx_balance before
          + match data_card POST with
            | Some _ => if bool_decide (ty = "income"%string) then a else - a
            | None => 0
            end.
Proof.
  intros Hpost Hty Ha Hd. rewrite create_post_cases in Hpost.
  destruct (full_clean _ db) as [form|] eqn:Hclean; [|done].
  cbn zeta in Hpost. injection Hpost as _ <-.
  apply full_clean_Some in Hclean
    as (t' & a' & category & card & d' & Ht' & Ha' & _ & Hc & Hd' & ->).
  cbn in Ht', Ha', Hc, Hd'. rewrite Hty in Ht'. rewrite Ha in Ha'. rewrite Hd in Hd'.
  injection Ht' as <-. injection Ha' as <-. injection Hd' as <-.
  rewrite !get_context_data_cases. cbn [card_parameter_fails].
  eexists _, _. split; [reflexivity|]. split; [reflexivity|].
  cbn zeta. unfold dashboard_context, chosen_card. cbn.
  set (start := if bool_decide (default "month"%string GET_period = "week"%string)
                then _ else _).
  assert (Hk : transactions db !! fresh (dom (transactions db)) = None)
    by apply not_elem_of_dom, is_fresh.
  assert (Hcounts : bool_decide (u = u) && (start <=? d) && (d <=? today)
                    = bool_decide (start ≤ d ≤ today)).
  { rewrite bool_decide_eq_true_2 by done. cbn.
    destruct (Z.leb_spec start d), (Z.leb_spec d today); cbn;
      [by rewrite bool_decide_eq_true_2 by lia|by rewrite bool_decide_eq_false_2 by lia..]. }
  split; [|split].
  - rewrite Sum_insert_fresh by done. unfold qfilter, objects, is_income, row_of. cbn.
    rewrite Hcounts. lia.
  - rewrite Sum_insert_fresh by done. unfold qfilter, objects, is_expense, row_of. cbn.
    rewrite Hcounts. lia.
  - destruct (data_card POST) as [c|].
    + apply clean_choice_Some in Hc as (r & -> & Hr & Hq). cbn.
      rewrite (Sum_insert_replace _ _ _ c _ r Hr).
      unfold qfilter, objects in Hq |- *. cbn in Hq |- *. rewrite Hq.
      destruct (bool_decide (ty = "income"%string)); lia.
    + apply clean_choice_None in Hc as ->. cbn. lia.
Qed.

End CreateThenDashboard.

(** * When the database changes *)

Section Outcomes.
Context `{ModelValidation}.

(** X20.  The create, update and delete views change the database only
    when they answer with the redirect to the list: a request that is sent
    to the login page, re-renders the form or raises leaves every table as
    it was.  The create view never raises; the update view raises only
    [Http404] (no such transaction of the user) or [DoesNotExist] (the
    stored transaction names a card that is gone), and so does the delete
    view, for which any stored transaction counts. *)
Theorem views_change_database_only_on_success (requester : option positive)
    (k : positive) (POST : FormData) (db : DB) :
  let created := TransactionCreateView_post requester POST db in
  let updated := TransactionUpdateView_post requester k POST db in
  let deleted := TransactionDeleteView_delete requester k db in
  (created.1 ≠ inr (HttpResponseRedirect success_url) → created.2 = db)
  ∧ (updated.1 ≠ inr (HttpResponseRedirect success_url) → updated.2 = db)
  ∧ (deleted.1 ≠ inr (HttpResponseRedirect success_url) → deleted.2 = db)
  ∧ (∀ e, created.1 ≠ inl e)
  ∧ (∀ e, updated.1 = inl e →
          (e = Http404
           ∧ ∀ u t, requester = Some u → transactions db !! k = Some t →
                    transaction_user t ≠ u)
          ∨ (e = DoesNotExist
             ∧ ∃ t c, transactions db !! k = Some t ∧ transaction_card t = Some c
                      ∧ cards db !! c = None))
  ∧ (∀ e, deleted.1 = inl e →
          (e = Http404 ∧ transactions db !! k = None)
          ∨ (e = DoesNotExist
             ∧ ∃ t c, transactions db !! k = Some t ∧ transaction_card t = Some c
                      ∧ cards db !! c = None)).
Proof.
  cbn zeta.
  assert (Hupd : ∀ u, TransactionUpdateView_post (Some u) k POST db = _)
    by (intros u; apply update_post_cases).
  split; [|split; [|split; [|split; [|split]]]].
  - destruct requester as [u|]; [|done]. rewrite create_post_cases.
    by destruct (full_clean _ db).
  - destruct requester as [u|]; [|done]. rewrite Hupd.
    destruct (qs_get _ (transactions db) k) as [old|]; [|done].
    destruct (full_clean _ db); [|done]. cbn zeta.
    by destruct (old_card_exists old db).
  - rewrite delete_cases.
    destruct (transactions db !! k) as [t|]; [|done].
    destruct (transaction_card t) as [c|]; [|done].
    by destruct (cards db !! c).
  - intros e. destruct requester as [u|]; [|done]. rewrite create_post_cases.
    by destruct (full_clean _ db).
  - intros e. destruct requester as [u|]; [|done]. rewrite Hupd.
    destruct (qs_get _ (transactions db) k) as [old|] eqn:Hget.
    + apply update_queryset_get in Hget as [Hold Hu].
      destruct (full_clean _ db); [|done]. cbn zeta.
      unfold old_card_exists.
      destruct (transaction_card old) as [c|] eqn:Hc; [|done].
      case_bool_decide as Hrow; [done|]. cbn. intros [= <-]. right. split; [done|].
      exists old, c. split; [done|]. split; [done|].
      destruct (cards db !! c); [|done]. by destruct Hrow.
    + cbn. intros [= <-]. left. split; [done|].
      intros u' t [= <-] Ht Hu.
      assert (qs_get (TransactionUpdateView_get_queryset u) (transactions db) k = Some t)
        by (by apply update_queryset_get). congruence.
  - intros e. rewrite delete_cases.
    destruct (transactions db !! k) as [t|] eqn:Ht.
    + destruct (transaction_card t) as [c|] eqn:Hc; [|done].
      destruct (cards db !! c) eqn:Hrow; [done|]. cbn. intros [= <-].
      right. split; [done|]. by exists t, c.
    + cbn. intros [= <-]. by left.
Qed.

End Outcomes.

(** * The further statements at work on the ledger *)

Lemma ledger_well_formed : well_formed ledger.
Proof.
  intros k t Ht. unfold ledger in Ht. cbn in Ht.
  apply lookup_insert_Some in Ht as [[<- <-]|[_ Ht]];
    [|apply lookup_insert_Some in Ht as [[<- <-]|[_ Ht]];
      [|apply lookup_singleton_Some in Ht as [<- <-]]];
    (split; [intros c [= <-]|intros g [= <-]]; eexists; (split; [by vm_compute|done])).
Qed.

Lemma views_keep_references_owned_witness :
  well_formed ledger
  ∧ well_formed (TransactionCreateView_post (H := sample_validation) (Some 1%positive)
                   income_50_on_card_1 ledger).2
  ∧ well_formed (TransactionUpdateView_post (H := sample_validation) (Some 1%positive) 1
                   income_50_on_card_2 ledger).2
  ∧ well_formed (TransactionDeleteView_delete None 3 ledger).2.
Proof.
  split; [exact ledger_well_formed|].
  destruct (views_keep_references_owned (H := sample_validation) (Some 1%positive) 1
              income_50_on_card_1 ledger ledger_well_formed) as (Hc & _ & _).
  destruct (views_keep_references_owned (H := sample_validation) (Some 1%positive) 1
              income_50_on_card_2 ledger ledger_well_formed) as (_ & Hu & _).
  destruct (views_keep_references_owned (H := sample_validation) None 3
              income_50_on_card_2 ledger ledger_well_formed) as (_ & _ & Hd).
  exact (conj Hc (conj Hu Hd)).
Defined.

Lemma create_and_update_leave_foreign_cards_witness :
  cards ledger !! 3%positive = Some (mkCardRow 2 7 true)
  ∧ card_user (mkCardRow 2 7 true) ≠ 1%positive
  ∧ (∀ old oc orow, transactions ledger !! 1%positive = Some old →
                    transaction_card old = Some oc → cards ledger !! oc = Some orow →
                    card_user orow = transaction_user old)
  ∧ cards (TransactionCreateView_post (H := sample_validation) (Some 1%positive)
             income_50_on_card_1 ledger).2 !! 3%positive = Some (mkCardRow 2 7 true)
  ∧ cards (TransactionUpdateView_post (H := sample_validation) (Some 1%positive) 1
             income_50_on_card_2 ledger).2 !! 3%positive = Some (mkCardRow 2 7 true).
Proof.
  assert (H1 : cards ledger !! 3%positive = Some (mkCardRow 2 7 true)) by (by vm_compute).
  assert (H2 : card_user (mkCardRow 2 7 true) ≠ 1%positive) by (by vm_compute).
  assert (H3 : ∀ old oc orow, transactions ledger !! 1%positive = Some old →
                 transaction_card old = Some oc → cards ledger !! oc = Some orow →
                 card_user orow = transaction_user old).
  { intros old oc orow Hold Hoc Horow. vm_compute in Hold. injection Hold as <-.
    cbn in Hoc. injection Hoc as <-. vm_compute in Horow. by injection Horow as <-. }
  split; [exact H1|]. split; [exact H2|]. split; [exact H3|].
  split.
  - exact (proj1 (create_and_update_leave_foreign_cards (H := sample_validation)
                    1 1 3 _ income_50_on_card_1 ledger H1 H2 H3)).
  - exact (proj2 (create_and_update_leave_foreign_cards (H := sample_validation)
                    1 1 3 _ income_50_on_card_2 ledger H1 H2 H3)).
Defined.

Lemma update_reconciles_when_card_changes_witness :
  let old := mkTransactionRow 1 "income" 30 (Some 1%positive) (Some 1%positive) 738886 "" in
  ∃ db',
    TransactionUpdateView_post (H := sample_validation) (Some 1%positive) 1
        income_50_on_card_2 ledger
      = (inr (HttpResponseRedirect success_url), db')
    ∧ cards db' !! 1%positive = Some (mkCardRow 1 70 true)
    ∧ cards db' !! 2%positive = Some (mkCardRow 1 100 true)
    ∧ cards db' !! 3%positive = cards ledger !! 3%positive.
Proof.
  cbn zeta.
  assert (Hfk : ∀ oc,
    transaction_card (mkTransactionRow 1 "income" 30 (Some 1%positive) (Some 1%positive)
                                       738886 "") = Some oc →
    is_Some (cards ledger !! oc)).
  { intros oc [= <-]. exists (mkCardRow 1 100 true). by vm_compute. }
  edestruct (update_reconciles_when_card_changes (H := sample_validation) 1 1
               (mkTransactionRow 1 "income" 30 (Some 1%positive) (Some 1%positive) 738886 "")
               income_50_on_card_2 ledger)
    as (db' & Hpost & Hold & Hnew & Hrest);
    [by vm_compute|reflexivity|by vm_compute|exact Hfk|by left|].
  exists db'. split; [exact Hpost|]. split; [|split].
  - by rewrite (Hold 1%positive (mkCardRow 1 100 true)).
  - by rewrite (Hnew 2%positive (mkCardRow 1 50 true)).
  - by apply Hrest.
Defined.

Lemma update_invalid_changes_nothing_witness :
  let old := mkTransactionRow 1 "income" 30 (Some 1%positive) (Some 1%positive) 738886 "" in
  transactions ledger !! 1%positive = Some old
  ∧ transaction_user old = 1%positive
  ∧ full_clean (H := sample_validation)
      (TransactionForm_init 1 expense_without_amount (Transaction_from_db 1 old)) ledger
    = None
  ∧ TransactionUpdateView_post (H := sample_validation) (Some 1%positive) 1
        expense_without_amount ledger
    = (inr (FormInvalid template_name), ledger).
Proof.
  cbn zeta. split; [by vm_compute|]. split; [reflexivity|]. split; [by vm_compute|].
  apply (update_invalid_changes_nothing (H := sample_validation) 1 1
           (mkTransactionRow 1 "income" 30 (Some 1%positive) (Some 1%positive) 738886 ""));
    by vm_compute.
Defined.

Lemma create_then_delete_restores_witness :
  let db' := (TransactionCreateView_post (H := sample_validation) (Some 1%positive)
                income_50_on_card_1 ledger).2 in
  TransactionCreateView_post (H := sample_validation) (Some 1%positive)
      income_50_on_card_1 ledger
    = (inr (HttpResponseRedirect success_url), db')
  ∧ ∃ k, transactions ledger !! k = None
         ∧ is_Some (transactions db' !! k)
         ∧ TransactionDeleteView_delete None k db'
           = (inr (HttpResponseRedirect success_url), ledger)
         ∧ TransactionDeleteView_post Before_4_0 None k db'
           = (inr (HttpResponseRedirect success_url), ledger)
         ∧ TransactionDeleteView_post From_4_0 None k db'
           = (inr (HttpResponseRedirect success_url),
              mkDB (cards db') (categories ledger) (transactions ledger)).
Proof.
  cbn zeta. split; [by vm_compute|].
  apply (create_then_delete_restores (H := sample_validation) None 1 income_50_on_card_1
           ledger _ success_url). by vm_compute.
Defined.

Lemma saved_category_has_transaction_type_witness :
  let db' := (TransactionCreateView_post (H := sample_validation) (Some 1%positive)
                income_50_on_card_1 ledger).2 in
  TransactionCreateView_post (H := sample_validation) (Some 1%positive)
      income_50_on_card_1 ledger
    = (inr (HttpResponseRedirect success_url), db')
  ∧ ∃ k' t,
      transactions db' !! k' = Some t
      ∧ data_type income_50_on_card_1 = Some (transaction_type t)
      ∧ data_category income_50_on_card_1 = transaction_category t
      ∧ (transaction_type t = "income"%string ∨ transaction_type t = "expense"%string →
         category_matches_type db' t).
Proof.
  cbn zeta. split; [by vm_compute|].
  apply (saved_category_has_transaction_type (H := sample_validation) 1 1
           income_50_on_card_1 ledger _ success_url). left. by vm_compute.
Defined.

Lemma list_view_selects_filtered_rows_of_user_witness :
  let t := mkTransactionRow 1 "expense" 40 (Some 2%positive) (Some 2%positive) 738887 "" in
  TransactionFilterForm_clean (H := sample_choices)
      (TransactionFilterForm_init expenses_of_2024 (Some 1%positive)) ledger
    = Some (mkFilterCleaned "expense" None (Some 738886) None)
  ∧ TransactionListView_get_queryset_filtered (H := sample_choices) 1 expenses_of_2024
      ledger 2%positive t = true.
Proof.
  cbn zeta.
  assert (Hclean : TransactionFilterForm_clean (H := sample_choices)
                     (TransactionFilterForm_init expenses_of_2024 (Some 1%positive)) ledger
                   = Some (mkFilterCleaned "expense" None (Some 738886) None))
    by (by vm_compute).
  split; [exact Hclean|].
  apply (list_view_selects_filtered_rows_of_user (H := sample_choices) 1 expenses_of_2024
           ledger _ 2 _ Hclean).
  split; [reflexivity|]. split; [by intros ty [= <-] _|]. split; [by intros c [=]|].
  split; [by intros d [= <-]|by intros d [=]].
Defined.

Lemma list_view_drops_all_filters_on_error_witness :
  let income := mkTransactionRow 1 "income" 30 (Some 1%positive) (Some 1%positive) 738886 "" in
  (∃ c, filter_category expenses_in_category_3 = Some c
        ∧ ∀ r, categories ledger !! c = Some r →
               category_user r ≠ 1%positive ∨ category_is_active r = false)
  ∧ TransactionListView_get_queryset_filtered (H := sample_choices) 1
      expenses_in_category_3 ledger 1%positive income = true.
Proof.
  cbn zeta.
  assert (Hbad : ∃ c, filter_category expenses_in_category_3 = Some c
                      ∧ ∀ r, categories ledger !! c = Some r →
                             category_user r ≠ 1%positive ∨ category_is_active r = false).
  { exists 3%positive. split; [reflexivity|]. intros r Hr.
    assert (r = mkCategoryRow 2 "rent" "expense" true) as ->
      by (vm_compute in Hr; congruence).
    by left. }
  split; [exact Hbad|].
  rewrite (list_view_drops_all_filters_on_error (H := sample_choices) 1
             expenses_in_category_3 ledger 1 _ (or_intror (or_intror (or_introl Hbad)))).
  reflexivity.
Defined.

Lemma list_totals_under_type_filter_witness :
  let ctx := TransactionListView_get_context_data (H := sample_choices) 1
               expenses_of_2024 ledger in
  TransactionFilterForm_clean (H := sample_choices)
      (TransactionFilterForm_init expenses_of_2024 (Some 1%positive)) ledger
    = Some (mkFilterCleaned "expense" None (Some 738886) None)
  ∧ total_income ctx = 0
  ∧ total_expense ctx = 40
  ∧ list_balance ctx = - total_expense ctx.
Proof.
  cbn zeta.
  assert (Hclean : TransactionFilterForm_clean (H := sample_choices)
                     (TransactionFilterForm_init expenses_of_2024 (Some 1%positive)) ledger
                   = Some (mkFilterCleaned "expense" None (Some 738886) None))
    by (by vm_compute).
  split; [exact Hclean|].
  destruct (list_totals_under_type_filter (H := sample_choices) 1 expenses_of_2024 ledger
              _ "expense" Hclean eq_refl) as [_ Hincome]; [done|].
  destruct Hincome as [H0 Hbal]; [done|].
  split; [exact H0|]. split; [by vm_compute|exact Hbal].
Defined.

Lemma category_delete_is_for_owner_only_witness :
  (∀ r, categories ledger !! 3%positive = Some r → category_user r ≠ 1%positive)
  ∧ CategoryDeleteView_delete (H := sample_on_delete) 1 3 ledger = (inl Http404, ledger).
Proof.
  assert (Hforeign : ∀ r, categories ledger !! 3%positive = Some r →
                          category_user r ≠ 1%positive).
  { intros r Hr.
    assert (r = mkCategoryRow 2 "rent" "expense" true) as ->
      by (vm_compute in Hr; congruence).
    done. }
  split; [exact Hforeign|].
  exact (category_delete_is_for_owner_only (H := sample_on_delete) 1 3 ledger Hforeign).
Defined.

(** User 2's transaction is deleted and user 2's card changes with it;
    the dashboard of user 1 is what it was. *)
Lemma dashboard_depends_on_own_rows_only_witness :
  let db' := (TransactionDeleteView_delete None 3 ledger).2 in
  same_for_user 1 ledger db'
  ∧ cards db' !! 3%positive ≠ cards ledger !! 3%positive
  ∧ DashboardView_get_context_data (H := sample_arithmetic) (H0 := sample_digits)
      db' 738890 738890 1 None None
    = DashboardView_get_context_data (H := sample_arithmetic) (H0 := sample_digits)
        ledger 738890 738890 1 None None.
Proof.
  cbn zeta.
  assert (Hsame : same_for_user 1 ledger (TransactionDeleteView_delete None 3 ledger).2)
    by (by vm_compute).
  split; [exact Hsame|]. split; [by vm_compute|].
  exact (dashboard_depends_on_own_rows_only (H := sample_arithmetic) (H0 := sample_digits)
           ledger _ 738890 738890 1 None None Hsame).
Defined.

(** Card 3 is a card of user 2: user 1 who asks for it, here in
    Arabic-Indic digits, gets the dashboard of all cards. *)
Lemma dashboard_ignores_foreign_card_parameter_witness :
  isdigit (H0 := sample_digits) [1635%N] = true
  ∧ int (H0 := sample_digits) [1635%N] = Some 3%N
  ∧ card_user <$> cards ledger !! 3%positive = Some 2%positive
  ∧ DashboardView_get_context_data (H := sample_arithmetic) (H0 := sample_digits)
      ledger 738890 738890 1 None (Some [1635%N])
    = DashboardView_get_context_data (H := sample_arithmetic) (H0 := sample_digits)
        ledger 738890 738890 1 None None.
Proof.
  assert (Hforeign :
    isdigit (H0 := sample_digits) [1635%N] = true →
    ∃ n, int (H0 := sample_digits) [1635%N] = Some n
         ∧ ∀ k r, n = Npos k → cards ledger !! k = Some r → card_user r ≠ 1%positive).
  { intros _. exists 3%N. split; [by vm_compute|].
    intros k r [= <-] Hr.
    assert (r = mkCardRow 2 7 true) as -> by (vm_compute in Hr; congruence). done. }
  split; [by vm_compute|]. split; [by vm_compute|]. split; [by vm_compute|].
  exact (dashboard_ignores_foreign_card_parameter (H := sample_arithmetic)
           (H0 := sample_digits) ledger 738890 738890 1 None [1635%N] Hforeign).
Defined.

Lemma top_category_is_greatest_witness :
  let qs := dashboard_transactions 1 738886 738890 None in
  TopCategory (Some "food"%string) 40
    ∈ generate_ai_recommendations (H := sample_arithmetic) ledger 738890 1 qs 30 40
  ∧ 40 = name_total ledger (Some "food"%string) (expense_rows ledger qs).
Proof.
  cbn zeta.
  assert (Hin : TopCategory (Some "food"%string) 40
                ∈ generate_ai_recommendations (H := sample_arithmetic) ledger 738890 1
                    (dashboard_transactions 1 738886 738890 None) 30 40).
  { apply list_elem_of_In. vm_compute. tauto. }
  split; [exact Hin|].
  exact (proj1 (top_category_is_greatest (H := sample_arithmetic) ledger 738890 1
                  (dashboard_transactions 1 738886 738890 None) 30 40 40
                  (Some "food"%string) Hin)).
Defined.

Lemma dashboard_reflects_created_transaction_witness :
  let db' := (TransactionCreateView_post (H := sample_validation) (Some 1%positive)
                income_50_on_card_1 ledger).2 in
  TransactionCreateView_post (H := sample_validation) (Some 1%positive)
      income_50_on_card_1 ledger
    = (inr (HttpResponseRedirect success_url), db')
  ∧ ∃ before after,
      DashboardView_get_context_data (H := sample_arithmetic) (H0 := sample_digits)
        ledger 738890 738890 1 None None = inr before
      ∧ DashboardView_get_context_data (H := sample_arithmetic) (H0 := sample_digits)
          db' 738890 738890 1 None None = inr after
      ∧ (ctx_income before, ctx_expense before, ctx_balance before) = (30, 40, 150)
      ∧ ctx_income after = ctx_income before + 50
      ∧ ctx_expense after = ctx_expense before
      ∧ ctx_balance after = ctx_balance before + 50.
Proof.
  cbn zeta.
  assert (Hpost : TransactionCreateView_post (H := sample_validation) (Some 1%positive)
                    income_50_on_card_1 ledger
                  = (inr (HttpResponseRedirect success_url),
                     (TransactionCreateView_post (H := sample_validation) (Some 1%positive)
                        income_50_on_card_1 ledger).2)) by (by vm_compute).
  split; [exact Hpost|].
  destruct (dashboard_reflects_created_transaction (H := sample_validation)
              (H0 := sample_arithmetic) (H1 := sample_digits) ledger _ 738890 738890 1 None
              income_50_on_card_1 success_url "income" 50 738888 Hpost eq_refl eq_refl
              eq_refl)
    as (before & after & Hbefore & Hafter & Hi & He & Hb).
  exists before, after. split; [exact Hbefore|]. split; [exact Hafter|].
  assert (Hfigures :
    match DashboardView_get_context_data (H := sample_arithmetic) (H0 := sample_digits)
            ledger 738890 738890 1 None None with
    | inr ctx => (ctx_start_date ctx, ctx_income ctx, ctx_expense ctx, ctx_balance ctx)
                 = (738886, 30, 40, 150)
    | inl _ => False
    end) by (by vm_compute).
  rewrite Hbefore in Hfigures. injection Hfigures as Hstart Hi0 He0 Hb0.
  split; [by rewrite Hi0, He0, Hb0|].
  rewrite Hstart in Hi, He.
  rewrite (bool_decide_eq_true_2 (738886 ≤ 738888 ≤ 738890)) in Hi, He by lia.
  rewrite (bool_decide_eq_true_2 ("income"%string = "income"%string)) in Hi, Hb by done.
  rewrite (bool_decide_eq_false_2 ("income"%string = "expense"%string)) in He by done.
  cbn in Hi, He, Hb. lia.
Defined.

(** On Thursday 2024-01-04 the week of the dashboard starts on Monday
    2024-01-01. *)
Lemma dashboard_period_starts_before_today_witness :
  ∃ ctx,
    DashboardView_get_context_data (H := sample_arithmetic) (H0 := sample_digits)
      ledger 738889 738889 1 (Some "week"%string) None = inr ctx
    ∧ ctx_start_date ctx = 738886
    ∧ ctx_period ctx = "week"%string
    ∧ ctx_start_date ctx ≤ 738889
    ∧ (ctx_period ctx = "week"%string →
       datetime.weekday (ctx_start_date ctx) = 0 ∧ 738889 - ctx_start_date ctx ≤ 6)
    ∧ (ctx_period ctx = "year"%string → 738889 - ctx_start_date ctx ≤ 365)
    ∧ (ctx_period ctx ≠ "week"%string → ctx_period ctx ≠ "year"%string →
       738889 - ctx_start_date ctx ≤ 30).
Proof.
  assert (Hstart :
    match DashboardView_get_context_data (H := sample_arithmetic) (H0 := sample_digits)
            ledger 738889 738889 1 (Some "week"%string) None with
    | inr ctx => ctx_start_date ctx = 738886
    | inl _ => False
    end) by (by vm_compute).
  destruct (DashboardView_get_context_data (H := sample_arithmetic) (H0 := sample_digits)
              ledger 738889 738889 1 (Some "week"%string) None) as [e|ctx] eqn:Hctx;
    [done|].
  exists ctx. split; [reflexivity|]. split; [exact Hstart|].
  exact (dashboard_period_starts_before_today (H := sample_arithmetic)
           (H0 := sample_digits) ledger 738889 738889 1 (Some "week"%string) None ctx Hctx).
Defined.

(** The ledger of user 1 shows an income of 30 and an expense of 40: the
    overspending text is there, with the value 10. *)
Lemma overspending_iff_expense_exceeds_income_witness :
  ∃ ctx,
    DashboardView_get_context_data (H := sample_arithmetic) (H0 := sample_digits)
      ledger 738890 738890 1 None None = inr ctx
    ∧ (ctx_income ctx, ctx_expense ctx) = (30, 40)
    ∧ Overspending 10 ∈ ctx_ai_recommendations ctx.
Proof.
  assert (Hfigures :
    match DashboardView_get_context_data (H := sample_arithmetic) (H0 := sample_digits)
            ledger 738890 738890 1 None None with
    | inr ctx => (ctx_income ctx, ctx_expense ctx) = (30, 40)
    | inl _ => False
    end) by (by vm_compute).
  destruct (DashboardView_get_context_data (H := sample_arithmetic) (H0 := sample_digits)
              ledger 738890 738890 1 None None) as [e|ctx] eqn:Hctx; [done|].
  exists ctx. split; [reflexivity|]. split; [exact Hfigures|].
  injection Hfigures as Hi He.
  apply (proj1 (overspending_iff_expense_exceeds_income (H := sample_arithmetic)
                  (H0 := sample_digits) ledger 738890 738890 1 None None objects 0 0 10)
               ctx Hctx).
  rewrite Hi, He. lia.
Defined.

(** The [card] parameter in digits of another script: U+0661, the
    Arabic-Indic digit one, selects card 1.  U+00B2, the superscript two,
    is a digit that [int] does not convert, and the view raises. *)
Example dashboard_card_parameter_in_other_digits :
  match DashboardView_get_context_data (H := sample_arithmetic) (H0 := sample_digits)
          ledger 738890 738890 1 None (Some [1633%N]) with
  | inr ctx =>
      ctx_selected_card ctx = Some (mkCard 1 (mkCardRow 1 100 true))
      ∧ (ctx_income ctx, ctx_expense ctx, ctx_balance ctx) = (30, 0, 100)
  | inl _ => False
  end
  ∧ isdigit (H0 := sample_digits) [178%N] = true
  ∧ DashboardView_get_context_data (H := sample_arithmetic) (H0 := sample_digits)
      ledger 738890 738890 1 None (Some [178%N]) = inl ValueError.
Proof. by vm_compute. Qed.
